(** * SageForge backtest front end: the session controller

    A shallow embedding of the browser-side controller of the repository
    (frontend/js/app.js with its UIHandler and ApiService collaborators,
    and the older single-file controller frontend/js/main.js), together
    with the properties of its selection store, period resolver,
    submit check, run lifecycle and export paths.

    Conventions of the embedding.
    - JavaScript numbers are modelled as rationals plus NaN ([num]);
      rounding of IEEE doubles, infinities and the sign of zero are not
      modelled.
    - The ambient inputs of a handler (the clock read by [new Date()],
      the value drawn by [Math.random()]) are explicit arguments.
    - Host functions whose full behaviour is outside the repository
      ([parseFloat], the [Date] string parser) and the host's time zone
      (its offset at every instant) are parameters of the sections that
      use them; decimal and ISO-date instances, fixed zones and a zone
      with daylight saving are given for evaluation.
    - Strings are sequences of code units below 256.
    - The page is one record per collaborator: the controller state, the
      DOM elements the handlers read or write, the host (timers, issued
      fetch calls, alerts, downloads).
    - The array of selected symbols is updated in place and shared
      between objects: arrays live in a store and are held by
      reference, and the text sent over the network is the copy taken
      when it is sent.
    - The payload of a run is a record of properties, each of which may
      be missing. *)

From Stdlib Require Import ZArith QArith Qround Lqa Lia Ascii String.
From stdpp Require Import base option list strings gmap.

Close Scope Q_scope.
Local Open Scope Z_scope.

(** ** JavaScript values used by the controller *)

(** A JavaScript number: a rational or NaN. *)
Inductive num : Type :=
  | NaN
  | Num (q : Q).

Definition Qltb (x y : Q) : bool := negb (Qle_bool y x).

(** [x > 0] on numbers; every comparison with NaN is false. *)
Definition gt0 (x : num) : bool :=
  match x with
  | NaN => false
  | Num q => Qltb 0%Q q
  end.

(** Truthiness of a string: only the empty string is falsy. *)
Definition truthy_str (s : string) : bool :=
  match s with
  | EmptyString => false
  | String _ _ => true
  end.

(** [Math.min] on rationals. *)
Definition Qmin' (x y : Q) : Q := if Qle_bool x y then x else y.

(** Truthiness of a rational: zero is falsy. *)
Definition truthy_Q (q : Q) : bool := negb (Qeq_bool q 0%Q).

(** [x || d] where [x] is a possibly missing numeric property. *)
Definition or_num (x : option Q) (d : Q) : Q :=
  match x with
  | Some q => if truthy_Q q then q else d
  | None => d
  end.

(** [x || d] where [x] is a possibly missing string property. *)
Definition or_str (x : option string) (d : string) : string :=
  match x with
  | Some s => if truthy_str s then s else d
  | None => d
  end.

(** ** The host [Date] object

    Time values are milliseconds since the epoch.  The calendar follows
    the abstract operations of the language standard: [Day],
    [TimeWithinDay], [DayFromYear], [YearFromTime], [MonthFromTime],
    [DateFromTime], [MakeDay], [MakeDate], [LocalTime], [UTC].  The
    local time zone is the host's: its offset depends on the instant
    (daylight saving), as [LocalTZA(t, isUTC)] of the standard does.  The
    clipping of time values to the representable range is not
    modelled. *)
Module HostDate.

Definition msPerDay : Z := 86400000.

Definition Day (t : Z) : Z := t / msPerDay.
Definition TimeWithinDay (t : Z) : Z := t mod msPerDay.

Definition DayFromYear (y : Z) : Z :=
  365 * (y - 1970) + (y - 1969) / 4 - (y - 1901) / 100 + (y - 1601) / 400.

Definition DaysInYear (y : Z) : Z :=
  if negb (y mod 4 =? 0) then 365
  else if negb (y mod 100 =? 0) then 366
  else if negb (y mod 400 =? 0) then 365
  else 366.

Definition InLeapYear (y : Z) : Z := if DaysInYear y =? 366 then 1 else 0.

(** The largest [y] with [DayFromYear y <= d]: an estimate by the mean
    length of a year (146097 days in 400 years), which is off by one
    year at most, and its adjustment (see [YearFromDay_spec]). *)
Definition YearFromDay (d : Z) : Z :=
  let y0 := 1970 + (400 * d) / 146097 in
  if DayFromYear (y0 + 1) <=? d then y0 + 1
  else if d <? DayFromYear y0 then y0 - 1
  else y0.

Definition YearFromTime (t : Z) : Z := YearFromDay (Day t).

Definition DayWithinYear (t : Z) : Z := Day t - DayFromYear (YearFromTime t).

(** Day number within the year on which month [m] (0-based) starts. *)
Definition MonthStart (leap m : Z) : Z :=
  match m with
  | 0 => 0
  | 1 => 31
  | 2 => 59 + leap
  | 3 => 90 + leap
  | 4 => 120 + leap
  | 5 => 151 + leap
  | 6 => 181 + leap
  | 7 => 212 + leap
  | 8 => 243 + leap
  | 9 => 273 + leap
  | 10 => 304 + leap
  | _ => 334 + leap
  end.

Definition MonthFromTime (t : Z) : Z :=
  let leap := InLeapYear (YearFromTime t) in
  let d := DayWithinYear t in
  if d <? 31 then 0
  else if d <? 59 + leap then 1
  else if d <? 90 + leap then 2
  else if d <? 120 + leap then 3
  else if d <? 151 + leap then 4
  else if d <? 181 + leap then 5
  else if d <? 212 + leap then 6
  else if d <? 243 + leap then 7
  else if d <? 273 + leap then 8
  else if d <? 304 + leap then 9
  else if d <? 334 + leap then 10
  else 11.

Definition DateFromTime (t : Z) : Z :=
  DayWithinYear t
  - MonthStart (InLeapYear (YearFromTime t)) (MonthFromTime t) + 1.

(** [MakeDay year month date]: the day number of [date] in the given
    month, where [date] may lie outside the month and [month] outside
    0..11. *)
Definition MakeDay (year month date : Z) : Z :=
  let ym := year + month / 12 in
  let mn := month mod 12 in
  DayFromYear ym + MonthStart (InLeapYear ym) mn + date - 1.

Definition MakeDate (day time : Z) : Z := day * msPerDay + time.

(** The host's time zone, [LocalTZA(t, isUTC)] of the standard in its
    two readings: [offset_at t] is the offset, in milliseconds, in force
    at the instant [t] (a UTC time value); [offset_of_local l] is the
    offset by which the local time value [l] is read back as an instant
    (in the hour skipped or repeated at a transition, the offset in
    force before the transition). *)
Record Zone := {
  offset_at : Z -> Z;
  offset_of_local : Z -> Z
}.

(** A zone without daylight saving. *)
Definition fixed_zone (offset : Z) : Zone :=
  {| offset_at := fun _ => offset; offset_of_local := fun _ => offset |}.

Definition utc : Zone := fixed_zone 0.

Section Local.
Variable LocalTZA : Zone.

Definition LocalTime (t : Z) : Z := t + offset_at LocalTZA t.
Definition UTC (t : Z) : Z := t - offset_of_local LocalTZA t.

(** [d.getDate()] *)
Definition getDate (t : Z) : Z := DateFromTime (LocalTime t).

(** [d.setDate(dt)] *)
Definition setDate (t dt : Z) : Z :=
  let lt := LocalTime t in
  UTC (MakeDate (MakeDay (YearFromTime lt) (MonthFromTime lt) dt)
                (TimeWithinDay lt)).
End Local.

(** Decimal rendering of a non-negative integer on exactly [k] digits
    (the low-order [k] digits, zero padded). *)
Definition digit (z : Z) : ascii :=
  ascii_of_nat (48 + Z.to_nat (z mod 10)).

Fixpoint digits (k : nat) (z : Z) (acc : string) : string :=
  match k with
  | O => acc
  | S k' => digits k' (z / 10) (String (digit z) acc)
  end.

(** [d.toISOString().split('T')[0]]: the UTC calendar date, with the
    expanded signed six-digit year outside 0..9999. *)
Definition isoDate (t : Z) : string :=
  let y := YearFromTime t in
  let m := MonthFromTime t + 1 in
  let d := DateFromTime t in
  let ys :=
    if (0 <=? y) && (y <=? 9999) then digits 4 y ""
    else if 0 <=? y then String "+" (digits 6 y "")
    else String "-" (digits 6 (- y) "") in
  ys +:+ "-" +:+ digits 2 m "" +:+ "-" +:+ digits 2 d "".

(** The time value of midnight UTC of a calendar date (1-based month). *)
Definition UTCDate (y m d : Z) : Z := MakeDate (MakeDay y (m - 1) d) 0.

End HostDate.


(** ** Instances of the host parsers, for evaluation *)

Definition digit_val (c : ascii) : option Z :=
  let n := Z.of_nat (nat_of_ascii c) in
  if (48 <=? n) && (n <=? 57) then Some (n - 48) else None.

(** Reads the longest prefix of decimal digits: its value, its length
    and the rest of the string. *)
Fixpoint read_digits (s : string) (acc : Z) (cnt : nat) : Z * nat * string :=
  match s with
  | String c s' =>
      match digit_val c with
      | Some d => read_digits s' (10 * acc + d) (S cnt)
      | None => (acc, cnt, s)
      end
  | EmptyString => (acc, cnt, s)
  end.

(** [parseFloat] on plain decimal literals: an optional sign, digits, an
    optional fraction; whatever follows is ignored, and a string with no
    digit at the front gives NaN.  (Leading white space, exponents and
    [Infinity] are outside this instance.) *)
Definition parseFloat_dec (s : string) : num :=
  let '(neg, s1) :=
    match s with
    | String "-" r => (true, r)
    | String "+" r => (false, r)
    | _ => (false, s)
    end in
  let '(ip, ni, s2) := read_digits s1 0 0 in
  let '(fp, nf, _) :=
    match s2 with
    | String "." r => read_digits r 0 0
    | _ => (0, O, s2)
    end in
  if (ni + nf =? 0)%nat then NaN
  else
    let q := Qplus (ip # 1) (fp # Z.to_pos (10 ^ Z.of_nat nf)) in
    Num (if neg then Qopp q else q).

Definition DaysInMonth (y m : Z) : Z :=
  let leap := HostDate.InLeapYear y in
  if m =? 12 then 31
  else HostDate.MonthStart leap m - HostDate.MonthStart leap (m - 1).

(** The time value of [new Date(s)] for the date-only form [YYYY-MM-DD]
    that a date input yields (read as midnight UTC); [None] stands for
    an invalid date, whose time value is NaN. *)
Definition Date_parse_iso (s : string) : option Z :=
  match s with
  | String y1 (String y2 (String y3 (String y4 (String "-"
      (String m1 (String m2 (String "-" (String d1 (String d2 EmptyString))))))))) =>
      a ← digit_val y1; b ← digit_val y2; c ← digit_val y3; d ← digit_val y4;
      e ← digit_val m1; f ← digit_val m2; g ← digit_val d1; h ← digit_val d2;
      let y := 1000 * a + 100 * b + 10 * c + d in
      let m := 10 * e + f in
      let dd := 10 * g + h in
      if (1 <=? m) && (m <=? 12) && (1 <=? dd) && (dd <=? DaysInMonth y m)
      then Some (HostDate.UTCDate y m dd)
      else None
  | _ => None
  end.

(** ** Data model *)

(** An instrument of the catalog. *)
Record Stock := { symbol : string; name : string; sector : string }.

(** The object built by [startBacktest] ([params]).  Its [stocks]
    property is a reference to an array: the very array that
    [this.state.selectedStocks] referred to when the object was built. *)
Record Params := {
  stocks : nat;
  strategy : string;
  target_percent : num;
  stop_loss_percent : num;
  req_start_date : string;
  req_end_date : string;
  timeframe : string
}.

(** The text [JSON.stringify(params)] sent as the body of a request: the
    content of the object, and of its array, when the request was
    issued. *)
Record Body := {
  body_stocks : list string;
  body_strategy : string;
  body_target_percent : num;
  body_stop_loss_percent : num;
  body_start_date : string;
  body_end_date : string;
  body_timeframe : string
}.

(** The object returned by [getDateRange]. *)
Record DateRange := { start_date : string; end_date : string }.

(** A trade of the server's payload.  Each property may be missing. *)
Record Trade := {
  stock : option string;
  pattern_time : option string;
  exit_time_formatted : option string;
  entry_price : option Q;
  exit_price : option Q;
  outcome : option string;
  points_gained : option Q;
  percentage_gain : option Q;
  minutes_held : option Q;
  candles_held : option Q
}.

(** The payload of a run.  Each property may be missing. *)
Record Results := {
  profit_rate : option Q;
  safe_rate : option Q;
  stop_loss_rate : option Q;
  total_patterns : option Q;
  r_target_percent : option Q;
  r_stop_loss_percent : option Q;
  stocks_analyzed : option Q;
  r_strategy : option string;
  r_period : option string;
  r_timeframe : option string;
  detailed_trades : option (list Trade);
  target_hit_rate : option Q;
  target_hit_count : option Q;
  stop_loss_count : option Q;
  eod_exit_count : option Q;
  avg_return : option Q
}.

(** [this.state] of the controller.  [selectedStocks] is a reference to
    the array of selected symbols. *)
Record AppState := {
  allStocks : list Stock;
  filteredStocks : list Stock;
  selectedStocks : nat;
  selectedStrategy : string;
  selectedPeriodMonths : option Z;  (* the result of [parseInt]; [None] is NaN *)
  isCustomPeriod : bool;
  lastBacktestParams : option Params
}.

(** The elements of the page that the handlers read or write.  The stock
    list and the counter text are rendered from the state and are not
    kept; [rendered] is the payload the results section was last
    rendered from. *)
Record Document := {
  targetPercent : string;
  stopLossPercent : string;
  startDate : string;
  endDate : string;
  startBacktestBtn_disabled : bool;
  progressSection_shown : bool;
  resultsSection_shown : bool;
  progressFill_width : Q;
  progressText : string;
  rendered : option Results
}.

(** A [fetch] call issued by the ApiService. *)
Record Request := { endpoint : string; body : Body }.

(** A file handed to the browser by [ApiService.downloadJSON]; its text
    is [JSON.stringify(data, null, 2)]. *)
Record Download := { filename : string; data : Results }.

(** The browser: the live [setInterval] callbacks of [animateProgress]
    (timer id to the callback's own [progress] variable), the next timer
    id, the fetch calls issued so far (oldest first), the number of
    [runBacktest] promises not yet settled, the alerts shown and the
    files downloaded. *)
Record Host := {
  timers : gmap nat Q;
  next_timer : nat;
  outbox : list Request;
  awaiting : nat;
  alerts : list string;
  downloads : list Download
}.

(** The page: the controller state, the document, the UIHandler's
    [progressInterval], the ApiService's [lastBacktestResults], the
    arrays of symbols allocated so far (reference to content) with the
    next free reference, and the browser. *)
Record World := {
  state : AppState;
  doc : Document;
  progressInterval : option nat;
  lastBacktestResults : option Results;
  arrays : gmap nat (list string);
  next_array : nat;
  host : Host
}.

(** *** Field updates *)

Definition set_allStocks (v : list Stock) (s : AppState) : AppState :=
  {| allStocks := v; filteredStocks := filteredStocks s;
     selectedStocks := selectedStocks s; selectedStrategy := selectedStrategy s;
     selectedPeriodMonths := selectedPeriodMonths s;
     isCustomPeriod := isCustomPeriod s;
     lastBacktestParams := lastBacktestParams s |}.

Definition set_filteredStocks (v : list Stock) (s : AppState) : AppState :=
  {| allStocks := allStocks s; filteredStocks := v;
     selectedStocks := selectedStocks s; selectedStrategy := selectedStrategy s;
     selectedPeriodMonths := selectedPeriodMonths s;
     isCustomPeriod := isCustomPeriod s;
     lastBacktestParams := lastBacktestParams s |}.

Definition set_selectedStocks (v : nat) (s : AppState) : AppState :=
  {| allStocks := allStocks s; filteredStocks := filteredStocks s;
     selectedStocks := v; selectedStrategy := selectedStrategy s;
     selectedPeriodMonths := selectedPeriodMonths s;
     isCustomPeriod := isCustomPeriod s;
     lastBacktestParams := lastBacktestParams s |}.

Definition set_selectedStrategy (v : string) (s : AppState) : AppState :=
  {| allStocks := allStocks s; filteredStocks := filteredStocks s;
     selectedStocks := selectedStocks s; selectedStrategy := v;
     selectedPeriodMonths := selectedPeriodMonths s;
     isCustomPeriod := isCustomPeriod s;
     lastBacktestParams := lastBacktestParams s |}.

Definition set_selectedPeriodMonths (v : option Z) (s : AppState) : AppState :=
  {| allStocks := allStocks s; filteredStocks := filteredStocks s;
     selectedStocks := selectedStocks s; selectedStrategy := selectedStrategy s;
     selectedPeriodMonths := v;
     isCustomPeriod := isCustomPeriod s;
     lastBacktestParams := lastBacktestParams s |}.

Definition set_isCustomPeriod (v : bool) (s : AppState) : AppState :=
  {| allStocks := allStocks s; filteredStocks := filteredStocks s;
     selectedStocks := selectedStocks s; selectedStrategy := selectedStrategy s;
     selectedPeriodMonths := selectedPeriodMonths s;
     isCustomPeriod := v;
     lastBacktestParams := lastBacktestParams s |}.

Definition set_lastBacktestParams (v : option Params) (s : AppState) : AppState :=
  {| allStocks := allStocks s; filteredStocks := filteredStocks s;
     selectedStocks := selectedStocks s; selectedStrategy := selectedStrategy s;
     selectedPeriodMonths := selectedPeriodMonths s;
     isCustomPeriod := isCustomPeriod s;
     lastBacktestParams := v |}.

Definition set_targetPercent (v : string) (d : Document) : Document :=
  {| targetPercent := v; stopLossPercent := stopLossPercent d;
     startDate := startDate d; endDate := endDate d;
     startBacktestBtn_disabled := startBacktestBtn_disabled d;
     progressSection_shown := progressSection_shown d;
     resultsSection_shown := resultsSection_shown d;
     progressFill_width := progressFill_width d;
     progressText := progressText d; rendered := rendered d |}.

Definition set_stopLossPercent (v : string) (d : Document) : Document :=
  {| targetPercent := targetPercent d; stopLossPercent := v;
     startDate := startDate d; endDate := endDate d;
     startBacktestBtn_disabled := startBacktestBtn_disabled d;
     progressSection_shown := progressSection_shown d;
     resultsSection_shown := resultsSection_shown d;
     progressFill_width := progressFill_width d;
     progressText := progressText d; rendered := rendered d |}.

Definition set_startDate (v : string) (d : Document) : Document :=
  {| targetPercent := targetPercent d; stopLossPercent := stopLossPercent d;
     startDate := v; endDate := endDate d;
     startBacktestBtn_disabled := startBacktestBtn_disabled d;
     progressSection_shown := progressSection_shown d;
     resultsSection_shown := resultsSection_shown d;
     progressFill_width := progressFill_width d;
     progressText := progressText d; rendered := rendered d |}.

Definition set_endDate (v : string) (d : Document) : Document :=
  {| targetPercent := targetPercent d; stopLossPercent := stopLossPercent d;
     startDate := startDate d; endDate := v;
     startBacktestBtn_disabled := startBacktestBtn_disabled d;
     progressSection_shown := progressSection_shown d;
     resultsSection_shown := resultsSection_shown d;
     progressFill_width := progressFill_width d;
     progressText := progressText d; rendered := rendered d |}.

Definition set_disabled (v : bool) (d : Document) : Document :=
  {| targetPercent := targetPercent d; stopLossPercent := stopLossPercent d;
     startDate := startDate d; endDate := endDate d;
     startBacktestBtn_disabled := v;
     progressSection_shown := progressSection_shown d;
     resultsSection_shown := resultsSection_shown d;
     progressFill_width := progressFill_width d;
     progressText := progressText d; rendered := rendered d |}.

Definition set_sections (prog res : bool) (d : Document) : Document :=
  {| targetPercent := targetPercent d; stopLossPercent := stopLossPercent d;
     startDate := startDate d; endDate := endDate d;
     startBacktestBtn_disabled := startBacktestBtn_disabled d;
     progressSection_shown := prog;
     resultsSection_shown := res;
     progressFill_width := progressFill_width d;
     progressText := progressText d; rendered := rendered d |}.

Definition set_progressFill_width (v : Q) (d : Document) : Document :=
  {| targetPercent := targetPercent d; stopLossPercent := stopLossPercent d;
     startDate := startDate d; endDate := endDate d;
     startBacktestBtn_disabled := startBacktestBtn_disabled d;
     progressSection_shown := progressSection_shown d;
     resultsSection_shown := resultsSection_shown d;
     progressFill_width := v;
     progressText := progressText d; rendered := rendered d |}.

Definition set_progressText (v : string) (d : Document) : Document :=
  {| targetPercent := targetPercent d; stopLossPercent := stopLossPercent d;
     startDate := startDate d; endDate := endDate d;
     startBacktestBtn_disabled := startBacktestBtn_disabled d;
     progressSection_shown := progressSection_shown d;
     resultsSection_shown := resultsSection_shown d;
     progressFill_width := progressFill_width d;
     progressText := v; rendered := rendered d |}.

Definition set_rendered (v : option Results) (d : Document) : Document :=
  {| targetPercent := targetPercent d; stopLossPercent := stopLossPercent d;
     startDate := startDate d; endDate := endDate d;
     startBacktestBtn_disabled := startBacktestBtn_disabled d;
     progressSection_shown := progressSection_shown d;
     resultsSection_shown := resultsSection_shown d;
     progressFill_width := progressFill_width d;
     progressText := progressText d; rendered := v |}.

Definition set_timers (v : gmap nat Q) (h : Host) : Host :=
  {| timers := v; next_timer := next_timer h; outbox := outbox h;
     awaiting := awaiting h; alerts := alerts h; downloads := downloads h |}.

Definition set_next_timer (v : nat) (h : Host) : Host :=
  {| timers := timers h; next_timer := v; outbox := outbox h;
     awaiting := awaiting h; alerts := alerts h; downloads := downloads h |}.

Definition set_outbox (v : list Request) (h : Host) : Host :=
  {| timers := timers h; next_timer := next_timer h; outbox := v;
     awaiting := awaiting h; alerts := alerts h; downloads := downloads h |}.

Definition set_awaiting (v : nat) (h : Host) : Host :=
  {| timers := timers h; next_timer := next_timer h; outbox := outbox h;
     awaiting := v; alerts := alerts h; downloads := downloads h |}.

Definition set_alerts (v : list string) (h : Host) : Host :=
  {| timers := timers h; next_timer := next_timer h; outbox := outbox h;
     awaiting := awaiting h; alerts := v; downloads := downloads h |}.

Definition set_downloads (v : list Download) (h : Host) : Host :=
  {| timers := timers h; next_timer := next_timer h; outbox := outbox h;
     awaiting := awaiting h; alerts := alerts h; downloads := v |}.

Definition on_state (f : AppState -> AppState) (w : World) : World :=
  {| state := f (state w); doc := doc w;
     progressInterval := progressInterval w;
     lastBacktestResults := lastBacktestResults w;
     arrays := arrays w; next_array := next_array w; host := host w |}.

Definition on_doc (f : Document -> Document) (w : World) : World :=
  {| state := state w; doc := f (doc w);
     progressInterval := progressInterval w;
     lastBacktestResults := lastBacktestResults w;
     arrays := arrays w; next_array := next_array w; host := host w |}.

Definition on_host (f : Host -> Host) (w : World) : World :=
  {| state := state w; doc := doc w;
     progressInterval := progressInterval w;
     lastBacktestResults := lastBacktestResults w;
     arrays := arrays w; next_array := next_array w; host := f (host w) |}.

Definition set_progressInterval (v : option nat) (w : World) : World :=
  {| state := state w; doc := doc w;
     progressInterval := v;
     lastBacktestResults := lastBacktestResults w;
     arrays := arrays w; next_array := next_array w; host := host w |}.

Definition set_lastBacktestResults (v : option Results) (w : World) : World :=
  {| state := state w; doc := doc w;
     progressInterval := progressInterval w;
     lastBacktestResults := v;
     arrays := arrays w; next_array := next_array w; host := host w |}.

(** The content of the array at a reference. *)
Definition array_at (w : World) (ref : nat) : list string :=
  default [] (arrays w !! ref).

(** The selected symbols: the content of the array that
    [this.state.selectedStocks] refers to. *)
Definition selection (w : World) : list string :=
  array_at w (selectedStocks (state w)).

(** An update in place ([push], [splice]) of the array at a reference:
    every holder of the reference sees the new content. *)
Definition set_array (ref : nat) (content : list string) (w : World) : World :=
  {| state := state w; doc := doc w;
     progressInterval := progressInterval w;
     lastBacktestResults := lastBacktestResults w;
     arrays := <[ref := content]> (arrays w); next_array := next_array w;
     host := host w |}.

(** The evaluation of the array literal [[]]: a new, empty array at the
    next free reference. *)
Definition new_array (w : World) : World :=
  {| state := state w; doc := doc w;
     progressInterval := progressInterval w;
     lastBacktestResults := lastBacktestResults w;
     arrays := <[next_array w := []]> (arrays w);
     next_array := S (next_array w);
     host := host w |}.

(** [JSON.stringify(params)] *)
Definition stringify (w : World) (p : Params) : Body :=
  {| body_stocks := array_at w (stocks p);
     body_strategy := strategy p;
     body_target_percent := target_percent p;
     body_stop_loss_percent := stop_loss_percent p;
     body_start_date := req_start_date p;
     body_end_date := req_end_date p;
     body_timeframe := timeframe p |}.

(** [alert(msg)] *)
Definition alert (msg : string) (w : World) : World :=
  on_host (fun h => set_alerts (alerts h ++ [msg]) h) w.

(** ** UIHandler: the progress indicator and the results section *)

Definition messages : list string :=
  [ "Connecting to Angel One API...";
    "Fetching historical data...";
    "Detecting hammer patterns...";
    "Simulating trades...";
    "Calculating results...";
    "Preparing report..." ].

(** [messages[i]] for an integer index; out of range is [undefined]. *)
Definition message_at (i : Z) : option string :=
  if i <? 0 then None else messages !! Z.to_nat i.

(** The increment of one tick, [Math.random() * 15 + 5], for the value
    [r] drawn by [Math.random()]. *)
Definition increment (r : Q) : Q := (r * 15 + 5)%Q.

(** The new value of the callback's [progress] variable. *)
Definition next_progress (progress r : Q) : Q :=
  Qmin' (progress + increment r)%Q 95%Q.

(** One run of the [setInterval] callback of [animateProgress] for the
    timer [id], with [r] the value drawn by [Math.random()].  A timer
    that was cleared runs no more. *)
Definition tick (id : nat) (r : Q) (w : World) : World :=
  match timers (host w) !! id with
  | None => w
  | Some progress0 =>
      let progress := next_progress progress0 r in
      let w := on_doc (set_progressFill_width progress) w in
      let messageIndex := Qfloor (progress / 100 * 6)%Q in
      let w :=
        match message_at messageIndex with
        | Some m => if truthy_str m then on_doc (set_progressText m) w else w
        | None => w
        end in
      if Qle_bool 95%Q progress
      then on_host (fun h => set_timers (delete id (timers h)) h) w
      else on_host (fun h => set_timers (<[id := progress]> (timers h)) h) w
  end.

(** [animateProgress()]: a fresh timer whose [progress] starts at 0; its
    id overwrites [this.progressInterval]. *)
Definition animateProgress (w : World) : World :=
  let interval := next_timer (host w) in
  let w :=
    on_host (fun h => set_next_timer (S interval)
                        (set_timers (<[interval := 0%Q]> (timers h)) h)) w in
  set_progressInterval (Some interval) w.

(** [showProgress()] *)
Definition showProgress (w : World) : World :=
  animateProgress (on_doc (set_sections true false) w).

(** [clearInterval(id)] *)
Definition clearInterval (id : nat) (w : World) : World :=
  on_host (fun h => set_timers (delete id (timers h)) h) w.

(** [hideProgress()].  The handle is tested for truthiness, so a handle
    equal to 0 is not cleared.  (The section itself is hidden by a
    time-out half a second later, which is not modelled.) *)
Definition hideProgress (w : World) : World :=
  let w :=
    match progressInterval w with
    | Some id => if (id =? 0)%nat then w else clearInterval id w
    | None => w
    end in
  on_doc (fun d => set_progressText "Complete!" (set_progressFill_width 100%Q d)) w.

(** The four cards written by [renderSummary]; a missing property is
    interpolated as it is ([None] prints as "undefined"). *)
Record Summary := {
  card_target_hit_rate : option Q;
  card_target_hit_count : option Q;
  card_stop_loss_rate : option Q;
  card_stop_loss_count : option Q;
  card_eod_exit_count : option Q;
  card_total_patterns : option Q;
  card_avg_return : option Q
}.

Definition renderSummary (results : Results) : Summary :=
  {| card_target_hit_rate := target_hit_rate results;
     card_target_hit_count := target_hit_count results;
     card_stop_loss_rate := stop_loss_rate results;
     card_stop_loss_count := stop_loss_count results;
     card_eod_exit_count := eod_exit_count results;
     card_total_patterns := total_patterns results;
     card_avg_return := avg_return results |}.

(** [displayResults(results)]: the summary and the table are rendered
    from the payload. *)
Definition displayResults (results : Results) (w : World) : World :=
  let w := hideProgress w in
  let w := on_doc (fun d => set_sections (progressSection_shown d) true d) w in
  on_doc (set_rendered (Some results)) w.

Definition newline : string := String (ascii_of_nat 10) EmptyString.

(** [showError(message)] *)
Definition showError (message : string) (w : World) : World :=
  let w := hideProgress w in
  alert ("Error: " +:+ message +:+ newline +:+ newline
         +:+ "Please check your inputs and try again.") w.

(** ** ApiService *)

Definition backtest_endpoint : string := "/api/backtest".
Definition excel_endpoint : string := "/api/backtest/download".

(** How a [runBacktest] call ends: a 2xx response with its payload, a
    non-2xx response with the [detail] of its body, or a failed
    transport with the message of the error. *)
Inductive Outcome :=
  | Ok2xx (results : Results)
  | HttpError (detail : option string)
  | TransportError (message : string).

(** [runBacktest(params)] up to its first suspension: the request is
    issued. *)
Definition api_runBacktest_send (params : Params) (w : World) : World :=
  on_host (fun h =>
    set_awaiting (S (awaiting h))
      (set_outbox (outbox h ++ [ {| endpoint := backtest_endpoint;
                                     body := stringify w params |} ]) h)) w.

(** [runBacktest] after the response: the payload is stored and
    returned, or an error is thrown with its message. *)
Definition api_runBacktest_receive (o : Outcome) (w : World) : World * (Results + string) :=
  match o with
  | Ok2xx results => (set_lastBacktestResults (Some results) w, inl results)
  | HttpError detail => (w, inr (or_str detail "Backtest failed"))
  | TransportError message => (w, inr message)
  end.

(** [ApiService.downloadExcel(params)] up to its first suspension. *)
Definition api_downloadExcel_send (params : Params) (w : World) : World :=
  on_host (fun h =>
    set_outbox (outbox h ++ [ {| endpoint := excel_endpoint;
                                  body := stringify w params |} ]) h) w.

(** [ApiService.downloadJSON(data, filename)] *)
Definition api_downloadJSON (d : Results) (fname : string) (w : World) : World :=
  on_host (fun h =>
    set_downloads (downloads h ++ [ {| filename := fname; data := d |} ]) h) w.

(** ** Strings

    A string of the model is a sequence of code units below 256 (the
    Latin-1 range), one character per code unit.  On these strings the
    three methods used by the search box are the host's: [trim] strips
    the white space and line terminators of the standard, which below
    256 are the code units 9 to 13, 32 and 160 (the no-break space);
    [toLowerCase] maps the capital letters A..Z and, in the upper half,
    192..214 and 216..222 to the letter 32 above them and leaves every
    other code unit alone.  Text with code units from 256 on is outside
    the model. *)

Definition is_space (c : ascii) : bool :=
  let n := nat_of_ascii c in
  ((9 <=? n) && (n <=? 13) || (n =? 32) || (n =? 160))%nat.

(** [!s.trim()]: the string is empty once trimmed. *)
Fixpoint blank (s : string) : bool :=
  match s with
  | EmptyString => true
  | String c r => is_space c && blank r
  end.

Definition lower (c : ascii) : ascii :=
  let n := nat_of_ascii c in
  if ((65 <=? n) && (n <=? 90)
      || (192 <=? n) && (n <=? 214)
      || (216 <=? n) && (n <=? 222))%nat
  then ascii_of_nat (n + 32) else c.

(** [s.toLowerCase()] *)
Fixpoint toLowerCase (s : string) : string :=
  match s with
  | EmptyString => EmptyString
  | String c r => String (lower c) (toLowerCase r)
  end.

(** [s.includes(sub)] on strings: [sub] occurs in [s]. *)
Fixpoint str_includes (s sub : string) : bool :=
  String.prefix sub s
  || match s with
     | EmptyString => false
     | String _ r => str_includes r sub
     end.

(** ** The controller (frontend/js/app.js) *)

(** [CONFIG.UI.MAX_STOCKS_SELECTION] of frontend/js/config.js.  No
    function of the controller reads it. *)
Definition MAX_STOCKS_SELECTION : nat := 20.

(** [arr.includes(x)] *)
Definition includes (x : string) (arr : list string) : bool :=
  bool_decide (x ∈ arr).

(** [arr.indexOf(x)]; [None] stands for -1. *)
Definition indexOf (x : string) (arr : list string) : option nat :=
  fst <$> list_find (fun y => y = x) arr.

(** The array after the body of [toggleStock]: [push] when the symbol is
    absent, [splice(index, 1)] at its first index otherwise. *)
Definition toggle (sym : string) (sel : list string) : list string :=
  match indexOf sym sel with
  | None => sel ++ [sym]
  | Some index => delete index sel
  end.

(** The array after the [forEach] of [selectAllStocks]. *)
Definition selectAll (visible : list Stock) (sel : list string) : list string :=
  foldl (fun acc st => if includes (symbol st) acc then acc else acc ++ [symbol st])
        sel visible.

(** The day table of [getDateRange], [daysMap[months] || 30]. *)
Definition daysMap (months : option Z) : option Z :=
  match months with
  | Some 1 => Some 30
  | Some 3 => Some 90
  | Some 6 => Some 180
  | Some 12 => Some 365
  | _ => None
  end.

Definition daysBack (months : option Z) : Z :=
  match daysMap months with
  | Some d => if d =? 0 then 30 else d
  | None => 30
  end.

(** [new Date(a) >= new Date(b)] on the time values of the two dates;
    a comparison with an invalid date is false. *)
Definition date_ge (a b : option Z) : bool :=
  match a, b with
  | Some x, Some y => y <=? x
  | _, _ => false
  end.

Definition run_first_message : string := "Please run a backtest first".

(** The message of the TypeError raised by reading a property of
    [null]; its wording is the host's. *)
Definition null_read_message : string := "Cannot read properties of null".

Section Controller.

(** Host functions. *)
Variable parseFloat : string -> num.
Variable Date_parse : string -> option Z.
Variable LocalTZA : HostDate.Zone.

(** The value computed by [updateStartButton] ([isValid]). *)
Definition canSubmit (w : World) : bool :=
  let hasStocks := (0 <? length (selection w))%nat in
  let hasTarget := gt0 (parseFloat (targetPercent (doc w))) in
  let hasStopLoss := gt0 (parseFloat (stopLossPercent (doc w))) in
  let hasValidPeriod :=
    if isCustomPeriod (state w)
    then truthy_str (startDate (doc w)) && truthy_str (endDate (doc w))
    else match selectedPeriodMonths (state w) with
         | Some m => 0 <? m
         | None => false
         end in
  hasStocks && hasTarget && hasStopLoss && hasValidPeriod.

(** [updateStartButton()] *)
Definition updateStartButton (w : World) : World :=
  on_doc (set_disabled (negb (canSubmit w))) w.

(** [searchStocks(query)] *)
Definition searchStocks (query : string) (w : World) : World :=
  if blank query then
    on_state (fun s => set_filteredStocks (allStocks s) s) w
  else
    let lowerQuery := toLowerCase query in
    on_state (fun s =>
      set_filteredStocks
        (filter (fun st =>
                   str_includes (toLowerCase (symbol st)) lowerQuery
                   || str_includes (toLowerCase (name st)) lowerQuery)
                (allStocks s)) s) w.

(** [toggleStock(symbol)]: the array is updated in place. *)
Definition toggleStock (sym : string) (w : World) : World :=
  updateStartButton
    (set_array (selectedStocks (state w)) (toggle sym (selection w)) w).

(** [selectAllStocks()]: the array is updated in place. *)
Definition selectAllStocks (w : World) : World :=
  updateStartButton
    (set_array (selectedStocks (state w))
               (selectAll (filteredStocks (state w)) (selection w)) w).

(** [clearAllStocks()]: the state is given a new, empty array. *)
Definition clearAllStocks (w : World) : World :=
  updateStartButton
    (on_state (set_selectedStocks (next_array w)) (new_array w)).

(** [validateDates()] *)
Definition validateDates (w : World) : World :=
  let sd := startDate (doc w) in
  let ed := endDate (doc w) in
  if truthy_str sd && truthy_str ed then
    if date_ge (Date_parse sd) (Date_parse ed)
    then on_doc (set_endDate "") (alert "Start date must be before end date" w)
    else w
  else w.

(** [getDateRange()], with [now] the time value of [new Date()]. *)
Definition getDateRange (now : Z) (w : World) : DateRange :=
  if isCustomPeriod (state w) then
    {| start_date := startDate (doc w); end_date := endDate (doc w) |}
  else
    let today := now in
    let back := daysBack (selectedPeriodMonths (state w)) in
    let startD := today in
    let startD :=
      HostDate.setDate LocalTZA startD (HostDate.getDate LocalTZA startD - back) in
    {| start_date := HostDate.isoDate startD;
       end_date := HostDate.isoDate today |}.

(** The [params] object assembled by [startBacktest]. *)
Definition buildParams (now : Z) (w : World) : Params :=
  let dateRange := getDateRange now w in
  {| stocks := selectedStocks (state w);
     strategy := selectedStrategy (state w);
     target_percent := parseFloat (targetPercent (doc w));
     stop_loss_percent := parseFloat (stopLossPercent (doc w));
     req_start_date := start_date dateRange;
     req_end_date := end_date dateRange;
     timeframe := "15min" |}.

(** [startBacktest()] up to its suspension on the network call: the
    parameters are stored, the progress indicator is started and the
    request is issued. *)
Definition startBacktest (now : Z) (w : World) : World :=
  let params := buildParams now w in
  let w := on_state (set_lastBacktestParams (Some params)) w in
  let w := showProgress w in
  api_runBacktest_send params w.

(** The rest of [startBacktest] once the network call has ended: the
    results are displayed, or the error is shown.  Without a pending
    call there is nothing to resume. *)
Definition backtestSettled (o : Outcome) (w : World) : World :=
  match awaiting (host w) with
  | O => w
  | S n =>
      let w := on_host (set_awaiting n) w in
      match api_runBacktest_receive o w with
      | (w, inl results) => displayResults results w
      | (w, inr message) =>
          showError (if truthy_str message then message
                     else "Backtest failed. Please try again.") w
      end
  end.

(** [downloadExcel()] up to its suspension on the network call. *)
Definition downloadExcel (w : World) : World :=
  match lastBacktestParams (state w) with
  | None => alert run_first_message w
  | Some params => api_downloadExcel_send params w
  end.

(** [downloadJSON()] *)
Definition downloadJSON (w : World) : World :=
  match lastBacktestResults w with
  | None => alert run_first_message w
  | Some results =>
      match lastBacktestParams (state w) with
      | None => alert ("Failed to download JSON data: " +:+ null_read_message) w
      | Some params =>
          let fname :=
            "backtest_" +:+ strategy params +:+ "_" +:+ req_start_date params
            +:+ "_to_" +:+ req_end_date params +:+ ".json" in
          api_downloadJSON results fname w
      end
  end.

(** *** Events of the page, as wired by [setupEventListeners] *)

Inductive Field := TargetField | StopLossField | StartDateField | EndDateField.

Inductive Event :=
  | StocksLoaded (l : list Stock)      (* [loadStocks] received the catalog *)
  | StockToggled (sym : string)        (* a stock check box changed *)
  | SelectAllClicked
  | ClearAllClicked
  | StrategyClicked (s : string)
  | PeriodClicked (months : option Z)  (* [parseInt] of the card's months *)
  | CustomChecked (checked : bool)
  | FieldEdited (f : Field) (v : string)
  | StartClicked (now : Z)             (* [startBacktest] ran, at time [now] *)
  | Ticked (id : nat) (r : Q)          (* a timer of [animateProgress] fired *)
  | BacktestSettled (o : Outcome)
  | ExcelClicked
  | JsonClicked
  | SearchEdited (query : string)      (* input in the search box *)
  | StocksFailed.                      (* [loadStocks] failed *)

Definition step (w : World) (e : Event) : World :=
  match e with
  | StocksLoaded l =>
      on_state (fun s => set_filteredStocks l (set_allStocks l s)) w
  | StockToggled sym => toggleStock sym w
  | SelectAllClicked => selectAllStocks w
  | ClearAllClicked => clearAllStocks w
  | StrategyClicked s =>
      updateStartButton (on_state (set_selectedStrategy s) w)
  | PeriodClicked months =>
      updateStartButton
        (on_state (fun s => set_isCustomPeriod false
                              (set_selectedPeriodMonths months s)) w)
  | CustomChecked checked =>
      updateStartButton (on_state (set_isCustomPeriod checked) w)
  | FieldEdited TargetField v =>
      updateStartButton (on_doc (set_targetPercent v) w)
  | FieldEdited StopLossField v =>
      updateStartButton (on_doc (set_stopLossPercent v) w)
  | FieldEdited StartDateField v =>
      updateStartButton (validateDates (on_doc (set_startDate v) w))
  | FieldEdited EndDateField v =>
      updateStartButton (validateDates (on_doc (set_endDate v) w))
  | StartClicked now => startBacktest now w
  | Ticked id r => tick id r w
  | BacktestSettled o => backtestSettled o w
  | ExcelClicked => downloadExcel w
  | JsonClicked => downloadJSON w
  | SearchEdited query => searchStocks query w
  | StocksFailed => showError "Failed to load stocks. Using demo data." w
  end.

Definition run (w : World) (evs : list Event) : World := foldl step w evs.

End Controller.

(** The page as the constructors leave it, for the given content of the
    input fields. *)
Definition initial (target stopLoss : string) : World :=
  {| state :=
       {| allStocks := []; filteredStocks := []; selectedStocks := 0;
          selectedStrategy := "hammer"; selectedPeriodMonths := Some 1;
          isCustomPeriod := false; lastBacktestParams := None |};
     doc :=
       {| targetPercent := target; stopLossPercent := stopLoss;
          startDate := ""; endDate := "";
          startBacktestBtn_disabled := false;
          progressSection_shown := false; resultsSection_shown := false;
          progressFill_width := 0%Q; progressText := "";
          rendered := None |};
     progressInterval := None;
     lastBacktestResults := None;
     arrays := {[ 0%nat := [] ]};
     next_array := 1;
     host :=
       {| timers := ∅; next_timer := 1; outbox := []; awaiting := 0;
          alerts := []; downloads := [] |} |}.

(** ** The older controller (frontend/js/main.js)

    The single-file controller that preceded app.js.  Its display path
    is the one that fills in defaults for missing properties and caps
    the hold-time columns. *)
Module Legacy.

(** [toggleStock]: every occurrence is filtered out when the symbol is
    present, otherwise it is pushed. *)
Definition toggle (sym : string) (sel : list string) : list string :=
  if includes sym sel
  then filter (fun s => s ≠ sym) sel
  else sel ++ [sym].

(** [selectAllVisible]: only the first 50 filtered stocks are shown. *)
Definition selectAllVisible (visible : list Stock) (sel : list string) : list string :=
  selectAll (take 50 visible) sel.

(** [isValid] of [updateStartButton]: the two parameter fields are only
    tested for being non-empty. *)
Definition canSubmit (w : World) (selectedPeriod : option Z) : bool :=
  let hasStocks := (0 <? length (selection w))%nat in
  let hasTarget := truthy_str (targetPercent (doc w)) in
  let hasStopLoss := truthy_str (stopLossPercent (doc w)) in
  let hasValidPeriod :=
    if isCustomPeriod (state w)
    then truthy_str (startDate (doc w)) && truthy_str (endDate (doc w))
    else match selectedPeriod with
         | Some m => 0 <? m
         | None => false
         end in
  hasStocks && hasTarget && hasStopLoss && hasValidPeriod.

(** The day table of [getStartDate], keyed by the card's index. *)
Definition daysBack (selectedPeriod : option Z) : Z :=
  match selectedPeriod with
  | Some 1 => 30
  | Some 2 => 90
  | Some 3 => 180
  | Some 4 => 365
  | _ => 30
  end.

(** [s.replace('_', ' ')]: the first underscore only. *)
Fixpoint replace_underscore (s : string) : string :=
  match s with
  | EmptyString => EmptyString
  | String c r =>
      if Ascii.eqb c "_" then String " " r else String c (replace_underscore r)
  end.

Definition green : string := "#51cf66".
Definition red : string := "#ff6b6b".
Definition yellow : string := "#ffd43b".

(** One row of the trades table.  [percentage_gain] is the number handed
    to [toFixed(2)]; the stock cell has no default. *)
Record Row := {
  cell_stock : option string;
  cell_patternTime : string;
  cell_exitTime : string;
  cell_entry_price : Q;
  cell_exit_price : Q;
  cell_outcome : string;
  cell_outcomeColor : string;
  cell_points_gained : Q;
  cell_pointsColor : string;
  cell_percentage_gain : Q;
  cell_minutesHeld : Q;
  cell_candlesHeld : Q
}.

(** The body of the [forEach] of [createTradesTable]. *)
Definition tradeRow (trade : Trade) : Row :=
  let outcomeColor :=
    if bool_decide (outcome trade = Some "profit") then green
    else if bool_decide (outcome trade = Some "stop_loss") then red
    else yellow in
  let pointsColor :=
    if Qle_bool 0%Q (or_num (points_gained trade) 0%Q) then green else red in
  let patternTime := or_str (pattern_time trade) "N/A" in
  let exitTime := or_str (exit_time_formatted trade) "N/A" in
  let minutesHeld := Qmin' (or_num (minutes_held trade) 0%Q) 45%Q in
  let candlesHeld := Qmin' (or_num (candles_held trade) 1%Q) 3%Q in
  {| cell_stock := stock trade;
     cell_patternTime := patternTime;
     cell_exitTime := exitTime;
     cell_entry_price := or_num (entry_price trade) 0%Q;
     cell_exit_price := or_num (exit_price trade) 0%Q;
     cell_outcome := replace_underscore (or_str (outcome trade) "unknown");
     cell_outcomeColor := outcomeColor;
     cell_points_gained := or_num (points_gained trade) 0%Q;
     cell_pointsColor := pointsColor;
     cell_percentage_gain := or_num (percentage_gain trade) 0%Q;
     cell_minutesHeld := minutesHeld;
     cell_candlesHeld := candlesHeld |}.

(** What [createTradesTable] renders: the placeholder for an empty list,
    or the rows of the first 25 trades under a heading with the total,
    followed by a note when the list was cut. *)
Inductive TradesTable :=
  | NoTrades
  | Table (rows : list Row) (total : nat) (cut_note : bool).

Definition createTradesTable (trades : list Trade) : TradesTable :=
  match trades with
  | [] => NoTrades
  | _ => Table (tradeRow <$> take 25 trades) (length trades)
               (25 <? length trades)%nat
  end.

(** The summary cards, the analysis details and the table built by
    [displayResults]. *)
Record Display := {
  show_profit_rate : Q;
  show_target_percent : Q;
  show_safe_rate : Q;
  show_stop_loss_rate : Q;
  show_stop_loss_percent : Q;
  show_total_patterns : Q;
  show_strategy : string;
  show_period : string;
  show_timeframe : string;
  show_stocks_analyzed : Q;
  show_trades : TradesTable
}.

Definition displayResults (selected : list string) (results : Results) : Display :=
  {| show_profit_rate := or_num (profit_rate results) 0%Q;
     show_target_percent := or_num (r_target_percent results) 3%Q;
     show_safe_rate := or_num (safe_rate results) 0%Q;
     show_stop_loss_rate := or_num (stop_loss_rate results) 0%Q;
     show_stop_loss_percent := or_num (r_stop_loss_percent results) 2%Q;
     show_total_patterns := or_num (total_patterns results) 0%Q;
     show_strategy := or_str (r_strategy results) "Hammer Pattern";
     show_period := or_str (r_period results) "Custom Range";
     show_timeframe := or_str (r_timeframe results) "15 Minutes";
     show_stocks_analyzed :=
       or_num (stocks_analyzed results) (Z.of_nat (length selected) # 1);
     show_trades :=
       createTradesTable (default [] (detailed_trades results)) |}.

(** The messages of the older [animateProgress]. *)
Definition messages : list string :=
  [ "Loading historical data...";
    "Detecting hammer patterns...";
    "Testing target and stop-loss levels...";
    "Calculating trade outcomes...";
    "Preparing results..." ].

Definition message_at (i : Z) : option string :=
  if i <? 0 then None else messages !! Z.to_nat i.

(** One run of the [setInterval] callback of the older
    [animateProgress].  (The rounded percentage written next to the bar
    follows the width and is not kept.) *)
Definition tick (id : nat) (r : Q) (w : World) : World :=
  match timers (host w) !! id with
  | None => w
  | Some progress0 =>
      let progress := next_progress progress0 r in
      let w := on_doc (set_progressFill_width progress) w in
      let messageIndex := Qfloor (progress / 100 * 5)%Q in
      let w :=
        match message_at messageIndex with
        | Some m => if truthy_str m then on_doc (set_progressText m) w else w
        | None => w
        end in
      if Qle_bool 95%Q progress
      then on_host (fun h => set_timers (delete id (timers h)) h) w
      else on_host (fun h => set_timers (<[id := progress]> (timers h)) h) w
  end.

(** The older [animateProgress]: the timer's id is kept in a local
    constant only. *)
Definition animateProgress (w : World) : World :=
  let interval := next_timer (host w) in
  on_host (fun h => set_next_timer (S interval)
                      (set_timers (<[interval := 0%Q]> (timers h)) h)) w.

(** [showLoadingState()]: a new progress section at 0%. *)
Definition showLoadingState (w : World) : World :=
  animateProgress
    (on_doc (fun d => set_progressText "Loading historical data..."
                        (set_progressFill_width 0%Q
                           (set_sections true false d))) w).

(** The older [hideProgress()]: the section is hidden, nothing else. *)
Definition hideProgress (w : World) : World :=
  on_doc (fun d => set_sections false (resultsSection_shown d) d) w.

(** [getStartDate()] and [getEndDate()] of the older controller, for the
    card index [selectedPeriod], with [now] the time value of
    [new Date()]. *)
Definition getStartDate (LocalTZA : HostDate.Zone) (now : Z) (selectedPeriod : option Z)
    (w : World) : string :=
  if isCustomPeriod (state w) then startDate (doc w)
  else
    let startD := now in
    HostDate.isoDate
      (HostDate.setDate LocalTZA startD
         (HostDate.getDate LocalTZA startD - daysBack selectedPeriod)).

Definition getEndDate (now : Z) (w : World) : string :=
  if isCustomPeriod (state w) then endDate (doc w) else HostDate.isoDate now.

End Legacy.

(** ** Sample pages and payloads *)

(** The page once [init] has run, for the given content of the two
    parameter fields. *)
Definition booted (parseFloat : string -> num) (target stopLoss : string) : World :=
  updateStartButton parseFloat (initial target stopLoss).

(** The scenario of the specification: TCS and INFY selected, strategy
    hammer, target 3.0, stop loss 2.0, the one-month preset, and then a
    click on the start button at time [now]. *)
Definition scenario_setup : list Event :=
  [ StockToggled "TCS"; StockToggled "INFY"; StrategyClicked "hammer";
    FieldEdited TargetField "3.0"; FieldEdited StopLossField "2.0";
    PeriodClicked (Some 1) ].

Definition scenario_events (now : Z) : list Event :=
  scenario_setup ++ [StartClicked now].

(** A page in custom mode with TCS selected, parameters 3.0 and 2.0,
    and the two date fields just filled in, before validation. *)
Definition custom_page (sd ed : string) : World :=
  on_doc (fun d => set_endDate ed (set_startDate sd d))
    (run parseFloat_dec Date_parse_iso HostDate.utc
         (booted parseFloat_dec "3.0" "2.0")
         [StockToggled "TCS"; CustomChecked true]).

(** A page on which a run has been started and is awaiting its
    response: TCS selected, parameters 3.0 and 2.0, the one-month
    preset, and the start button clicked at noon of 2024-06-15. *)
Definition running_page : World :=
  run parseFloat_dec Date_parse_iso HostDate.utc
      (booted parseFloat_dec "3.0" "2.0")
      [StockToggled "TCS"; StartClicked (HostDate.UTCDate 2024 6 15 + 43200000)].

(** A catalog of 21 distinct symbols, S01 to S21, and the page that
    shows it. *)
Definition sample_stock (i : Z) : Stock :=
  {| symbol := "S" +:+ HostDate.digits 2 i "";
     name := "Stock " +:+ HostDate.digits 2 i "";
     sector := "it" |}.

Definition catalog21 : list Stock := sample_stock <$> seqZ 1 21.

Definition catalog_page : World :=
  run parseFloat_dec Date_parse_iso HostDate.utc
      (booted parseFloat_dec "3.0" "2.0") [StocksLoaded catalog21].

(** A trade held for 120 minutes and 7 candles, and a trade with no
    property at all. *)
Definition long_trade : Trade :=
  {| stock := Some "TCS"; pattern_time := Some "2024-06-03 09:30";
     exit_time_formatted := Some "2024-06-03 11:30";
     entry_price := Some (3800 # 1)%Q; exit_price := Some (3914 # 1)%Q;
     outcome := Some "profit"; points_gained := Some (114 # 1)%Q;
     percentage_gain := Some (3 # 1)%Q;
     minutes_held := Some (120 # 1)%Q; candles_held := Some (7 # 1)%Q |}.

Definition empty_trade : Trade :=
  {| stock := None; pattern_time := None; exit_time_formatted := None;
     entry_price := None; exit_price := None; outcome := None;
     points_gained := None; percentage_gain := None;
     minutes_held := None; candles_held := None |}.

(** A payload that carries nothing but the given trades. *)
Definition payload_of (trades : option (list Trade)) : Results :=
  {| profit_rate := None; safe_rate := None; stop_loss_rate := None;
     total_patterns := None; r_target_percent := None;
     r_stop_loss_percent := None; stocks_analyzed := None;
     r_strategy := None; r_period := None; r_timeframe := None;
     detailed_trades := trades;
     target_hit_rate := None; target_hit_count := None;
     stop_loss_count := None; eod_exit_count := None; avg_return := None |}.

(** The hold-time properties of a trade respect the data model: minutes
    are not negative and at least one candle is held. *)
Definition hold_times_ok (trade : Trade) : Prop :=
  (forall q, minutes_held trade = Some q -> (0 <= q)%Q)
  /\ (forall q, candles_held trade = Some q -> (1 <= q)%Q).

(** A trade, or a payload, with every numeric property missing. *)
Definition trade_numbers_missing (trade : Trade) : Prop :=
  entry_price trade = None /\ exit_price trade = None
  /\ points_gained trade = None /\ percentage_gain trade = None
  /\ minutes_held trade = None /\ candles_held trade = None.

Definition numbers_missing (results : Results) : Prop :=
  profit_rate results = None /\ safe_rate results = None
  /\ stop_loss_rate results = None /\ total_patterns results = None
  /\ r_target_percent results = None /\ r_stop_loss_percent results = None
  /\ stocks_analyzed results = None
  /\ Forall trade_numbers_missing (default [] (detailed_trades results)).

(** The rows of a rendered table. *)
Definition rows_of (t : Legacy.TradesTable) : list Legacy.Row :=
  match t with
  | Legacy.NoTrades => []
  | Legacy.Table rows _ _ => rows
  end.

(** Two overlapping runs, both of which have ended: the start button is
    clicked twice, then both responses arrive. *)
Definition overlapping_runs : list Event :=
  [ StockToggled "TCS";
    StartClicked (HostDate.UTCDate 2024 6 15 + 43200000);
    StartClicked (HostDate.UTCDate 2024 6 15 + 43201000);
    BacktestSettled (Ok2xx (payload_of None));
    BacktestSettled (Ok2xx (payload_of None)) ].

Definition after_overlapping_runs : World :=
  run parseFloat_dec Date_parse_iso HostDate.utc
      (booted parseFloat_dec "3.0" "2.0") overlapping_runs.

(** A date field only ever holds the empty string or a date that the
    host parses (the value of a date input). *)
Definition date_value_ok (Date_parse : string -> option Z) (v : string) : Prop :=
  v = "" \/ is_Some (Date_parse v).

Definition date_event_ok (Date_parse : string -> option Z) (e : Event) : Prop :=
  match e with
  | FieldEdited StartDateField v => date_value_ok Date_parse v
  | FieldEdited EndDateField v => date_value_ok Date_parse v
  | _ => True
  end.


Definition body_scalars (b : Body) :=
  (body_strategy b, body_target_percent b, body_stop_loss_percent b,
   body_start_date b, body_end_date b, body_timeframe b).


(** What the submit check reads. *)
Definition gate_inputs (w : World) :=
  (selection w, isCustomPeriod (state w),
   selectedPeriodMonths (state w),
   targetPercent (doc w), stopLossPercent (doc w),
   startDate (doc w), endDate (doc w)).

(** The two date fields, when both filled in, hold dates in strictly
    increasing order. *)
Definition dates_in_order (Date_parse : string -> option Z) (w : World) : Prop :=
  startDate (doc w) ≠ "" -> endDate (doc w) ≠ "" ->
  exists a b, Date_parse (startDate (doc w)) = Some a
              /\ Date_parse (endDate (doc w)) = Some b /\ a < b.

(** The invariant kept by the handlers of the page: the date fields hold
    date values, in order when both are filled in, and the start button
    is enabled exactly when the submit check passes. *)
Definition gate_inv (parseFloat : string -> num)
    (Date_parse : string -> option Z) (w : World) : Prop :=
  date_value_ok Date_parse (startDate (doc w))
  /\ date_value_ok Date_parse (endDate (doc w))
  /\ dates_in_order Date_parse w
  /\ startBacktestBtn_disabled (doc w) = negb (canSubmit parseFloat w).



(** A run that fails, and then the start of a second run. *)
Definition second_run_started : list Event :=
  [ StockToggled "TCS";
    StartClicked (HostDate.UTCDate 2024 6 15 + 43200000);
    BacktestSettled (HttpError None);
    StartClicked (HostDate.UTCDate 2024 6 15 + 43260000) ].

(** A page with TCS selected, the default preset, and the given text
    in the target and the stop-loss field. *)
Definition gate_page (target stopLoss : string) : World :=
  toggleStock parseFloat_dec "TCS" (booted parseFloat_dec target stopLoss).

(** The zone has the same offset at the instant [t] and at the local
    time [n] days of 24 hours before the local time of [t]: no
    daylight-saving change lies between the two, or its two changes
    cancel. *)
Definition same_offset (tza : HostDate.Zone) (t n : Z) : Prop :=
  HostDate.offset_of_local tza
    (HostDate.LocalTime tza t - n * HostDate.msPerDay)
  = HostDate.offset_at tza t.

(** The zone of New York in 2023 and 2024: five hours behind UTC, four
    during daylight saving, which runs from 02:00 local (07:00 UTC) on
    2023-03-12 and 2024-03-10 to 02:00 local (06:00 UTC) on 2023-11-05
    and 2024-11-03. *)
Definition new_york : HostDate.Zone :=
  let within (a b x : Z) := (a <=? x) && (x <? b) in
  {| HostDate.offset_at := fun t =>
       if within (HostDate.UTCDate 2023 3 12 + 7 * 3600000)
                 (HostDate.UTCDate 2023 11 5 + 6 * 3600000) t
          || within (HostDate.UTCDate 2024 3 10 + 7 * 3600000)
                    (HostDate.UTCDate 2024 11 3 + 6 * 3600000) t
       then -4 * 3600000 else -5 * 3600000;
     HostDate.offset_of_local := fun l =>
       if within (HostDate.UTCDate 2023 3 12 + 3 * 3600000)
                 (HostDate.UTCDate 2023 11 5 + 2 * 3600000) l
          || within (HostDate.UTCDate 2024 3 10 + 3 * 3600000)
                    (HostDate.UTCDate 2024 11 3 + 2 * 3600000) l
       then -4 * 3600000 else -5 * 3600000 |}.

(** 2024-03-20 at 23:30 UTC, 19:30 in New York. *)
Definition evening_in_new_york : Z := HostDate.UTCDate 2024 3 20 + 84600000.

(** 2024-11-04 at 00:30 UTC, 19:30 of 2024-11-03 in New York, the
    evening after the end of daylight saving. *)
Definition november_in_new_york : Z := HostDate.UTCDate 2024 11 4 + 1800000.

(** A page with TCS selected and the twelve-month preset. *)
Definition twelve_month_page : World :=
  run parseFloat_dec Date_parse_iso HostDate.utc
      (booted parseFloat_dec "3.0" "2.0")
      [StockToggled "TCS"; PeriodClicked (Some 12)].

(** 2024-06-14 at 20:30 UTC, 02:00 of 2024-06-15 in India. *)
Definition night_in_india : Z := HostDate.UTCDate 2024 6 14 + 73800000.

(** The zone of India: five and a half hours ahead of UTC all year. *)
Definition india : HostDate.Zone := HostDate.fixed_zone 19800000.

(** A page with TCS selected and the one-month preset. *)
Definition preset_page : World :=
  run parseFloat_dec Date_parse_iso HostDate.utc
      (booted parseFloat_dec "3.0" "2.0")
      [StockToggled "TCS"; PeriodClicked (Some 1)].

(** ** Further parts of the page *)

(** The [min] and [max] attributes that [setDateLimits] gives to both
    date inputs, with [now] the time value of [new Date()]: today, and
    365 times 24 hours before now. *)
Record DateLimits := { minDate : string; maxDate : string }.

Definition setDateLimits (now : Z) : DateLimits :=
  {| maxDate := HostDate.isoDate now;
     minDate := HostDate.isoDate (now - 365 * 24 * 60 * 60 * 1000) |}.

(** One check box of the stock list written by [renderStocks]. *)
Record StockItem := {
  item_symbol : string;
  item_name : string;
  item_checked : bool
}.

(** [UIHandler.renderStocks(stocks, selectedStocks)]: [None] is the
    "No stocks found" notice. *)
Definition renderStocks (stocks : list Stock) (selected : list string)
    : option (list StockItem) :=
  match stocks with
  | [] => None
  | _ =>
      Some ((fun st => {| item_symbol := symbol st;
                          item_name := name st;
                          item_checked := includes (symbol st) selected |})
              <$> stocks)
  end.

(** What the call [this.ui.renderStocks(this.state.filteredStocks,
    this.state.selectedStocks)] writes to the stock list when it is made
    in the state [w].  The controller makes this call at the end of a
    successful [loadStocks] and at the end of [searchStocks],
    [selectAllStocks] and [clearAllStocks]; between two calls the
    element keeps what was last written to it (by [renderStocks] or by
    [showLoading]), whatever the state has become. *)
Definition stockList (w : World) : option (list StockItem) :=
  renderStocks (filteredStocks (state w)) (selection w).

(** How the health probe ends: a 2xx response with its [status] and
    [angel_one_connected] properties (either may be missing), or a
    failure (a non-2xx response, a body that is not JSON, a failed
    transport). *)
Inductive HealthReply :=
  | HealthJson (status : option string) (connected : option bool)
  | HealthFailed.

Record Health := { h_status : option string; h_connected : option bool }.

(** [ApiService.checkHealth()]: a failure is turned into an error
    status, never thrown. *)
Definition api_checkHealth (r : HealthReply) : Health :=
  match r with
  | HealthJson s c => {| h_status := s; h_connected := c |}
  | HealthFailed => {| h_status := Some "error"; h_connected := Some false |}
  end.

(** The connection indicator: the class added to the dot (empty for
    none) and the text beside it. *)
Record StatusIndicator := { dot_class : string; status_text : string }.

(** [UIHandler.updateStatus(status, connected)] *)
Definition updateStatus (status : option string) (connected : option bool)
    : StatusIndicator :=
  if default false connected then
    {| dot_class := "connected"; status_text := "Connected" |}
  else if bool_decide (status = Some "error") then
    {| dot_class := "error"; status_text := "Connection Error" |}
  else
    {| dot_class := ""; status_text := "Limited Mode" |}.

(** [checkHealth()] of the controller. *)
Definition checkHealth (r : HealthReply) : StatusIndicator :=
  let health := api_checkHealth r in
  updateStatus (h_status health) (h_connected health).

(** How one [getBacktestStatus] call of the polling loop ends: a status
    object, or an error with its message. *)
Inductive StatusReply :=
  | StatusJson (status : option string)
  | StatusError (message : string).

(** What [pollBacktestStatus] hands to [onUpdate]. *)
Inductive StatusUpdate :=
  | Reported (status : option string)
  | ReportedFailed (message : string).

(** [BacktestingAPI.pollBacktestStatus(id, onUpdate)] against the
    replies of its successive status calls: the calls of [onUpdate], in
    order.  ([onUpdate] itself is taken not to throw.) *)
Fixpoint pollBacktestStatus (replies : list StatusReply) : list StatusUpdate :=
  match replies with
  | [] => []
  | StatusJson status :: rest =>
      Reported status
      :: (if bool_decide (status = Some "running")
          then pollBacktestStatus rest else [])
  | StatusError message :: _ => [ReportedFailed message]
  end.

(** A failed run followed by a toggle of INFY. *)
Definition failed_run_then_toggle : list Event :=
  [ StockToggled "TCS";
    StartClicked (HostDate.UTCDate 2024 6 15 + 43200000);
    BacktestSettled (HttpError None);
    StockToggled "INFY" ].

(** A page that shows a small catalog. *)
Definition small_catalog : list Stock :=
  [ {| symbol := "TCS"; name := "Tata Consultancy Services"; sector := "it" |};
    {| symbol := "INFY"; name := "Infosys"; sector := "it" |};
    {| symbol := "HDFCBANK"; name := "HDFC Bank"; sector := "banking" |} ].

Definition small_page : World :=
  run parseFloat_dec Date_parse_iso HostDate.utc
      (booted parseFloat_dec "3.0" "2.0") [StocksLoaded small_catalog].

(** Two overlapping runs with ticks of both tickers in between. *)
Definition ticking_runs : list Event :=
  [ StockToggled "TCS";
    StartClicked (HostDate.UTCDate 2024 6 15 + 43200000);
    Ticked 1 (1 # 2)%Q; Ticked 1 (9 # 10)%Q;
    StartClicked (HostDate.UTCDate 2024 6 15 + 43201000);
    Ticked 2 0%Q; Ticked 1 (1 # 3)%Q;
    BacktestSettled (HttpError (Some "No data"));
    Ticked 1 (1 # 4)%Q ].

(** The invariant of the results: the results section shows the payload
    that is stored for the export, and results, or a pending call, only
    exist once parameters have been stored, whose time frame is the
    fixed one. *)
Definition results_inv (w : World) : Prop :=
  rendered (doc w) = lastBacktestResults w
  /\ ((0 < awaiting (host w))%nat \/ is_Some (lastBacktestResults w) ->
      is_Some (lastBacktestParams (state w)))
  /\ (forall p, lastBacktestParams (state w) = Some p -> timeframe p = "15min").

(** The file name that [downloadJSON] derives from the parameters. *)
Definition json_filename (p : Params) : string :=
  "backtest_" +:+ strategy p +:+ "_" +:+ req_start_date p
  +:+ "_to_" +:+ req_end_date p +:+ ".json".

(** The message that [startBacktest] hands to [showError] when a run
    fails. *)
Definition failure_message (o : Outcome) : string :=
  match o with
  | Ok2xx _ => ""
  | HttpError (Some detail) =>
      if truthy_str detail then detail else "Backtest failed"
  | HttpError None => "Backtest failed"
  | TransportError message =>
      if truthy_str message then message
      else "Backtest failed. Please try again."
  end.



(** The value drawn by [Math.random()] is not negative. *)
Definition tick_event_ok (e : Event) : Prop :=
  match e with
  | Ticked _ r => (0 <= r)%Q
  | _ => True
  end.

(** A click on the start button. *)
Definition is_start (e : Event) : Prop :=
  match e with
  | StartClicked _ => True
  | _ => False
  end.

#[global] Instance is_start_dec (e : Event) : Decision (is_start e).
Proof. destruct e; simpl; apply _. Defined.

(** The invariant of the timers: every live ticker has a positive id
    below the next id and a progress value in 0..95 (95 excluded), the
    stored handle is a positive id below the next id, and the bar is
    within 0..100. *)
Definition timers_inv (w : World) : Prop :=
  (forall id p, timers (host w) !! id = Some p ->
     (0 < id < next_timer (host w))%nat /\ (0 <= p)%Q /\ (p < 95)%Q)
  /\ (forall id, progressInterval w = Some id ->
      (0 < id < next_timer (host w))%nat)
  /\ (0 < next_timer (host w))%nat
  /\ (0 <= progressFill_width (doc w))%Q
  /\ (progressFill_width (doc w) <= 100)%Q.

(** The invariant of the references: the selection and the stored
    parameters refer to arrays that were allocated. *)
Definition refs_inv (w : World) : Prop :=
  (selectedStocks (state w) < next_array w)%nat
  /\ (forall p, lastBacktestParams (state w) = Some p ->
      (stocks p < next_array w)%nat).

(** Unfolds the handlers of the page down to their case analyses. *)
Ltac unfold_handlers :=
  unfold toggleStock, selectAllStocks, clearAllStocks, searchStocks,
    updateStartButton, validateDates, startBacktest, backtestSettled,
    downloadExcel, downloadJSON, showProgress, animateProgress,
    displayResults, showError, hideProgress, clearInterval, alert, tick,
    api_runBacktest_send, api_runBacktest_receive, api_downloadExcel_send,
    api_downloadJSON.

(** * Properties *)

(** ** The calendar *)

Lemma MonthFromTime_range (t : Z) :
  0 <= HostDate.MonthFromTime t <= 11.
Proof.
  unfold HostDate.MonthFromTime.
  repeat match goal with
         | |- context [if ?b then _ else _] => destruct b
         end; lia.
Qed.

Lemma MakeDay_of_calendar (t n : Z) :
  HostDate.MakeDay (HostDate.YearFromTime t) (HostDate.MonthFromTime t)
                   (HostDate.DateFromTime t - n)
  = HostDate.Day t - n.
Proof.
  pose proof (MonthFromTime_range t) as Hm.
  unfold HostDate.MakeDay.
  rewrite (Z.div_small (HostDate.MonthFromTime t) 12) by lia.
  rewrite (Z.mod_small (HostDate.MonthFromTime t) 12) by lia.
  rewrite Z.add_0_r.
  unfold HostDate.DateFromTime, HostDate.DayWithinYear. lia.
Qed.

(** Moving the day of the month back by [n] moves the local time back by
    [n] days of 24 hours; the result is that local time read back as an
    instant, with the offset the zone has there. *)
Lemma setDate_getDate_minus (tza : HostDate.Zone) (t n : Z) :
  HostDate.setDate tza t (HostDate.getDate tza t - n)
  = HostDate.UTC tza (HostDate.LocalTime tza t - n * HostDate.msPerDay).
Proof.
  unfold HostDate.setDate, HostDate.getDate.
  rewrite MakeDay_of_calendar. f_equal.
  unfold HostDate.MakeDate, HostDate.Day, HostDate.TimeWithinDay.
  pose proof (Z.div_mod (HostDate.LocalTime tza t) HostDate.msPerDay) as H.
  unfold HostDate.msPerDay in *. lia.
Qed.

(** Where the zone has the same offset at both ends, the time value
    moves back by [n] whole days. *)
Lemma setDate_same_offset (tza : HostDate.Zone) (t n : Z) :
  same_offset tza t n ->
  HostDate.setDate tza t (HostDate.getDate tza t - n)
  = t - n * HostDate.msPerDay.
Proof.
  intros H. rewrite setDate_getDate_minus.
  unfold same_offset in H. unfold HostDate.UTC. rewrite H.
  unfold HostDate.LocalTime. lia.
Qed.

Lemma same_offset_fixed (offset t n : Z) :
  same_offset (HostDate.fixed_zone offset) t n.
Proof. reflexivity. Qed.

Lemma Day_minus_days (t n : Z) :
  HostDate.Day (t - n * HostDate.msPerDay) = HostDate.Day t - n.
Proof.
  unfold HostDate.Day.
  replace (t - n * HostDate.msPerDay) with (t + (- n) * HostDate.msPerDay) by lia.
  rewrite Z.div_add by (unfold HostDate.msPerDay; lia). lia.
Qed.

(** The calendar date of a time value depends on its day number only. *)
Lemma isoDate_Day (t u : Z) :
  HostDate.Day t = HostDate.Day u -> HostDate.isoDate t = HostDate.isoDate u.
Proof.
  intros H.
  unfold HostDate.isoDate, HostDate.DateFromTime, HostDate.MonthFromTime,
    HostDate.DayWithinYear, HostDate.YearFromTime.
  now rewrite H.
Qed.

Lemma Day_within (d ms : Z) :
  0 <= ms < HostDate.msPerDay ->
  HostDate.Day (d * HostDate.msPerDay + ms) = d.
Proof.
  intros H. unfold HostDate.Day.
  rewrite Z.add_comm, Z.div_add by (unfold HostDate.msPerDay; lia).
  rewrite Z.div_small by lia. lia.
Qed.

(** [YearFromDay] is the year of the standard: the largest year that
    starts on or before the day. *)
Lemma YearFromDay_spec (d : Z) :
  HostDate.DayFromYear (HostDate.YearFromDay d) <= d
  < HostDate.DayFromYear (HostDate.YearFromDay d + 1).
Proof.
  unfold HostDate.YearFromDay.
  set (y0 := 1970 + 400 * d / 146097).
  assert (Hlo : HostDate.DayFromYear (y0 - 1) <= d).
  { subst y0. unfold HostDate.DayFromYear.
    Z.to_euclidean_division_equations. lia. }
  assert (Hhi : d < HostDate.DayFromYear (y0 + 2)).
  { subst y0. unfold HostDate.DayFromYear.
    Z.to_euclidean_division_equations. lia. }
  destruct (Z.leb_spec (HostDate.DayFromYear (y0 + 1)) d) as [H1|H1].
  - replace (y0 + 1 + 1) with (y0 + 2) by lia. lia.
  - destruct (Z.ltb_spec d (HostDate.DayFromYear y0)) as [H2|H2].
    + replace (y0 - 1 + 1) with y0 by lia. lia.
    + lia.
Qed.

Lemma DayFromYear_next (y : Z) :
  HostDate.DayFromYear (y + 1) = HostDate.DayFromYear y + HostDate.DaysInYear y.
Proof.
  unfold HostDate.DayFromYear, HostDate.DaysInYear.
  repeat match goal with
         | |- context [?a =? ?b] => destruct (Z.eqb_spec a b)
         end; simpl negb; cbv iota;
  Z.to_euclidean_division_equations; lia.
Qed.

Lemma DayWithinYear_range (t : Z) :
  0 <= HostDate.DayWithinYear t < HostDate.DaysInYear (HostDate.YearFromTime t).
Proof.
  unfold HostDate.DayWithinYear, HostDate.YearFromTime.
  pose proof (YearFromDay_spec (HostDate.Day t)) as H.
  rewrite DayFromYear_next in H. lia.
Qed.

(** ** Runs of events *)

Lemma run_snoc parseFloat Date_parse LocalTZA
    (w : World) (evs : list Event) (e : Event) :
  run parseFloat Date_parse LocalTZA w (evs ++ [e])
  = step parseFloat Date_parse LocalTZA
         (run parseFloat Date_parse LocalTZA w evs) e.
Proof. unfold run. now rewrite foldl_app. Qed.

(** ** Period resolution *)

Section PeriodResolver.
Variable parseFloat : string -> num.
Variable LocalTZA : HostDate.Zone.

Lemma getDateRange_preset (now : Z) (w : World) :
  isCustomPeriod (state w) = false ->
  getDateRange LocalTZA now w
  = {| start_date :=
         HostDate.isoDate
           (HostDate.UTC LocalTZA
              (HostDate.LocalTime LocalTZA now
               - daysBack (selectedPeriodMonths (state w)) * HostDate.msPerDay));
       end_date := HostDate.isoDate now |}.
Proof.
  intros Hc. unfold getDateRange. rewrite Hc.
  now rewrite setDate_getDate_minus.
Qed.

Lemma getDateRange_preset_same_offset (now : Z) (w : World) :
  isCustomPeriod (state w) = false ->
  same_offset LocalTZA now (daysBack (selectedPeriodMonths (state w))) ->
  getDateRange LocalTZA now w
  = {| start_date :=
         HostDate.isoDate
           (now - daysBack (selectedPeriodMonths (state w)) * HostDate.msPerDay);
       end_date := HostDate.isoDate now |}.
Proof.
  intros Hc Hz. unfold getDateRange. rewrite Hc.
  now rewrite setDate_same_offset.
Qed.

Lemma getDateRange_custom (now : Z) (w : World) :
  isCustomPeriod (state w) = true ->
  getDateRange LocalTZA now w
  = {| start_date := startDate (doc w); end_date := endDate (doc w) |}.
Proof. intros Hc. unfold getDateRange. now rewrite Hc. Qed.

End PeriodResolver.

Lemma startBacktest_outbox parseFloat tza (now : Z) (w : World) :
  outbox (host (startBacktest parseFloat tza now w))
  = outbox (host w)
    ++ [ {| endpoint := backtest_endpoint;
            body := stringify w (buildParams parseFloat tza now w) |} ].
Proof. reflexivity. Qed.

Lemma startBacktest_params parseFloat tza (now : Z) (w : World) :
  lastBacktestParams (state (startBacktest parseFloat tza now w))
  = Some (buildParams parseFloat tza now w).
Proof. reflexivity. Qed.

Lemma isoDate_of_day (d ms : Z) :
  0 <= ms < HostDate.msPerDay ->
  HostDate.isoDate (d * HostDate.msPerDay + ms)
  = HostDate.isoDate (d * HostDate.msPerDay).
Proof.
  intros H. apply isoDate_Day.
  rewrite Day_within by exact H.
  symmetry.
  rewrite <- (Z.add_0_r (d * HostDate.msPerDay)).
  apply Day_within. unfold HostDate.msPerDay. lia.
Qed.

Lemma daysBack_unknown (months : option Z) :
  months ∉ [Some 1; Some 3; Some 6; Some 12] -> daysBack months = 30.
Proof.
  intros Hm. unfold daysBack, daysMap.
  destruct months as [[|p|p]|]; try reflexivity.
  do 5 (try destruct p as [p|p|]); try reflexivity;
    exfalso; apply Hm; set_solver.
Qed.

Lemma legacy_daysBack_unknown (card : option Z) :
  card ∉ [Some 1; Some 2; Some 3; Some 4] -> Legacy.daysBack card = 30.
Proof.
  intros Hm. unfold Legacy.daysBack.
  destruct card as [[|p|p]|]; try reflexivity.
  do 4 (try destruct p as [p|p|]); try reflexivity;
    exfalso; apply Hm; set_solver.
Qed.

Lemma legacy_getStartDate_preset (tza : HostDate.Zone) (now : Z)
    (card : option Z) (w : World) :
  isCustomPeriod (state w) = false ->
  Legacy.getStartDate tza now card w
  = HostDate.isoDate
      (HostDate.UTC tza
         (HostDate.LocalTime tza now - Legacy.daysBack card * HostDate.msPerDay)).
Proof.
  intros Hc. unfold Legacy.getStartDate. rewrite Hc.
  now rewrite setDate_getDate_minus.
Qed.

(** C2, on the code. With a preset of 1, 3, 6 or 12 months (the cards 1
    to 4 of main.js) both controllers move the local time back by 30,
    90, 180 or 365 days of 24 hours, read it back as an instant with the
    offset the zone has there, and print the UTC date of that instant
    and of the run instant; any other preset value goes back 30 days and
    the request carries the time frame 15min.  Where the zone has the
    same offset at both ends this is the UTC date of the run instant
    minus the days of the table, and in a zone without daylight saving
    the scenario of the specification, run at an instant whose UTC date
    is 2024-06-15, builds a request from 2024-05-16 to 2024-06-15.  But
    across a change of the offset the start date moves with it: in New
    York on 2024-03-20 at 19:30 the one-month and the three-month
    presets start on 2024-02-20 and 2023-12-22, 29 and 89 days before
    the end date; and the end date is the UTC date, so in India at
    02:00 of 2024-06-15 the period ends on 2024-06-14. *)
Theorem C2_preset_period_resolution
    (parseFloat : string -> num) (tza : HostDate.Zone) (now : Z) (w : World) :
  isCustomPeriod (state w) = false ->
  (forall m k n : Z,
      (m, k, n) ∈ [(1, 1, 30); (3, 2, 90); (6, 3, 180); (12, 4, 365)] ->
      (selectedPeriodMonths (state w) = Some m ->
         getDateRange tza now w
         = {| start_date :=
                HostDate.isoDate
                  (HostDate.UTC tza
                     (HostDate.LocalTime tza now - n * HostDate.msPerDay));
              end_date := HostDate.isoDate now |})
      /\ Legacy.getStartDate tza now (Some k) w
         = HostDate.isoDate
             (HostDate.UTC tza
                (HostDate.LocalTime tza now - n * HostDate.msPerDay))
      /\ (same_offset tza now n ->
          HostDate.UTC tza (HostDate.LocalTime tza now - n * HostDate.msPerDay)
          = now - n * HostDate.msPerDay
          /\ HostDate.Day (now - n * HostDate.msPerDay) = HostDate.Day now - n))
  /\ (selectedPeriodMonths (state w) ∉ [Some 1; Some 3; Some 6; Some 12] ->
      getDateRange tza now w
      = {| start_date :=
             HostDate.isoDate
               (HostDate.UTC tza
                  (HostDate.LocalTime tza now - 30 * HostDate.msPerDay));
           end_date := HostDate.isoDate now |})
  /\ (forall card,
      card ∉ [Some 1; Some 2; Some 3; Some 4] ->
      Legacy.getStartDate tza now card w
      = HostDate.isoDate
          (HostDate.UTC tza
             (HostDate.LocalTime tza now - 30 * HostDate.msPerDay)))
  /\ Legacy.getEndDate now w = HostDate.isoDate now
  /\ timeframe (buildParams parseFloat tza now w) = "15min"
  /\ (forall offset ms : Z,
      0 <= ms < HostDate.msPerDay ->
      exists b,
        outbox
          (host (run parseFloat_dec Date_parse_iso (HostDate.fixed_zone offset)
                     (booted parseFloat_dec "" "")
                     (scenario_events (HostDate.UTCDate 2024 6 15 + ms))))
        = [ {| endpoint := backtest_endpoint; body := b |} ]
        /\ body_stocks b = ["TCS"; "INFY"] /\ body_strategy b = "hammer"
        /\ body_start_date b = "2024-05-16"
        /\ body_end_date b = "2024-06-15"
        /\ body_timeframe b = "15min")
  /\ (HostDate.isoDate evening_in_new_york = "2024-03-20"
      /\ HostDate.getDate new_york evening_in_new_york = 20
      /\ HostDate.isoDate (evening_in_new_york - 30 * HostDate.msPerDay)
         = "2024-02-19"
      /\ getDateRange new_york evening_in_new_york preset_page
         = {| start_date := "2024-02-20"; end_date := "2024-03-20" |}
      /\ Legacy.getStartDate new_york evening_in_new_york (Some 1) preset_page
         = "2024-02-20"
      /\ HostDate.isoDate (evening_in_new_york - 90 * HostDate.msPerDay)
         = "2023-12-21"
      /\ Legacy.getStartDate new_york evening_in_new_york (Some 2) preset_page
         = "2023-12-22")
  /\ (HostDate.getDate india night_in_india = 15
      /\ getDateRange india night_in_india preset_page
         = {| start_date := "2024-05-15"; end_date := "2024-06-14" |}
      /\ Legacy.getEndDate night_in_india preset_page = "2024-06-14").
Proof.
  intros Hc.
  split; [|split; [|split; [|split; [|split; [|split; [|split]]]]]].
  - intros m k n H.
    assert (Hn : daysBack (Some m) = n /\ Legacy.daysBack (Some k) = n).
    { repeat (apply elem_of_cons in H as [H|H];
              [injection H as -> -> ->; split; reflexivity|]).
      now apply elem_of_nil in H. }
    destruct Hn as [Hn Hk]. split_and!.
    + intros Hm. rewrite (getDateRange_preset tza now w Hc), Hm, Hn.
      reflexivity.
    + rewrite (legacy_getStartDate_preset tza now _ w Hc), Hk. reflexivity.
    + intros Hz. split; [|apply Day_minus_days].
      unfold same_offset in Hz. unfold HostDate.UTC. rewrite Hz.
      unfold HostDate.LocalTime. lia.
  - intros Hm. rewrite (getDateRange_preset tza now w Hc).
    rewrite daysBack_unknown by exact Hm. reflexivity.
  - intros card Hm. rewrite (legacy_getStartDate_preset tza now _ w Hc).
    rewrite legacy_daysBack_unknown by exact Hm. reflexivity.
  - unfold Legacy.getEndDate. now rewrite Hc.
  - reflexivity.
  - intros offset ms Hms. unfold scenario_events.
    rewrite run_snoc. cbn [step]. rewrite startBacktest_outbox.
    set (page := run parseFloat_dec Date_parse_iso (HostDate.fixed_zone offset)
                     (booted parseFloat_dec "" "") scenario_setup).
    assert (Hout : outbox (host page) = []) by reflexivity.
    assert (Hsel : selection page = ["TCS"; "INFY"]) by reflexivity.
    assert (Hstr : selectedStrategy (state page) = "hammer") by reflexivity.
    assert (Hcus : isCustomPeriod (state page) = false) by reflexivity.
    assert (Hmon : selectedPeriodMonths (state page) = Some 1) by reflexivity.
    rewrite Hout. eexists. split; [reflexivity|].
    cbn [stringify buildParams body_stocks body_strategy body_start_date
         body_end_date body_timeframe stocks strategy req_start_date
         req_end_date timeframe].
    rewrite (getDateRange_preset_same_offset (HostDate.fixed_zone offset)
               _ page Hcus (same_offset_fixed _ _ _)), Hmon.
    cbn [start_date end_date].
    change (daysBack (Some 1)) with 30.
    change (HostDate.UTCDate 2024 6 15) with (19889 * HostDate.msPerDay).
    replace (19889 * HostDate.msPerDay + ms - 30 * HostDate.msPerDay)
      with (19859 * HostDate.msPerDay + ms) by lia.
    rewrite !isoDate_of_day by exact Hms.
    split_and!; try assumption; try reflexivity; vm_compute; reflexivity.
  - repeat (split; [vm_compute; reflexivity|]). vm_compute. reflexivity.
  - repeat (split; [vm_compute; reflexivity|]). vm_compute. reflexivity.
Qed.

(** ** The selection store *)

Lemma indexOf_None (x : string) (arr : list string) :
  indexOf x arr = None <-> x ∉ arr.
Proof.
  unfold indexOf. rewrite fmap_None, list_find_None, Forall_forall.
  split.
  - intros H Hin. exact (H x Hin eq_refl).
  - intros H y Hy ->. exact (H Hy).
Qed.

Lemma indexOf_Some (x : string) (arr : list string) (i : nat) :
  indexOf x arr = Some i <->
  arr !! i = Some x /\ forall j, (j < i)%nat -> arr !! j ≠ Some x.
Proof.
  unfold indexOf. rewrite fmap_Some. split.
  - intros [[i' y] [H ->]]. apply list_find_Some in H as (Hl & -> & Hlt).
    split; [exact Hl|]. intros j Hj Hx. exact (Hlt j x Hx Hj eq_refl).
  - intros [Hl Hlt]. exists (i, x). split; [|reflexivity].
    apply list_find_Some. split; [exact Hl|]. split; [reflexivity|].
    intros j y Hy Hj ->. exact (Hlt j Hj Hy).
Qed.

Lemma includes_true (x : string) (arr : list string) :
  includes x arr = true <-> x ∈ arr.
Proof. unfold includes. apply bool_decide_eq_true. Qed.

Lemma toggle_absent (sym : string) (sel : list string) :
  sym ∉ sel -> toggle sym sel = sel ++ [sym].
Proof. intros H. unfold toggle. now rewrite (proj2 (indexOf_None sym sel) H). Qed.

Lemma toggle_present (sym : string) (sel : list string) :
  sym ∈ sel ->
  exists i, sel !! i = Some sym /\ toggle sym sel = delete i sel.
Proof.
  intros H. unfold toggle.
  destruct (indexOf sym sel) as [i|] eqn:E.
  - exists i. split; [|reflexivity]. now apply indexOf_Some in E.
  - apply indexOf_None in E. contradiction.
Qed.




Lemma selectAll_NoDup (visible : list Stock) (sel : list string) :
  NoDup sel -> NoDup (selectAll visible sel).
Proof.
  unfold selectAll. revert sel.
  induction visible as [|st visible IH]; intros sel Hnd; [exact Hnd|].
  simpl. apply IH.
  destruct (includes (symbol st) sel) eqn:E; [exact Hnd|].
  apply NoDup_app. split; [exact Hnd|]. split; [|apply NoDup_singleton].
  intros x Hx Hs. apply list_elem_of_singleton in Hs. subst.
  apply includes_true in Hx. congruence.
Qed.

Lemma selectAll_elem_of (visible : list Stock) (sel : list string) (x : string) :
  x ∈ selectAll visible sel <-> x ∈ sel \/ x ∈ (symbol <$> visible).
Proof.
  unfold selectAll. revert sel.
  induction visible as [|st visible IH]; intros sel; simpl.
  - rewrite elem_of_nil. tauto.
  - rewrite IH, elem_of_cons.
    destruct (includes (symbol st) sel) eqn:E.
    + apply includes_true in E. split; [tauto|].
      intros [H|[->|H]]; tauto.
    + rewrite elem_of_app, list_elem_of_singleton. tauto.
Qed.

(** ** Effect of the events on the fields of the page *)

Section Frames.
Variable parseFloat : string -> num.
Variable Date_parse : string -> option Z.
Variable LocalTZA : HostDate.Zone.


Lemma tick_state (id : nat) (r : Q) (w : World) :
  state (tick id r w) = state w
  /\ lastBacktestResults (tick id r w) = lastBacktestResults w
  /\ progressInterval (tick id r w) = progressInterval w.
Proof.
  unfold tick. destruct (timers (host w) !! id); [|done].
  destruct (message_at _) as [m|]; [destruct (truthy_str m)|];
    destruct (Qle_bool _ _); split_and!; reflexivity.
Qed.

Lemma tick_selection (id : nat) (r : Q) (w : World) :
  arrays (tick id r w) = arrays w /\ selection (tick id r w) = selection w.
Proof.
  unfold tick. destruct (timers (host w) !! id); [|done].
  destruct (message_at _) as [m|]; [destruct (truthy_str m)|];
    destruct (Qle_bool _ _); split_and!; reflexivity.
Qed.

Lemma tick_doc (id : nat) (r : Q) (w : World) :
  targetPercent (doc (tick id r w)) = targetPercent (doc w)
  /\ stopLossPercent (doc (tick id r w)) = stopLossPercent (doc w)
  /\ startDate (doc (tick id r w)) = startDate (doc w)
  /\ endDate (doc (tick id r w)) = endDate (doc w)
  /\ startBacktestBtn_disabled (doc (tick id r w))
     = startBacktestBtn_disabled (doc w).
Proof.
  unfold tick. destruct (timers (host w) !! id); [|done].
  destruct (message_at _) as [m|]; [destruct (truthy_str m)|];
    destruct (Qle_bool _ _); split_and!; reflexivity.
Qed.

Lemma tick_host (id : nat) (r : Q) (w : World) :
  outbox (host (tick id r w)) = outbox (host w)
  /\ awaiting (host (tick id r w)) = awaiting (host w)
  /\ alerts (host (tick id r w)) = alerts (host w)
  /\ downloads (host (tick id r w)) = downloads (host w)
  /\ next_timer (host (tick id r w)) = next_timer (host w).
Proof.
  unfold tick. destruct (timers (host w) !! id); [|done].
  destruct (message_at _) as [m|]; [destruct (truthy_str m)|];
    destruct (Qle_bool _ _); split_and!; reflexivity.
Qed.

Lemma hideProgress_frame (w : World) :
  state (hideProgress w) = state w
  /\ lastBacktestResults (hideProgress w) = lastBacktestResults w
  /\ progressInterval (hideProgress w) = progressInterval w
  /\ outbox (host (hideProgress w)) = outbox (host w)
  /\ awaiting (host (hideProgress w)) = awaiting (host w)
  /\ alerts (host (hideProgress w)) = alerts (host w)
  /\ downloads (host (hideProgress w)) = downloads (host w)
  /\ targetPercent (doc (hideProgress w)) = targetPercent (doc w)
  /\ stopLossPercent (doc (hideProgress w)) = stopLossPercent (doc w)
  /\ startDate (doc (hideProgress w)) = startDate (doc w)
  /\ endDate (doc (hideProgress w)) = endDate (doc w)
  /\ startBacktestBtn_disabled (doc (hideProgress w))
     = startBacktestBtn_disabled (doc w).
Proof.
  unfold hideProgress.
  destruct (progressInterval w) as [id|] eqn:E; [destruct (id =? 0)%nat|];
    split_and!; first [reflexivity | exact E].
Qed.

Lemma hideProgress_selection (w : World) :
  arrays (hideProgress w) = arrays w /\ selection (hideProgress w) = selection w.
Proof.
  unfold hideProgress.
  destruct (progressInterval w) as [id|]; [destruct (id =? 0)%nat|];
    split_and!; reflexivity.
Qed.

Lemma validateDates_selection (w : World) :
  arrays (validateDates Date_parse w) = arrays w
  /\ selection (validateDates Date_parse w) = selection w.
Proof.
  unfold validateDates.
  destruct (truthy_str _ && truthy_str _); [destruct (date_ge _ _)|];
    split_and!; reflexivity.
Qed.

Lemma validateDates_frame (w : World) :
  state (validateDates Date_parse w) = state w
  /\ lastBacktestResults (validateDates Date_parse w) = lastBacktestResults w
  /\ outbox (host (validateDates Date_parse w)) = outbox (host w)
  /\ downloads (host (validateDates Date_parse w)) = downloads (host w)
  /\ targetPercent (doc (validateDates Date_parse w)) = targetPercent (doc w)
  /\ stopLossPercent (doc (validateDates Date_parse w)) = stopLossPercent (doc w)
  /\ startDate (doc (validateDates Date_parse w)) = startDate (doc w).
Proof.
  unfold validateDates.
  destruct (truthy_str _ && truthy_str _); [destruct (date_ge _ _)|];
    split_and!; reflexivity.
Qed.

Lemma showError_frame (message : string) (w : World) :
  state (showError message w) = state w
  /\ lastBacktestResults (showError message w) = lastBacktestResults w
  /\ progressInterval (showError message w) = progressInterval w
  /\ outbox (host (showError message w)) = outbox (host w)
  /\ awaiting (host (showError message w)) = awaiting (host w)
  /\ downloads (host (showError message w)) = downloads (host w)
  /\ targetPercent (doc (showError message w)) = targetPercent (doc w)
  /\ stopLossPercent (doc (showError message w)) = stopLossPercent (doc w)
  /\ startDate (doc (showError message w)) = startDate (doc w)
  /\ endDate (doc (showError message w)) = endDate (doc w)
  /\ startBacktestBtn_disabled (doc (showError message w))
     = startBacktestBtn_disabled (doc w).
Proof.
  unfold showError, alert.
  cbn [on_host state lastBacktestResults progressInterval host doc
       set_alerts outbox awaiting downloads].
  destruct (hideProgress_frame w)
    as (-> & -> & -> & -> & -> & _ & -> & -> & -> & -> & -> & ->).
  split_and!; reflexivity.
Qed.

Lemma showError_selection (message : string) (w : World) :
  arrays (showError message w) = arrays w
  /\ selection (showError message w) = selection w.
Proof.
  unfold showError, alert, selection, array_at.
  cbn [on_host state arrays].
  destruct (hideProgress_selection w) as [-> _].
  now rewrite (proj1 (hideProgress_frame w)).
Qed.

Lemma backtestSettled_selection (o : Outcome) (w : World) :
  arrays (backtestSettled o w) = arrays w
  /\ selection (backtestSettled o w) = selection w.
Proof.
  unfold backtestSettled. destruct (awaiting (host w)); [done|].
  destruct o; cbn [api_runBacktest_receive].
  - unfold displayResults, selection, array_at. cbn [on_doc state arrays].
    match goal with
    | |- context [hideProgress ?x] =>
        destruct (hideProgress_selection x) as [-> _];
        rewrite (proj1 (hideProgress_frame x))
    end. split; reflexivity.
  - match goal with
    | |- context [showError ?m ?x] =>
        destruct (showError_selection m x) as [-> ->]
    end. split; reflexivity.
  - match goal with
    | |- context [showError ?m ?x] =>
        destruct (showError_selection m x) as [-> ->]
    end. split; reflexivity.
Qed.

Lemma searchStocks_frame (query : string) (w : World) :
  selection (searchStocks query w) = selection w
  /\ isCustomPeriod (state (searchStocks query w)) = isCustomPeriod (state w)
  /\ selectedPeriodMonths (state (searchStocks query w))
     = selectedPeriodMonths (state w)
  /\ lastBacktestParams (state (searchStocks query w))
     = lastBacktestParams (state w)
  /\ doc (searchStocks query w) = doc w
  /\ host (searchStocks query w) = host w
  /\ lastBacktestResults (searchStocks query w) = lastBacktestResults w
  /\ progressInterval (searchStocks query w) = progressInterval w.
Proof. unfold searchStocks. destruct (blank query); split_and!; reflexivity. Qed.

Lemma selection_set_array (content : list string) (w : World) :
  selection (set_array (selectedStocks (state w)) content w) = content.
Proof.
  unfold selection, array_at, set_array. cbn [arrays state].
  now rewrite lookup_insert_eq.
Qed.

Lemma selection_cleared (w : World) :
  selection (on_state (set_selectedStocks (next_array w)) (new_array w)) = [].
Proof.
  unfold selection, array_at, new_array.
  cbn [on_state state set_selectedStocks selectedStocks arrays].
  now rewrite lookup_insert_eq.
Qed.

(** Only the selection events change the selection. *)
Lemma step_selection (w : World) (e : Event) :
  selection (step parseFloat Date_parse LocalTZA w e)
  = match e with
    | StockToggled sym => toggle sym (selection w)
    | SelectAllClicked => selectAll (filteredStocks (state w)) (selection w)
    | ClearAllClicked => []
    | _ => selection w
    end.
Proof.
  destruct e as [|sym| | | | | |f v| | |o| | |query|]; try reflexivity;
    cbn [step].
  - apply (selection_set_array (toggle sym (selection w)) w).
  - apply (selection_set_array _ w).
  - apply (selection_cleared w).
  - destruct f; try reflexivity;
      match goal with
      | |- context [validateDates _ ?x] =>
          exact (proj2 (validateDates_selection x))
      end.
  - apply tick_selection.
  - apply backtestSettled_selection.
  - unfold downloadExcel. now destruct (lastBacktestParams (state w)).
  - unfold downloadJSON.
    destruct (lastBacktestResults w); [|done].
    now destruct (lastBacktestParams (state w)).
  - apply searchStocks_frame.
  - apply showError_selection.
Qed.

End Frames.

Lemma toggleStock_selection parseFloat (sym : string) (w : World) :
  selection (toggleStock parseFloat sym w) = toggle sym (selection w).
Proof. apply (selection_set_array (toggle sym (selection w)) w). Qed.




(** ** The submit check *)

Section Gate.
Variable parseFloat : string -> num.
Variable Date_parse : string -> option Z.
Variable LocalTZA : HostDate.Zone.

Lemma truthy_str_false (s : string) : truthy_str s = false <-> s = "".
Proof. destruct s; simpl; split; congruence. Qed.

Lemma truthy_str_true (s : string) : truthy_str s = true <-> s ≠ "".
Proof. destruct s; simpl; split; congruence. Qed.

Lemma canSubmit_inputs (w w' : World) :
  gate_inputs w = gate_inputs w' ->
  canSubmit parseFloat w = canSubmit parseFloat w'.
Proof.
  unfold gate_inputs, canSubmit. intros H.
  injection H as -> -> -> -> -> -> ->. reflexivity.
Qed.

Lemma gate_inputs_dates (w w' : World) :
  gate_inputs w = gate_inputs w' ->
  startDate (doc w) = startDate (doc w') /\ endDate (doc w) = endDate (doc w').
Proof.
  unfold gate_inputs. intros H. injection H as _ _ _ _ _ E1 E2. now split.
Qed.

Lemma updateStartButton_inv (w : World) :
  date_value_ok Date_parse (startDate (doc w)) ->
  date_value_ok Date_parse (endDate (doc w)) ->
  dates_in_order Date_parse w ->
  gate_inv parseFloat Date_parse (updateStartButton parseFloat w).
Proof. intros H1 H2 H3. split_and!; [exact H1|exact H2|exact H3|reflexivity]. Qed.

Lemma validateDates_dates (w : World) :
  date_value_ok Date_parse (startDate (doc w)) ->
  date_value_ok Date_parse (endDate (doc w)) ->
  date_value_ok Date_parse (startDate (doc (validateDates Date_parse w)))
  /\ date_value_ok Date_parse (endDate (doc (validateDates Date_parse w)))
  /\ dates_in_order Date_parse (validateDates Date_parse w).
Proof.
  intros Hs He. unfold validateDates, dates_in_order.
  destruct (truthy_str (startDate (doc w))) eqn:Ts;
    destruct (truthy_str (endDate (doc w))) eqn:Te; simpl.
  - apply truthy_str_true in Ts, Te.
    destruct Hs as [Hs|[a Ha]]; [contradiction|].
    destruct He as [He|[b Hb]]; [contradiction|].
    rewrite Ha, Hb. simpl.
    destruct (Z.leb_spec b a) as [Hle|Hlt]; simpl.
    + split_and!; [right; eauto|left; reflexivity|congruence].
    + split_and!; [right; eauto|right; eauto|]. intros _ _. eauto.
  - apply truthy_str_false in Te.
    split_and!; [exact Hs|exact He|congruence].
  - apply truthy_str_false in Ts.
    split_and!; [exact Hs|exact He|congruence].
  - apply truthy_str_false in Ts.
    split_and!; [exact Hs|exact He|congruence].
Qed.

(** The events that do not end with [updateStartButton] leave the submit check's
    inputs and the button alone. *)
Lemma step_passive (w : World) (e : Event) :
  match e with
  | StocksLoaded _ | StartClicked _ | Ticked _ _ | BacktestSettled _
  | ExcelClicked | JsonClicked | SearchEdited _ | StocksFailed => True
  | _ => False
  end ->
  gate_inputs (step parseFloat Date_parse LocalTZA w e) = gate_inputs w
  /\ startBacktestBtn_disabled (doc (step parseFloat Date_parse LocalTZA w e))
     = startBacktestBtn_disabled (doc w).
Proof.
  intros He. unfold gate_inputs. rewrite step_selection.
  destruct e as [| | | | | | | | |id r|o| | |query|]; try contradiction;
    cbn [step].
  - split; reflexivity.
  - split; reflexivity.
  - destruct (tick_state id r w) as (-> & _).
    destruct (tick_doc id r w) as (-> & -> & -> & -> & ->). split; reflexivity.
  - unfold backtestSettled. destruct (awaiting (host w)); [split; reflexivity|].
    destruct o; cbn [api_runBacktest_receive];
      unfold showError, displayResults, alert;
      cbn [on_doc on_host state doc set_sections set_rendered
           targetPercent stopLossPercent startDate endDate
           startBacktestBtn_disabled];
      match goal with
      | |- context [hideProgress ?x] =>
          destruct (hideProgress_frame x)
            as (-> & _ & _ & _ & _ & _ & _ & -> & -> & -> & -> & ->)
      end; split; reflexivity.
  - unfold downloadExcel.
    destruct (lastBacktestParams (state w)); split; reflexivity.
  - unfold downloadJSON.
    destruct (lastBacktestResults w); [|split; reflexivity].
    destruct (lastBacktestParams (state w)); split; reflexivity.
  - destruct (searchStocks_frame query w) as (_ & -> & -> & _ & -> & _).
    split; reflexivity.
  - destruct (showError_frame "Failed to load stocks. Using demo data." w)
      as (-> & _ & _ & _ & _ & _ & -> & -> & -> & -> & ->).
    split; reflexivity.
Qed.

Lemma step_gate_inv (w : World) (e : Event) :
  date_event_ok Date_parse e ->
  gate_inv parseFloat Date_parse w ->
  gate_inv parseFloat Date_parse (step parseFloat Date_parse LocalTZA w e).
Proof.
  intros He (Hs & Hend & Hord & Hbtn).
  destruct e as [l|sym| | |s|months|checked|f v|now|id r|o| | |query|];
    try (match goal with
         | |- context [step _ _ _ _ ?e] =>
             destruct (step_passive w e I) as [Hin Hd]
         end;
         destruct (gate_inputs_dates _ _ Hin) as [E1 E2];
         unfold gate_inv, dates_in_order;
         rewrite Hd, (canSubmit_inputs _ _ Hin), E1, E2;
         split_and!; assumption);
    try (apply updateStartButton_inv; assumption).
  destruct f; cbn [step].
  - apply updateStartButton_inv; assumption.
  - apply updateStartButton_inv; assumption.
  - destruct (validateDates_dates (on_doc (set_startDate v) w)) as (A & B & C);
      [exact He|exact Hend|].
    apply updateStartButton_inv; assumption.
  - destruct (validateDates_dates (on_doc (set_endDate v) w)) as (A & B & C);
      [exact Hs|exact He|].
    apply updateStartButton_inv; assumption.
Qed.

Lemma run_gate_inv (w : World) (evs : list Event) :
  Forall (date_event_ok Date_parse) evs ->
  gate_inv parseFloat Date_parse w ->
  gate_inv parseFloat Date_parse (run parseFloat Date_parse LocalTZA w evs).
Proof.
  intros Hev Hw. induction evs as [|e evs IH] using rev_ind; [exact Hw|].
  apply Forall_app in Hev as [Hevs He].
  apply (proj1 (Forall_singleton _ _)) in He.
  rewrite run_snoc. apply step_gate_inv; [exact He|]. now apply IH.
Qed.

Lemma booted_gate_inv (target stopLoss : string) :
  gate_inv parseFloat Date_parse (booted parseFloat target stopLoss).
Proof.
  apply updateStartButton_inv; try (left; reflexivity).
  intros H. contradiction.
Qed.

End Gate.

Lemma gt0_true (x : num) :
  gt0 x = true <-> exists q, x = Num q /\ (0 < q)%Q.
Proof.
  destruct x as [|q]; simpl.
  - split; [discriminate|]. intros (q & H & _). discriminate.
  - unfold Qltb. rewrite negb_true_iff, <- not_true_iff_false, Qle_bool_iff.
    split.
    + intros H. exists q. split; [reflexivity|]. now apply Qnot_le_lt.
    + intros (q' & [= <-] & H). now apply Qlt_not_le.
Qed.

(** The submit check as the code computes it: a non-empty selection, two
    positive parameters, and a period that is a positive preset or, in
    custom mode, two filled-in date fields. *)
Lemma canSubmit_true parseFloat (w : World) :
  canSubmit parseFloat w = true <->
  selection w ≠ []
  /\ (exists q, parseFloat (targetPercent (doc w)) = Num q /\ (0 < q)%Q)
  /\ (exists q, parseFloat (stopLossPercent (doc w)) = Num q /\ (0 < q)%Q)
  /\ ((isCustomPeriod (state w) = false
       /\ exists m, selectedPeriodMonths (state w) = Some m /\ 0 < m)
      \/ (isCustomPeriod (state w) = true
          /\ startDate (doc w) ≠ "" /\ endDate (doc w) ≠ "")).
Proof.
  unfold canSubmit. rewrite !andb_true_iff, !gt0_true.
  assert (Hsel : (0 <? length (selection w))%nat = true
                 <-> selection w ≠ []).
  { destruct (selection w); simpl; split; intros H;
      first [discriminate | reflexivity | contradiction]. }
  rewrite Hsel.
  assert (Hper :
    (if isCustomPeriod (state w)
     then truthy_str (startDate (doc w)) && truthy_str (endDate (doc w))
     else match selectedPeriodMonths (state w) with
          | Some m => 0 <? m
          | None => false
          end) = true
    <-> ((isCustomPeriod (state w) = false
          /\ exists m, selectedPeriodMonths (state w) = Some m /\ 0 < m)
         \/ (isCustomPeriod (state w) = true
             /\ startDate (doc w) ≠ "" /\ endDate (doc w) ≠ ""))).
  { destruct (isCustomPeriod (state w)).
    - rewrite andb_true_iff, !truthy_str_true. split.
      + intros [H1 H2]. right. auto.
      + intros [[H _]|(_ & H1 & H2)]; [discriminate|auto].
    - destruct (selectedPeriodMonths (state w)) as [m|].
      + rewrite Z.ltb_lt. split.
        * intros H. left. eauto.
        * intros [(_ & m' & [= <-] & H)|[H _]]; [exact H|discriminate].
      + split; [discriminate|].
        intros [(_ & m' & H & _)|[H _]]; discriminate. }
  rewrite Hper. tauto.
Qed.

(** C1 in the controller of app.js.  In every state that the page
    reaches through its handlers, the
    submit check passes exactly when the selection is not empty, the target and
    the stop loss are positive, and the period is valid: a preset with a
    positive number of months or, in custom mode, a start and an end
    date both present with the start before the end; and the start
    button is enabled exactly when the submit check passes. *)
Theorem C1_submit_gate
    (parseFloat : string -> num) (Date_parse : string -> option Z) (tza : HostDate.Zone)
    (target stopLoss : string) (evs : list Event) :
  Forall (date_event_ok Date_parse) evs ->
  let w := run parseFloat Date_parse tza (booted parseFloat target stopLoss) evs in
  (canSubmit parseFloat w = true <->
     selection w ≠ []
     /\ (exists q, parseFloat (targetPercent (doc w)) = Num q /\ (0 < q)%Q)
     /\ (exists q, parseFloat (stopLossPercent (doc w)) = Num q /\ (0 < q)%Q)
     /\ ((isCustomPeriod (state w) = false
          /\ exists m, selectedPeriodMonths (state w) = Some m /\ 0 < m)
         \/ (isCustomPeriod (state w) = true
             /\ startDate (doc w) ≠ "" /\ endDate (doc w) ≠ ""
             /\ exists a b, Date_parse (startDate (doc w)) = Some a
                            /\ Date_parse (endDate (doc w)) = Some b
                            /\ a < b)))
  /\ startBacktestBtn_disabled (doc w) = negb (canSubmit parseFloat w).
Proof.
  intros Hev w.
  destruct (run_gate_inv parseFloat Date_parse tza _ evs Hev
              (booted_gate_inv parseFloat Date_parse target stopLoss))
    as (_ & _ & Hord & Hbtn).
  fold w in Hord, Hbtn. split; [|exact Hbtn].
  rewrite canSubmit_true. split.
  - intros (H1 & H2 & H3 & [H4|(H4 & H5 & H6)]); split_and!; auto.
    right. split_and!; auto.
  - intros (H1 & H2 & H3 & [H4|(H4 & H5 & H6 & _)]); split_and!; auto.
Qed.

Lemma legacy_canSubmit_true (w : World) (card : option Z) :
  Legacy.canSubmit w card = true <->
  selection w ≠ []
  /\ targetPercent (doc w) ≠ ""
  /\ stopLossPercent (doc w) ≠ ""
  /\ ((isCustomPeriod (state w) = false /\ exists k, card = Some k /\ 0 < k)
      \/ (isCustomPeriod (state w) = true
          /\ startDate (doc w) ≠ "" /\ endDate (doc w) ≠ "")).
Proof.
  unfold Legacy.canSubmit. rewrite !andb_true_iff, !truthy_str_true.
  assert (Hsel : (0 <? length (selection w))%nat = true <-> selection w ≠ []).
  { destruct (selection w); simpl; split; intros H; try done. }
  rewrite Hsel.
  assert (Hper :
    (if isCustomPeriod (state w)
     then truthy_str (startDate (doc w)) && truthy_str (endDate (doc w))
     else match card with Some m => 0 <? m | None => false end) = true
    <-> (isCustomPeriod (state w) = false /\ exists k, card = Some k /\ 0 < k)
        \/ (isCustomPeriod (state w) = true
            /\ startDate (doc w) ≠ "" /\ endDate (doc w) ≠ "")).
  { destruct (isCustomPeriod (state w)).
    - rewrite andb_true_iff, !truthy_str_true. split.
      + intros H. right. tauto.
      + intros [[H _]|[_ H]]; [discriminate|exact H].
    - destruct card as [m|].
      + rewrite Z.ltb_lt. split.
        * intros H. left. split; [reflexivity|eauto].
        * intros [(_ & k & [= <-] & H)|[H _]]; [exact H|discriminate].
      + split; [discriminate|].
        intros [(_ & k & H & _)|[H _]]; discriminate. }
  rewrite Hper. tauto.
Qed.

(** C1, on the code (main.js).  The older controller tests its two
    parameter fields for being filled in only: its submit check passes
    exactly when the selection is not empty, both fields are non-empty
    and the period is valid (a card of a positive index or, in custom
    mode, both dates present).  So with TCS selected, the first card,
    and the fields "0" and "-1", or "abc" and "abc", it enables the
    start button, where the claim, and the check of app.js on the same
    page, keep it disabled; with an empty field both keep it
    disabled. *)
Theorem C1_older_gate_opens_on_nonpositive :
  (forall (w : World) (card : option Z),
     Legacy.canSubmit w card = true <->
     selection w ≠ []
     /\ targetPercent (doc w) ≠ ""
     /\ stopLossPercent (doc w) ≠ ""
     /\ ((isCustomPeriod (state w) = false /\ exists k, card = Some k /\ 0 < k)
         \/ (isCustomPeriod (state w) = true
             /\ startDate (doc w) ≠ "" /\ endDate (doc w) ≠ "")))
  /\ (let w := gate_page "0" "-1" in
      selection w = ["TCS"]
      /\ parseFloat_dec (targetPercent (doc w)) = Num 0
      /\ parseFloat_dec (stopLossPercent (doc w)) = Num (-1)
      /\ Legacy.canSubmit w (Some 1) = true
      /\ canSubmit parseFloat_dec w = false
      /\ startBacktestBtn_disabled (doc w) = true)
  /\ (let w := gate_page "abc" "abc" in
      parseFloat_dec (targetPercent (doc w)) = NaN
      /\ Legacy.canSubmit w (Some 1) = true
      /\ canSubmit parseFloat_dec w = false)
  /\ (let w := gate_page "" "2.0" in
      Legacy.canSubmit w (Some 1) = false
      /\ canSubmit parseFloat_dec w = false)
  /\ (let w := gate_page "3.0" "2.0" in
      Legacy.canSubmit w (Some 1) = true
      /\ canSubmit parseFloat_dec w = true).
Proof.
  split; [exact legacy_canSubmit_true|].
  cbv zeta.
  repeat match goal with |- _ /\ _ => split end; vm_compute; reflexivity.
Qed.

(** ** Custom periods *)

(** C6. With both dates of a custom period present: when the start is
    not before the end, validation rejects the range (it raises the
    prompt and clears the end date, after which the submit check fails);
    when the start is before the end, validation changes nothing and the
    two dates go verbatim into the request. *)
Theorem C6_custom_range_validation
    (parseFloat : string -> num) (Date_parse : string -> option Z)
    (tza : HostDate.Zone) (now : Z) (w : World) (a b : Z) :
  startDate (doc w) ≠ "" ->
  endDate (doc w) ≠ "" ->
  Date_parse (startDate (doc w)) = Some a ->
  Date_parse (endDate (doc w)) = Some b ->
  (b <= a ->
     endDate (doc (validateDates Date_parse w)) = ""
     /\ startDate (doc (validateDates Date_parse w)) = startDate (doc w)
     /\ alerts (host (validateDates Date_parse w))
        = alerts (host w) ++ ["Start date must be before end date"]
     /\ (isCustomPeriod (state w) = true ->
         canSubmit parseFloat (validateDates Date_parse w) = false))
  /\ (a < b ->
     validateDates Date_parse w = w
     /\ (isCustomPeriod (state w) = true ->
         getDateRange tza now w
         = {| start_date := startDate (doc w); end_date := endDate (doc w) |}
         /\ req_start_date (buildParams parseFloat tza now w) = startDate (doc w)
         /\ req_end_date (buildParams parseFloat tza now w) = endDate (doc w))).
Proof.
  intros Hs He Ha Hb.
  apply truthy_str_true in Hs, He.
  unfold validateDates. rewrite Hs, He, Ha, Hb. cbn [andb date_ge].
  split.
  - intros Hle. apply Z.leb_le in Hle. rewrite Hle.
    split_and!; try reflexivity.
    intros Hc. unfold canSubmit.
    cbn [on_doc alert on_host state doc set_endDate endDate startDate].
    rewrite Hc. cbn [truthy_str]. now rewrite !andb_false_r.
  - intros Hlt. apply Z.leb_gt in Hlt. rewrite Hlt.
    split; [reflexivity|]. intros Hc.
    unfold buildParams. rewrite (getDateRange_custom tza now w Hc).
    split_and!; reflexivity.
Qed.

Lemma C6_witness :
  Date_parse_iso "2024-03-01" = Some 1709251200000
  /\ Date_parse_iso "2024-02-01" = Some 1706745600000
  /\ endDate (doc (validateDates Date_parse_iso
                     (custom_page "2024-03-01" "2024-02-01"))) = ""
  /\ req_end_date (buildParams parseFloat_dec HostDate.utc 0
                     (custom_page "2024-02-01" "2024-03-01")) = "2024-03-01".
Proof.
  split; [reflexivity|]. split; [reflexivity|]. split.
  - destruct (C6_custom_range_validation parseFloat_dec Date_parse_iso HostDate.utc 0
                (custom_page "2024-03-01" "2024-02-01")
                1709251200000 1706745600000) as [H _];
      [discriminate|discriminate|reflexivity|reflexivity|].
    destruct H as [H _]; [lia|exact H].
  - destruct (C6_custom_range_validation parseFloat_dec Date_parse_iso HostDate.utc 0
                (custom_page "2024-02-01" "2024-03-01")
                1706745600000 1709251200000) as [_ H];
      [discriminate|discriminate|reflexivity|reflexivity|].
    destruct H as [_ H]; [lia|].
    destruct H as (_ & _ & H); [reflexivity|exact H].
Defined.

(** ** The run lifecycle and the exports *)

Section Lifecycle.
Variable parseFloat : string -> num.
Variable Date_parse : string -> option Z.
Variable LocalTZA : HostDate.Zone.

(** Only a click on the start button changes the stored parameters. *)
Lemma step_lastBacktestParams (w : World) (e : Event) :
  lastBacktestParams (state (step parseFloat Date_parse LocalTZA w e))
  = match e with
    | StartClicked now => Some (buildParams parseFloat LocalTZA now w)
    | _ => lastBacktestParams (state w)
    end.
Proof.
  destruct e as [| | | | | | |f v| | | | | |query|]; try reflexivity; cbn [step].
  - destruct f; try reflexivity;
      cbn [updateStartButton on_doc state];
      now rewrite (proj1 (validateDates_frame _ _)).
  - now rewrite (proj1 (tick_state _ _ _)).
  - unfold backtestSettled. destruct (awaiting (host w)); [done|].
    destruct o; cbn [api_runBacktest_receive];
      unfold showError, displayResults, alert;
      cbn [on_doc on_host state];
      now rewrite (proj1 (hideProgress_frame _)).
  - unfold downloadExcel.
    destruct (lastBacktestParams (state w)) eqn:E; exact E.
  - unfold downloadJSON.
    destruct (lastBacktestResults w); [|done].
    destruct (lastBacktestParams (state w)) eqn:E; exact E.
  - now rewrite (proj1 (proj2 (proj2 (proj2 (searchStocks_frame _ _))))).
  - now rewrite (proj1 (showError_frame _ _)).
Qed.







End Lifecycle.

(** A second click on the start button while a run is awaiting its
    response is not rejected: a second request is issued, nothing is
    reported, and the ticker handle is replaced. *)
Lemma C3_second_start_not_rejected :
  let w2 := startBacktest parseFloat_dec HostDate.utc
              (HostDate.UTCDate 2024 6 15 + 43201000) running_page in
  awaiting (host running_page) = 1%nat
  /\ length (outbox (host running_page)) = 1%nat
  /\ length (outbox (host w2)) = 2%nat
  /\ outbox (host w2) ≠ outbox (host running_page)
  /\ alerts (host w2) = []
  /\ awaiting (host w2) = 2%nat
  /\ progressInterval running_page = Some 1%nat
  /\ progressInterval w2 = Some 2%nat.
Proof.
  cbv zeta. split_and!; try reflexivity.
  intros H. apply (f_equal length) in H. vm_compute in H. discriminate.
Qed.

(** C3, as the code has it. [startBacktest] has no single-flight guard:
    in every state, also one in which a run is awaiting its response, a
    start stores the built parameters, issues a request with them,
    reports nothing, starts a new ticker from 0 and overwrites the
    stored handle with it; the tickers that were running keep their own
    progress value. *)
Theorem C3_start_always_dispatches
    (parseFloat : string -> num) (tza : HostDate.Zone) (now : Z) (w : World) :
  let w' := startBacktest parseFloat tza now w in
  outbox (host w')
  = outbox (host w)
    ++ [ {| endpoint := backtest_endpoint;
            body := stringify w (buildParams parseFloat tza now w) |} ]
  /\ awaiting (host w') = S (awaiting (host w))
  /\ alerts (host w') = alerts (host w)
  /\ lastBacktestParams (state w') = Some (buildParams parseFloat tza now w)
  /\ progressInterval w' = Some (next_timer (host w))
  /\ timers (host w') !! next_timer (host w) = Some 0%Q
  /\ (forall id, id ≠ next_timer (host w) ->
      timers (host w') !! id = timers (host w) !! id).
Proof.
  cbv zeta. split_and!; try reflexivity.
  - cbn. apply lookup_insert_eq.
  - intros id Hid. cbn. now apply lookup_insert_ne.
Qed.

Lemma step_refs parseFloat Date_parse tza (w : World) (e : Event) :
  selectedStocks (state (step parseFloat Date_parse tza w e))
  = match e with
    | ClearAllClicked => next_array w
    | _ => selectedStocks (state w)
    end
  /\ next_array (step parseFloat Date_parse tza w e)
     = match e with
       | ClearAllClicked => S (next_array w)
       | _ => next_array w
       end.
Proof.
  destruct e as [| | | | | | |f v| | |o| | | |]; cbn [step];
    try destruct f; try destruct o;
    unfold_handlers; repeat case_match; split; reflexivity.
Qed.

Lemma step_refs_inv parseFloat Date_parse tza (w : World) (e : Event) :
  refs_inv w -> refs_inv (step parseFloat Date_parse tza w e).
Proof.
  intros [Hs Hp]. unfold refs_inv.
  destruct (step_refs parseFloat Date_parse tza w e) as [-> ->].
  rewrite step_lastBacktestParams.
  destruct e; split; try exact Hs; try exact Hp;
    try (intros p Hq; specialize (Hp p Hq); lia); try lia.
  intros p [= <-]. exact Hs.
Qed.

Lemma run_refs_inv parseFloat Date_parse tza (w : World) (evs : list Event) :
  refs_inv w -> refs_inv (run parseFloat Date_parse tza w evs).
Proof.
  intros H. induction evs as [|e evs IH] using rev_ind; [exact H|].
  rewrite run_snoc. now apply step_refs_inv.
Qed.

Lemma booted_refs_inv parseFloat (target stopLoss : string) :
  refs_inv (booted parseFloat target stopLoss).
Proof. split; [cbn; lia|]. intros p H. discriminate. Qed.







(** ** The bound on the selection *)

(** [selectAllStocks] adds every visible symbol that is not selected
    yet, however many there are. *)
Lemma selectAll_length (visible : list Stock) (sel : list string) :
  NoDup (symbol <$> visible) ->
  (forall x, x ∈ (symbol <$> visible) -> x ∉ sel) ->
  length (selectAll visible sel) = (length sel + length visible)%nat.
Proof.
  unfold selectAll. revert sel.
  induction visible as [|st visible IH]; intros sel Hnd Hfresh; simpl; [lia|].
  apply NoDup_cons in Hnd as [Hst Hnd].
  assert (E : includes (symbol st) sel = false).
  { apply not_true_iff_false. rewrite includes_true.
    apply Hfresh. simpl. left. }
  rewrite E, IH.
  - rewrite length_app. simpl. lia.
  - exact Hnd.
  - intros x Hx Hin. apply elem_of_app in Hin as [Hin|Hin].
    + apply (Hfresh x); [simpl; now right|exact Hin].
    + apply list_elem_of_singleton in Hin. subst. contradiction.
Qed.

(** C4, on the code. With 21 distinct symbols visible and nothing
    selected, [selectAllStocks] selects all 21, one more than the
    configured maximum of 20, and reports nothing; and a toggle on a
    selection of 20 adds the twenty-first symbol likewise. *)
Theorem C4_selection_exceeds_maximum :
  let w := selectAllStocks parseFloat_dec catalog_page in
  let sel20 := take 20 (selection w) in
  NoDup (symbol <$> catalog21)
  /\ selection catalog_page = []
  /\ length (selection w) = 21%nat
  /\ (MAX_STOCKS_SELECTION < length (selection w))%nat
  /\ alerts (host w) = []
  /\ length sel20 = MAX_STOCKS_SELECTION
  /\ length (toggle "S21" sel20) = 21%nat.
Proof.
  cbv zeta. split_and!; try reflexivity.
  - apply (bool_decide_unpack (NoDup (symbol <$> catalog21))).
    vm_compute. exact I.
  - vm_compute. lia.
Qed.

(** ** Results: display defaults, display caps and the export *)

Lemma Qmin'_le_r (a b : Q) : (Qmin' a b <= b)%Q.
Proof.
  unfold Qmin'. destruct (Qle_bool a b) eqn:E.
  - now apply Qle_bool_iff.
  - apply Qle_refl.
Qed.

Lemma Qmin'_ge (lo a b : Q) : (lo <= a)%Q -> (lo <= b)%Q -> (lo <= Qmin' a b)%Q.
Proof. intros Ha Hb. unfold Qmin'. now destruct (Qle_bool a b). Qed.

Lemma or_num_ge (lo d : Q) (x : option Q) :
  (forall q, x = Some q -> (lo <= q)%Q) -> (lo <= d)%Q -> (lo <= or_num x d)%Q.
Proof.
  intros Hx Hd. unfold or_num. destruct x as [q|]; [|exact Hd].
  destruct (truthy_Q q); [now apply Hx|exact Hd].
Qed.

Lemma or_num_None (d : Q) : or_num None d = d.
Proof. reflexivity. Qed.

(** Under the data model the two capped cells lie in their ranges. *)
Lemma tradeRow_hold_times (trade : Trade) :
  hold_times_ok trade ->
  (0 <= Legacy.cell_minutesHeld (Legacy.tradeRow trade) <= 45)%Q
  /\ (1 <= Legacy.cell_candlesHeld (Legacy.tradeRow trade) <= 3)%Q.
Proof.
  intros [Hm Hc]. cbn [Legacy.tradeRow Legacy.cell_minutesHeld Legacy.cell_candlesHeld].
  split_and!; try apply Qmin'_le_r; apply Qmin'_ge; try apply or_num_ge;
    try assumption; try discriminate; try apply Qle_refl.
Qed.

Lemma createTradesTable_rows (trades : list Trade) :
  rows_of (Legacy.createTradesTable trades) = Legacy.tradeRow <$> take 25 trades.
Proof. destruct trades; reflexivity. Qed.

Lemma backtestSettled_ok (results : Results) (w : World) :
  awaiting (host w) ≠ 0%nat ->
  lastBacktestResults (backtestSettled (Ok2xx results) w) = Some results
  /\ lastBacktestParams (state (backtestSettled (Ok2xx results) w))
     = lastBacktestParams (state w)
  /\ downloads (host (backtestSettled (Ok2xx results) w)) = downloads (host w)
  /\ rendered (doc (backtestSettled (Ok2xx results) w)) = Some results.
Proof.
  intros Ha. unfold backtestSettled.
  destruct (awaiting (host w)) as [|n]; [contradiction|].
  cbn [api_runBacktest_receive]. unfold displayResults.
  cbn [on_doc state host lastBacktestResults doc set_rendered rendered].
  match goal with
  | |- context [hideProgress ?x] =>
      destruct (hideProgress_frame x)
        as (-> & -> & _ & _ & _ & _ & -> & _)
  end.
  split_and!; reflexivity.
Qed.

(** C5. The cap on the hold-time columns is applied to the cells of the
    table only: they show the minutes capped at 45 and the candles
    capped at 3 (within 0..45 and 1..3 for trades of the data model),
    while the JSON export after the run hands the browser the payload as
    the server sent it, with every trade and its hold times untouched. *)
Theorem C5_clamp_is_display_only
    (w : World) (results : Results) (params : Params) :
  awaiting (host w) ≠ 0%nat ->
  lastBacktestParams (state w) = Some params ->
  let w1 := backtestSettled (Ok2xx results) w in
  downloads (host (downloadJSON w1))
  = downloads (host w)
    ++ [ {| filename :=
              "backtest_" +:+ strategy params +:+ "_" +:+ req_start_date params
              +:+ "_to_" +:+ req_end_date params +:+ ".json";
            data := results |} ]
  /\ (forall trades,
        detailed_trades results = Some trades ->
        rows_of (Legacy.createTradesTable trades)
        = Legacy.tradeRow <$> take 25 trades
        /\ forall trade,
             trade ∈ trades ->
             Legacy.cell_minutesHeld (Legacy.tradeRow trade)
             = Qmin' (or_num (minutes_held trade) 0%Q) 45%Q
             /\ Legacy.cell_candlesHeld (Legacy.tradeRow trade)
                = Qmin' (or_num (candles_held trade) 1%Q) 3%Q
             /\ (hold_times_ok trade ->
                 (0 <= Legacy.cell_minutesHeld (Legacy.tradeRow trade) <= 45)%Q
                 /\ (1 <= Legacy.cell_candlesHeld (Legacy.tradeRow trade) <= 3)%Q)).
Proof.
  intros Ha Hp w1.
  destruct (backtestSettled_ok results w Ha) as (Hres & Hpar & Hdl & _).
  fold w1 in Hres, Hpar, Hdl. split.
  - unfold downloadJSON. rewrite Hres, Hpar, Hp.
    unfold api_downloadJSON. cbn [on_host host set_downloads downloads].
    now rewrite Hdl.
  - intros trades _. split; [apply createTradesTable_rows|].
    intros trade _. split_and!; try reflexivity. apply tradeRow_hold_times.
Qed.

Lemma C5_witness :
  let results := payload_of (Some [long_trade]) in
  awaiting (host running_page) ≠ 0%nat
  /\ (exists params, lastBacktestParams (state running_page) = Some params)
  /\ data <$> downloads
        (host (downloadJSON (backtestSettled (Ok2xx results) running_page)))
     = [results]
  /\ minutes_held long_trade = Some (120 # 1)%Q
  /\ Legacy.cell_minutesHeld (Legacy.tradeRow long_trade) = 45%Q.
Proof.
  cbv zeta. split; [discriminate|]. split; [eexists; reflexivity|].
  split; [|split; reflexivity].
  destruct (C5_clamp_is_display_only running_page
              (payload_of (Some [long_trade]))
              (buildParams parseFloat_dec HostDate.utc
                 (HostDate.UTCDate 2024 6 15 + 43200000)
                 (toggleStock parseFloat_dec "TCS"
                    (booted parseFloat_dec "3.0" "2.0"))))
    as [H _]; [discriminate|reflexivity|].
  rewrite H. reflexivity.
Defined.

(** In the older display path a trade with no property shows 1 in the
    candles cell, not 0, and the echoed target and stop loss show 3 and
    2. *)
Lemma C8_candles_default_is_one :
  numbers_missing (payload_of (Some [empty_trade]))
  /\ Legacy.cell_candlesHeld (Legacy.tradeRow empty_trade) = 1%Q
  /\ ~ (Legacy.cell_candlesHeld (Legacy.tradeRow empty_trade) == 0)%Q
  /\ Legacy.show_target_percent
       (Legacy.displayResults [] (payload_of (Some [empty_trade]))) = 3%Q
  /\ Legacy.show_stop_loss_percent
       (Legacy.displayResults [] (payload_of (Some [empty_trade]))) = 2%Q.
Proof.
  split_and!; try reflexivity.
  - unfold numbers_missing. split_and!; try reflexivity.
    apply Forall_singleton. unfold trade_numbers_missing.
    split_and!; reflexivity.
  - intros H. vm_compute in H. discriminate.
Qed.

(** C8, as the code has it. For a payload with every numeric property
    missing, the older display path shows 0 for the three rates and the
    pattern count, 0 in the price, points, gain and minutes cells of
    every row, 1 in the candles cell, 3 and 2 for the echoed target and
    stop loss, and the size of the selection for the stocks analysed; a
    missing outcome shows as unknown. *)
Theorem C8_display_defaults (selected : list string) (results : Results) :
  numbers_missing results ->
  let d := Legacy.displayResults selected results in
  Legacy.show_profit_rate d = 0%Q
  /\ Legacy.show_safe_rate d = 0%Q
  /\ Legacy.show_stop_loss_rate d = 0%Q
  /\ Legacy.show_total_patterns d = 0%Q
  /\ Legacy.show_target_percent d = 3%Q
  /\ Legacy.show_stop_loss_percent d = 2%Q
  /\ Legacy.show_stocks_analyzed d = (Z.of_nat (length selected) # 1)%Q
  /\ Forall (fun row =>
               Legacy.cell_entry_price row = 0%Q
               /\ Legacy.cell_exit_price row = 0%Q
               /\ Legacy.cell_points_gained row = 0%Q
               /\ Legacy.cell_percentage_gain row = 0%Q
               /\ Legacy.cell_minutesHeld row = 0%Q
               /\ Legacy.cell_candlesHeld row = 1%Q)
            (rows_of (Legacy.show_trades d))
  /\ (forall trade,
        outcome trade = None ->
        Legacy.cell_outcome (Legacy.tradeRow trade) = "unknown").
Proof.
  intros (H1 & H2 & H3 & H4 & H5 & H6 & H7 & Htr). cbv zeta.
  unfold Legacy.displayResults.
  cbn [Legacy.show_profit_rate Legacy.show_safe_rate Legacy.show_stop_loss_rate
       Legacy.show_total_patterns Legacy.show_target_percent
       Legacy.show_stop_loss_percent Legacy.show_stocks_analyzed
       Legacy.show_trades].
  rewrite H1, H2, H3, H4, H5, H6, H7.
  split_and!; try reflexivity.
  - rewrite createTradesTable_rows. apply Forall_fmap.
    apply Forall_take.
    eapply Forall_impl; [exact Htr|].
    intros trade (E1 & E2 & E3 & E4 & E5 & E6).
    cbn [Legacy.tradeRow Legacy.cell_entry_price Legacy.cell_exit_price
         Legacy.cell_points_gained Legacy.cell_percentage_gain
         Legacy.cell_minutesHeld Legacy.cell_candlesHeld compose].
    rewrite E1, E2, E3, E4, E5, E6. split_and!; reflexivity.
  - intros trade Ho. cbn [Legacy.tradeRow Legacy.cell_outcome].
    rewrite Ho. reflexivity.
Qed.

Lemma C8_witness :
  numbers_missing (payload_of (Some [empty_trade; empty_trade]))
  /\ Legacy.show_total_patterns
       (Legacy.displayResults ["TCS"; "INFY"]
          (payload_of (Some [empty_trade; empty_trade]))) = 0%Q.
Proof.
  assert (H : numbers_missing (payload_of (Some [empty_trade; empty_trade]))).
  { unfold numbers_missing. split_and!; try reflexivity.
    repeat constructor. }
  split; [exact H|].
  exact (proj1 (proj2 (proj2 (proj2
    (C8_display_defaults ["TCS"; "INFY"]
       (payload_of (Some [empty_trade; empty_trade])) H))))).
Defined.

(** The summary cards of the UIHandler interpolate the payload's
    properties as they are: with nothing in the payload, every card
    shows a missing value, not 0. *)
Lemma renderSummary_no_defaults :
  renderSummary (payload_of None)
  = {| card_target_hit_rate := None; card_target_hit_count := None;
       card_stop_loss_rate := None; card_stop_loss_count := None;
       card_eod_exit_count := None; card_total_patterns := None;
       card_avg_return := None |}.
Proof. reflexivity. Qed.

(** ** The progress indicator *)

Lemma increment_bounds (r : Q) :
  (0 <= r)%Q -> (r < 1)%Q -> (5 <= increment r)%Q /\ (increment r < 20)%Q.
Proof. intros H0 H1. unfold increment. split; lra. Qed.

(** The value after a tick is the old value plus the increment, cut off
    at 95. *)
Lemma next_progress_cases (progress r : Q) :
  (next_progress progress r == progress + increment r)%Q
  /\ (progress + increment r <= 95)%Q
  \/ next_progress progress r = 95%Q /\ (95 < progress + increment r)%Q.
Proof.
  unfold next_progress, Qmin'.
  destruct (Qle_bool (progress + increment r) 95) eqn:E.
  - left. split; [reflexivity|]. now apply Qle_bool_iff.
  - right. split; [reflexivity|].
    apply Qnot_le_lt. intros H. apply Qle_bool_iff in H. congruence.
Qed.

Lemma next_progress_le_95 (progress r : Q) : (next_progress progress r <= 95)%Q.
Proof. apply Qmin'_le_r. Qed.

Lemma next_progress_grows (progress r : Q) :
  (0 <= r)%Q -> (progress <= 95)%Q -> (progress <= next_progress progress r)%Q.
Proof.
  intros Hr Hp. apply Qmin'_ge; [|exact Hp]. unfold increment. lra.
Qed.

(** A live ticker writes its new value to the bar; it stays alive below
    95 and removes itself on reaching 95. *)
Lemma tick_live (id : nat) (r progress : Q) (w : World) :
  timers (host w) !! id = Some progress ->
  progressFill_width (doc (tick id r w)) = next_progress progress r
  /\ timers (host (tick id r w)) !! id
     = (if Qle_bool 95%Q (next_progress progress r) then None
        else Some (next_progress progress r))
  /\ (forall id', id' ≠ id ->
      timers (host (tick id r w)) !! id' = timers (host w) !! id').
Proof.
  intros H. unfold tick. rewrite H.
  destruct (message_at _) as [m|]; [destruct (truthy_str m)|];
    destruct (Qle_bool 95 (next_progress progress r));
    cbn [on_doc on_host doc host progressFill_width set_progressFill_width
         set_progressText timers set_timers];
    (split; [reflexivity|]); (split;
      [first [apply lookup_delete_eq | apply lookup_insert_eq]
      |intros id' Hne;
       first [now apply lookup_delete_ne | now apply lookup_insert_ne]]).
Qed.

(** A cleared ticker does nothing. *)
Lemma tick_dead (id : nat) (r : Q) (w : World) :
  timers (host w) !! id = None -> tick id r w = w.
Proof. intros H. unfold tick. now rewrite H. Qed.

(** [hideProgress] sets the bar to 100 and clears the ticker whose
    handle is stored. *)
Lemma hideProgress_cancels (id : nat) (w : World) :
  progressInterval w = Some id -> id ≠ 0%nat ->
  progressFill_width (doc (hideProgress w)) = 100%Q
  /\ timers (host (hideProgress w)) !! id = None
  /\ (forall id', id' ≠ id ->
      timers (host (hideProgress w)) !! id' = timers (host w) !! id').
Proof.
  intros H Hid. unfold hideProgress. rewrite H.
  destruct (Nat.eqb_spec id 0) as [->|_]; [contradiction|].
  split; [reflexivity|]. split.
  - apply lookup_delete_eq.
  - intros id' Hne. now apply lookup_delete_ne.
Qed.

(** When a run ends, with results or with an error, the bar is set to
    100 and the ticker whose handle is stored is cleared. *)
Lemma backtestSettled_cancels (o : Outcome) (id : nat) (w : World) :
  awaiting (host w) ≠ 0%nat ->
  progressInterval w = Some id -> id ≠ 0%nat ->
  progressFill_width (doc (backtestSettled o w)) = 100%Q
  /\ timers (host (backtestSettled o w)) !! id = None.
Proof.
  intros Ha H Hid. unfold backtestSettled.
  destruct (awaiting (host w)) as [|n]; [contradiction|].
  destruct o; cbn [api_runBacktest_receive];
    unfold displayResults, showError, alert;
    cbn [on_doc on_host doc host progressFill_width timers set_alerts
         set_sections set_rendered];
    match goal with
    | |- context [hideProgress ?x] =>
        destruct (hideProgress_cancels id x H Hid) as (-> & -> & _)
    end; split; reflexivity.
Qed.

(** A run on its own: from the start of the run, through any number of
    ticks of its ticker, to the end of the run, the bar never exceeds
    95 while the run is awaiting, and at the end the bar is at 100 and
    the run's ticker is cleared. *)
Lemma single_run_progress
    (parseFloat : string -> num) (tza : HostDate.Zone) (now : Z) (w : World)
    (rs : list Q) (o : Outcome) :
  next_timer (host w) ≠ 0%nat ->
  let id := next_timer (host w) in
  let w1 := startBacktest parseFloat tza now w in
  let w2 := foldl (fun acc r => tick id r acc) w1 rs in
  (rs ≠ [] -> (progressFill_width (doc w2) <= 95)%Q)
  /\ progressFill_width (doc (backtestSettled o w2)) = 100%Q
  /\ timers (host (backtestSettled o w2)) !! id = None.
Proof.
  intros Hid id w1 w2.
  assert (Hinv : progressInterval w2 = Some id
                 /\ awaiting (host w2) = S (awaiting (host w))
                 /\ (rs = [] /\ timers (host w2) !! id = Some 0%Q
                     \/ (progressFill_width (doc w2) <= 95)%Q)).
  { subst w2. induction rs as [|r rs IH] using rev_ind.
    - split_and!; [reflexivity|reflexivity|].
      left. split; [reflexivity|]. subst w1 id. cbn. apply lookup_insert_eq.
    - rewrite foldl_app. cbn [foldl].
      destruct IH as (IH1 & IH2 & IH3).
      destruct (tick_state id r (foldl (fun acc r0 => tick id r0 acc) w1 rs))
        as (_ & _ & ->).
      destruct (tick_host id r (foldl (fun acc r0 => tick id r0 acc) w1 rs))
        as (_ & -> & _).
      split_and!; [exact IH1|exact IH2|]. right.
      destruct (timers (host (foldl (fun acc r0 => tick id r0 acc) w1 rs)) !! id)
        as [p|] eqn:E.
      + destruct (tick_live id r p _ E) as (-> & _). apply next_progress_le_95.
      + rewrite tick_dead by exact E.
        destruct IH3 as [[_ H]|H]; [congruence|exact H]. }
  destruct Hinv as (Hpi & Haw & Hle).
  split.
  - intros Hrs. destruct Hle as [[H _]|H]; [contradiction|exact H].
  - apply backtestSettled_cancels;
      [rewrite Haw; discriminate|exact Hpi|exact Hid].
Qed.

(** C7, on the code. After two overlapping runs that have both ended,
    no run is awaiting and the bar was set to 100, yet the ticker of the
    first run is still live: its handle was overwritten by the second
    start, so the end of the runs cleared the second ticker only; its
    next tick moves the bar from 100 back to 12.5.  In the older
    controller the end of a single run leaves the run's ticker live and
    the bar where it was. *)
Theorem C7_ticker_outlives_run :
  let w := after_overlapping_runs in
  let old := Legacy.showLoadingState (booted parseFloat_dec "3.0" "2.0") in
  awaiting (host w) = 0%nat
  /\ progressFill_width (doc w) = 100%Q
  /\ progressInterval w = Some 2%nat
  /\ timers (host w) !! 2%nat = None
  /\ timers (host w) !! 1%nat = Some 0%Q
  /\ progressFill_width (doc (tick 1 (1 # 2)%Q w)) = (25 # 2)%Q
  /\ timers (host old) !! 1%nat = Some 0%Q
  /\ timers (host (Legacy.hideProgress old)) !! 1%nat = Some 0%Q
  /\ progressFill_width (doc (Legacy.hideProgress old)) = 0%Q.
Proof. cbv zeta. split_and!; vm_compute; reflexivity. Qed.

(** ** Instances *)

Lemma C1_witness :
  let evs := [ StockToggled "TCS"; CustomChecked true;
               FieldEdited StartDateField "2024-02-01";
               FieldEdited EndDateField "2024-03-01" ] in
  let w := run parseFloat_dec Date_parse_iso HostDate.utc
               (booted parseFloat_dec "3.0" "2.0") evs in
  Forall (date_event_ok Date_parse_iso) evs
  /\ canSubmit parseFloat_dec w = true
  /\ startBacktestBtn_disabled (doc w) = false.
Proof.
  cbv zeta.
  assert (H : Forall (date_event_ok Date_parse_iso)
                [ StockToggled "TCS"; CustomChecked true;
                  FieldEdited StartDateField "2024-02-01";
                  FieldEdited EndDateField "2024-03-01" ]).
  { constructor; [exact I|]. constructor; [exact I|].
    constructor; [right; eexists; reflexivity|].
    constructor; [right; eexists; reflexivity|]. constructor. }
  split; [exact H|]. split; [reflexivity|].
  rewrite (proj2 (C1_submit_gate parseFloat_dec Date_parse_iso HostDate.utc "3.0" "2.0" _ H)).
  reflexivity.
Defined.

Lemma C2_witness :
  let w := booted parseFloat_dec "3.0" "2.0" in
  isCustomPeriod (state w) = false
  /\ getDateRange india (HostDate.UTCDate 2024 6 15) w
     = {| start_date := "2024-05-16"; end_date := "2024-06-15" |}.
Proof.
  cbv zeta. split; [reflexivity|].
  destruct (C2_preset_period_resolution parseFloat_dec india
              (HostDate.UTCDate 2024 6 15)
              (booted parseFloat_dec "3.0" "2.0") eq_refl) as [H _].
  destruct (H 1 1 30) as [E _]; [left|].
  rewrite E by reflexivity. vm_compute. reflexivity.
Defined.



(** ** Remarks *)

(** Taken by itself, on a page whose date fields were filled in without
    passing through [validateDates], the submit check only tests that both
    fields are filled in; the order of the dates is enforced by
    [validateDates], which every change of a date field runs first. *)
Lemma gate_tests_presence_of_dates :
  canSubmit parseFloat_dec (custom_page "2024-03-01" "2024-02-01") = true
  /\ canSubmit parseFloat_dec
       (validateDates Date_parse_iso (custom_page "2024-03-01" "2024-02-01"))
     = false.
Proof. split; reflexivity. Qed.

(** Toggling twice a symbol that was selected moves it to the end of the
    array. *)
Lemma toggle_twice_order :
  toggle "TCS" (toggle "TCS" ["TCS"; "INFY"]) = ["INFY"; "TCS"].
Proof. reflexivity. Qed.

(** The older controller keys its day table by the index of the period
    card, and its submit check accepts any non-empty parameter field. *)
Lemma legacy_differences :
  Legacy.daysBack (Some 3) = 180
  /\ Legacy.daysBack (Some 12) = 30
  /\ Legacy.canSubmit
       (toggleStock parseFloat_dec "TCS" (booted parseFloat_dec "0" "-1"))
       (Some 1) = true
  /\ canSubmit parseFloat_dec
       (toggleStock parseFloat_dec "TCS" (booted parseFloat_dec "0" "-1"))
     = false.
Proof. split_and!; reflexivity. Qed.

(** The stored parameters share their array of symbols with the
    selection: a symbol toggled after a failed run is part of what the
    Excel export sends, although the run request did not have it. *)
Lemma excel_sends_current_array :
  let w := run parseFloat_dec Date_parse_iso HostDate.utc
               (booted parseFloat_dec "3.0" "2.0")
               [ StockToggled "TCS";
                 StartClicked (HostDate.UTCDate 2024 6 15 + 43200000);
                 BacktestSettled (HttpError None);
                 StockToggled "INFY";
                 ExcelClicked ] in
  (fun r => (endpoint r, body_stocks (body r))) <$> outbox (host w)
  = [ (backtest_endpoint, ["TCS"]); (excel_endpoint, ["TCS"; "INFY"]) ].
Proof. reflexivity. Qed.

(** The calendar on a few dates. *)
Lemma isoDate_examples :
  HostDate.isoDate 0 = "1970-01-01"
  /\ HostDate.isoDate (-1) = "1969-12-31"
  /\ HostDate.isoDate (HostDate.UTCDate 2024 2 29 + 86399999) = "2024-02-29"
  /\ HostDate.isoDate (HostDate.UTCDate 2023 12 31 + HostDate.msPerDay)
     = "2024-01-01"
  /\ HostDate.isoDate 1718409600000 = "2024-06-15".
Proof. split_and!; vm_compute; reflexivity. Qed.

(** * Further properties of the code *)

(** ** Selection *)

Lemma selectAll_prefix (visible : list Stock) (sel : list string) :
  sel `prefix_of` selectAll visible sel.
Proof.
  unfold selectAll. revert sel.
  induction visible as [|st visible IH]; intros sel; simpl; [reflexivity|].
  destruct (includes (symbol st) sel); [apply IH|].
  etransitivity; [|apply IH]. now apply prefix_app_r.
Qed.

Lemma selectAll_nothing_new (visible : list Stock) (sel : list string) :
  (forall x, x ∈ (symbol <$> visible) -> x ∈ sel) ->
  selectAll visible sel = sel.
Proof.
  unfold selectAll. revert sel.
  induction visible as [|st visible IH]; intros sel H; simpl; [reflexivity|].
  assert (E : includes (symbol st) sel = true).
  { apply includes_true, H. simpl. left. }
  rewrite E. apply IH. intros x Hx. apply H. simpl. now right.
Qed.

Lemma selectAll_idempotent (visible : list Stock) (sel : list string) :
  selectAll visible (selectAll visible sel) = selectAll visible sel.
Proof.
  apply selectAll_nothing_new. intros x Hx.
  apply selectAll_elem_of. now right.
Qed.

Lemma selectAllStocks_selection parseFloat (w : World) :
  selection (selectAllStocks parseFloat w)
  = selectAll (filteredStocks (state w)) (selection w).
Proof. apply (selection_set_array _ w). Qed.

Lemma clearAllStocks_selection parseFloat (w : World) :
  selection (clearAllStocks parseFloat w) = [].
Proof. apply (selection_cleared w). Qed.

Lemma renderStocks_checked (stocks : list Stock) (selected : list string)
    (items : list StockItem) :
  renderStocks stocks selected = Some items ->
  length items = length stocks
  /\ forall i it, items !! i = Some it ->
       exists st, stocks !! i = Some st
                  /\ item_symbol it = symbol st
                  /\ (item_checked it = true <-> symbol st ∈ selected).
Proof.
  intros H. destruct stocks as [|st0 rest]; [discriminate|].
  injection H as <-. split; [apply (length_fmap _ (st0 :: rest))|].
  intros i it Hi.
  change (((fun st => {| item_symbol := symbol st; item_name := name st;
                         item_checked := includes (symbol st) selected |})
             <$> (st0 :: rest)) !! i = Some it) in Hi.
  rewrite list_lookup_fmap in Hi.
  destruct ((st0 :: rest) !! i) as [st|] eqn:E; [|discriminate].
  injection Hi as <-. exists st. split; [reflexivity|]. split; [reflexivity|].
  apply includes_true.
Qed.

(** X1. [selectAllStocks] selects exactly what was selected plus every
    visible symbol: the earlier selection stays in front in its order,
    no symbol is added twice, a second call changes nothing, and the
    stock list it renders has every box checked. *)
Theorem X1_select_all_selects_visible
    (parseFloat : string -> num) (w : World) :
  let w' := selectAllStocks parseFloat w in
  (forall x, x ∈ selection w'
             <-> x ∈ selection w \/ x ∈ (symbol <$> filteredStocks (state w)))
  /\ selection w `prefix_of` selection w'
  /\ (NoDup (selection w) -> NoDup (selection w'))
  /\ selection (selectAllStocks parseFloat w') = selection w'
  /\ (forall items, stockList w' = Some items ->
      Forall (fun it => item_checked it = true) items).
Proof.
  cbv zeta. rewrite !selectAllStocks_selection.
  change (filteredStocks (state (selectAllStocks parseFloat w)))
    with (filteredStocks (state w)).
  split_and!.
  - intros x. apply selectAll_elem_of.
  - apply selectAll_prefix.
  - apply selectAll_NoDup.
  - apply selectAll_idempotent.
  - intros items H. unfold stockList in H.
    rewrite selectAllStocks_selection in H.
    change (filteredStocks (state (selectAllStocks parseFloat w)))
      with (filteredStocks (state w)) in H.
    destruct (renderStocks_checked _ _ _ H) as [_ Hit].
    apply Forall_lookup. intros i it Hi.
    destruct (Hit i it Hi) as (st & Hst & _ & Hc).
    apply Hc, selectAll_elem_of. right.
    apply list_elem_of_fmap. exists st. split; [reflexivity|].
    eapply list_elem_of_lookup_2, Hst.
Qed.

(** Only [clearAllStocks] allocates an array and changes the reference
    held by the state. *)
Lemma canSubmit_empty parseFloat (w : World) :
  selection w = [] -> canSubmit parseFloat w = false.
Proof. intros H. unfold canSubmit. now rewrite H. Qed.

(** X2. [clearAllStocks] leaves nothing selected whatever was selected
    or visible before (also right after a select-all), closes the
    submit check and disables the start button, and renders every box
    unchecked; it does so by giving the state a new array, so every
    array that existed keeps its content. *)
Theorem X2_clear_all_empties_selection
    (parseFloat : string -> num) (w : World) :
  let w' := clearAllStocks parseFloat w in
  selection w' = []
  /\ selection (clearAllStocks parseFloat (selectAllStocks parseFloat w)) = []
  /\ canSubmit parseFloat w' = false
  /\ startBacktestBtn_disabled (doc w') = true
  /\ (forall ref, ref ≠ next_array w -> array_at w' ref = array_at w ref)
  /\ (forall items, stockList w' = Some items ->
      Forall (fun it => item_checked it = false) items).
Proof.
  cbv zeta.
  pose proof (clearAllStocks_selection parseFloat w) as Hsel.
  split_and!.
  - exact Hsel.
  - apply clearAllStocks_selection.
  - now apply canSubmit_empty.
  - change (startBacktestBtn_disabled (doc (clearAllStocks parseFloat w)))
      with (negb (canSubmit parseFloat
                    (on_state (set_selectedStocks (next_array w)) (new_array w)))).
    rewrite canSubmit_empty; [reflexivity|apply selection_cleared].
  - intros ref Href. unfold array_at, clearAllStocks, new_array.
    cbn [updateStartButton on_doc on_state arrays].
    now rewrite lookup_insert_ne.
  - intros items H. unfold stockList in H. rewrite Hsel in H.
    destruct (renderStocks_checked _ _ _ H) as [_ Hit].
    apply Forall_lookup. intros i it Hi.
    destruct (Hit i it Hi) as (st & _ & _ & Hc).
    apply not_true_iff_false. intros Ht. apply Hc in Ht.
    now apply elem_of_nil in Ht.
Qed.

Lemma stringify_arrays (w w' : World) (p : Params) :
  array_at w' (stocks p) = array_at w (stocks p) ->
  stringify w' p = stringify w p.
Proof. intros H. unfold stringify. now rewrite H. Qed.

(** X3. The stored parameters hold the selection's array by reference.
    In every state the page reaches, what the Excel export would send is
    not changed by clearing the selection; a toggle changes its list of
    symbols when the parameters still share the array of the selection
    (as they do right after a start) and changes nothing when they do
    not. *)
Theorem X3_stored_params_share_the_array
    (parseFloat : string -> num) (Date_parse : string -> option Z) (tza : HostDate.Zone)
    (target stopLoss : string) (evs : list Event)
    (p : Params) (sym : string) (now : Z) :
  let w := run parseFloat Date_parse tza (booted parseFloat target stopLoss) evs in
  lastBacktestParams (state w) = Some p ->
  stringify (clearAllStocks parseFloat w) p = stringify w p
  /\ (stocks p = selectedStocks (state w) ->
      body_stocks (stringify (toggleStock parseFloat sym w) p)
      = toggle sym (body_stocks (stringify w p))
      /\ body_scalars (stringify (toggleStock parseFloat sym w) p)
         = body_scalars (stringify w p))
  /\ (stocks p ≠ selectedStocks (state w) ->
      stringify (toggleStock parseFloat sym w) p = stringify w p)
  /\ (forall p', lastBacktestParams
                   (state (startBacktest parseFloat tza now w)) = Some p' ->
      stocks p' = selectedStocks (state (startBacktest parseFloat tza now w))).
Proof.
  intros w Hp.
  destruct (run_refs_inv parseFloat Date_parse tza _ evs
              (booted_refs_inv parseFloat target stopLoss)) as [_ Hinv].
  fold w in Hinv. specialize (Hinv p Hp).
  split_and!.
  - apply stringify_arrays.
    unfold array_at, clearAllStocks, new_array.
    cbn [updateStartButton on_doc on_state arrays].
    rewrite lookup_insert_ne by lia. reflexivity.
  - intros Hs. split; [|reflexivity].
    unfold stringify, array_at, toggleStock, set_array, selection, array_at.
    cbn [updateStartButton on_doc arrays body_stocks].
    rewrite Hs, lookup_insert_eq. reflexivity.
  - intros Hs. apply stringify_arrays.
    unfold array_at, toggleStock, set_array.
    cbn [updateStartButton on_doc arrays].
    rewrite lookup_insert_ne by congruence. reflexivity.
  - intros p' [= <-]. reflexivity.
Qed.

Lemma X3_witness :
  let w := run parseFloat_dec Date_parse_iso HostDate.utc
               (booted parseFloat_dec "3.0" "2.0") failed_run_then_toggle in
  (exists p, lastBacktestParams (state w) = Some p
             /\ body_stocks (stringify w p) = ["TCS"; "INFY"]
             /\ body_stocks (stringify (clearAllStocks parseFloat_dec w) p)
                = ["TCS"; "INFY"]).
Proof.
  cbv zeta. eexists. split; [reflexivity|]. split; [reflexivity|].
  match goal with
  | |- body_stocks (stringify _ ?p) = _ =>
      rewrite (proj1 (X3_stored_params_share_the_array parseFloat_dec
                        Date_parse_iso HostDate.utc "3.0" "2.0" failed_run_then_toggle
                        p "" 0 eq_refl))
  end.
  reflexivity.
Defined.

(** X4. On a selection without duplicates, [toggleStock] flips whether
    the symbol is selected and nothing else: every other symbol stays
    selected or unselected as it was, the size changes by exactly one,
    and the array is the same object as before. *)
Theorem X4_toggle_flips_membership
    (parseFloat : string -> num) (w : World) (sym : string) :
  NoDup (selection w) ->
  let w' := toggleStock parseFloat sym w in
  (sym ∈ selection w' <-> sym ∉ selection w)
  /\ (forall x, x ≠ sym -> (x ∈ selection w' <-> x ∈ selection w))
  /\ (sym ∉ selection w -> length (selection w') = S (length (selection w)))
  /\ (sym ∈ selection w -> S (length (selection w')) = length (selection w))
  /\ selectedStocks (state w') = selectedStocks (state w).
Proof.
  intros Hnd. cbv zeta. rewrite toggleStock_selection.
  destruct (decide (sym ∈ selection w)) as [Hin|Hin].
  - destruct (toggle_present sym (selection w) Hin) as (i & Hi & ->).
    pose proof (delete_Permutation (selection w) i sym Hi) as Hp.
    assert (Hout : sym ∉ delete i (selection w)).
    { rewrite Hp in Hnd. now apply NoDup_cons in Hnd as [? _]. }
    split_and!.
    + split; [intros H; contradiction|intros H; contradiction].
    + intros x Hx. split; [apply list_elem_of_delete_inv|].
      intros H. rewrite Hp in H. apply elem_of_cons in H as [->|H];
        [contradiction|exact H].
    + intros H. contradiction.
    + intros _. apply Permutation_length in Hp. simpl in Hp. lia.
    + reflexivity.
  - rewrite (toggle_absent sym (selection w) Hin). split_and!.
    + split; [auto|]. intros _. apply elem_of_app. right.
      now apply list_elem_of_singleton.
    + intros x Hx. rewrite elem_of_app, list_elem_of_singleton. split; [|auto].
      intros [H|H]; [exact H|contradiction].
    + intros _. rewrite length_app. simpl. lia.
    + intros H. contradiction.
    + reflexivity.
Qed.

Lemma X4_witness :
  NoDup (selection running_page)
  /\ ("TCS" ∉ selection (toggleStock parseFloat_dec "TCS" running_page))
  /\ ("INFY" ∈ selection (toggleStock parseFloat_dec "INFY" running_page)).
Proof.
  assert (H : NoDup (selection running_page)).
  { apply (bool_decide_unpack (NoDup (selection running_page))).
    vm_compute. exact I. }
  split; [exact H|]. split.
  - intros Hin.
    pose proof (proj1 (proj1 (X4_toggle_flips_membership
                                parseFloat_dec running_page "TCS" H)) Hin) as Hn.
    apply Hn. vm_compute. left.
  - apply (proj2 (proj1 (X4_toggle_flips_membership
                           parseFloat_dec running_page "INFY" H))).
    intros Hn.
    assert (E : selection running_page = ["TCS"]) by reflexivity.
    rewrite E in Hn. apply list_elem_of_singleton in Hn. discriminate.
Defined.

(** ** Search *)




(** The no-break space is white space to [trim] and the next-line
    control is not; capital letters of the upper half are lower-cased,
    the multiplication sign between them and the sharp s are not. *)
Lemma search_strings_upper_half :
  blank (String (ascii_of_nat 160) (String (ascii_of_nat 9) EmptyString)) = true
  /\ blank (String (ascii_of_nat 133) EmptyString) = false
  /\ toLowerCase (String (ascii_of_nat 201) (String (ascii_of_nat 215)
                    (String (ascii_of_nat 223) "Z")))
     = String (ascii_of_nat 233) (String (ascii_of_nat 215)
         (String (ascii_of_nat 223) "z")).
Proof. split_and!; reflexivity. Qed.


Lemma is_space_lower (c : ascii) : is_space (lower c) = is_space c.
Proof. destruct c as [[] [] [] [] [] [] [] []]; reflexivity. Qed.

Lemma blank_toLowerCase (s : string) : blank (toLowerCase s) = blank s.
Proof.
  induction s as [|c s IH]; [reflexivity|].
  simpl. now rewrite is_space_lower, IH.
Qed.

Lemma prefix_refl (s : string) : String.prefix s s = true.
Proof.
  induction s as [|c s IH]; [reflexivity|].
  simpl. destruct (ascii_dec c c); [exact IH|contradiction].
Qed.

Lemma str_includes_refl (s : string) : str_includes s s = true.
Proof.
  assert (E : str_includes s s
              = String.prefix s s
                || match s with
                   | EmptyString => false
                   | String _ r => str_includes r s
                   end) by (destruct s; reflexivity).
  rewrite E, prefix_refl. reflexivity.
Qed.

(** X6. The search does not look at the case of the query: two queries
    that agree in lower case give the same page; and a query that
    agrees in lower case with the symbol of a stock of the catalog, and
    is not blank, shows that stock. *)
Theorem X6_search_ignores_case
    (q1 q2 : string) (w : World) (st : Stock) :
  toLowerCase q1 = toLowerCase q2 ->
  searchStocks q1 w = searchStocks q2 w
  /\ (st ∈ allStocks (state w) ->
      toLowerCase q1 = toLowerCase (symbol st) ->
      blank q1 = false ->
      st ∈ filteredStocks (state (searchStocks q1 w))).
Proof.
  intros H. split.
  - unfold searchStocks.
    rewrite <- (blank_toLowerCase q1), H, blank_toLowerCase.
    destruct (blank q2); reflexivity.
  - intros Hin Hs Hb. unfold searchStocks. rewrite Hb.
    cbn [on_state state set_filteredStocks filteredStocks].
    apply list_elem_of_filter. split; [|exact Hin].
    rewrite Hs, str_includes_refl. exact I.
Qed.

Lemma X6_witness :
  toLowerCase "Tcs" = toLowerCase "tCS"
  /\ searchStocks "Tcs" small_page = searchStocks "tCS" small_page
  /\ (symbol <$> filteredStocks (state (searchStocks "tcs" small_page)))
     = ["TCS"].
Proof.
  split; [reflexivity|]. split; [|reflexivity].
  exact (proj1 (X6_search_ignores_case "Tcs" "tCS" small_page
                  {| symbol := "TCS"; name := ""; sector := "" |} eq_refl)).
Defined.

(** ** Timers and the progress bar *)

Lemma next_progress_nonneg (progress r : Q) :
  (0 <= progress)%Q -> (0 <= r)%Q -> (0 <= next_progress progress r)%Q.
Proof.
  intros Hp Hr. apply Qmin'_ge; [|discriminate]. unfold increment. lra.
Qed.

(** The events that neither start nor end anything and are no tick leave
    the timers, the stored handle and the bar alone. *)
Lemma step_timers_passive parseFloat Date_parse tza (w : World) (e : Event) :
  match e with
  | StartClicked _ | Ticked _ _ | BacktestSettled _ | StocksFailed => False
  | _ => True
  end ->
  timers (host (step parseFloat Date_parse tza w e)) = timers (host w)
  /\ next_timer (host (step parseFloat Date_parse tza w e)) = next_timer (host w)
  /\ progressInterval (step parseFloat Date_parse tza w e) = progressInterval w
  /\ progressFill_width (doc (step parseFloat Date_parse tza w e))
     = progressFill_width (doc w).
Proof.
  destruct e as [| | | | | | |f v| | | | | | |]; try contradiction; intros _;
    cbn [step]; try destruct f;
    unfold_handlers; repeat case_match; split_and!; reflexivity.
Qed.

(** The events that end something ([hideProgress] runs) keep the next
    id and the stored handle, remove at most tickers, and leave the bar
    where it was or at 100. *)
Lemma step_timers_hide parseFloat Date_parse tza (w : World) (e : Event) :
  match e with
  | BacktestSettled _ | StocksFailed => True
  | _ => False
  end ->
  (forall id p,
     timers (host (step parseFloat Date_parse tza w e)) !! id = Some p ->
     timers (host w) !! id = Some p)
  /\ next_timer (host (step parseFloat Date_parse tza w e)) = next_timer (host w)
  /\ progressInterval (step parseFloat Date_parse tza w e) = progressInterval w
  /\ (progressFill_width (doc (step parseFloat Date_parse tza w e))
      = progressFill_width (doc w)
      \/ progressFill_width (doc (step parseFloat Date_parse tza w e)) = 100%Q).
Proof.
  destruct e as [| | | | | | | | | |o| | | |]; try contradiction; intros _;
    cbn [step]; try destruct o;
    unfold_handlers; repeat case_match; subst;
    (split_and!;
     [ intros id' p' Hlk; cbn in Hlk;
       try (apply lookup_delete_Some in Hlk as [_ Hlk]); exact Hlk
     | reflexivity
     | first [reflexivity | assumption]
     | first [left; reflexivity | right; reflexivity] ]).
Qed.

Lemma step_timers_inv parseFloat Date_parse tza (w : World) (e : Event) :
  tick_event_ok e -> timers_inv w ->
  timers_inv (step parseFloat Date_parse tza w e).
Proof.
  intros He (Ht & Hh & Hn & Hw0 & Hw1).
  assert (Hcase :
    match e with
    | StartClicked _ | Ticked _ _ => True
    | _ => False
    end
    \/ match e with
       | BacktestSettled _ | StocksFailed => True
       | _ => False
       end
    \/ match e with
       | StartClicked _ | Ticked _ _ | BacktestSettled _ | StocksFailed => False
       | _ => True
       end) by (destruct e; auto).
  destruct Hcase as [Hc|[Hc|Hc]].
  - destruct e as [| | | | | | | |now|id r| | | | |]; try contradiction; cbn [step].
    + (* a start *)
      unfold timers_inv. unfold_handlers.
      cbn [on_state on_doc on_host set_progressInterval host doc timers
           next_timer set_timers set_next_timer set_outbox set_awaiting
           progressInterval progressFill_width set_sections].
      split_and!; try assumption; try lia.
      * intros id p H. apply lookup_insert_Some in H as [[<- <-]|[Hne H]].
        -- split; [lia|]. split; [apply Qle_refl|reflexivity].
        -- destruct (Ht id p H) as (? & ? & ?). split; [lia|]. now split.
      * intros id [= <-]. lia.
    + (* a tick *)
      simpl in He.
      destruct (timers (host w) !! id) as [p0|] eqn:E.
      * destruct (tick_live id r p0 w E) as (Hwd & Hid & Hoth).
        destruct (tick_state id r w) as (_ & _ & Hpi).
        destruct (tick_host id r w) as (_ & _ & _ & _ & Hnt).
        destruct (Ht id p0 E) as (Hidr & Hp0 & Hp1).
        pose proof (next_progress_nonneg p0 r Hp0 He) as Hnn.
        pose proof (next_progress_le_95 p0 r) as Hle.
        unfold timers_inv. rewrite Hwd, Hpi, Hnt.
        split_and!; try assumption.
        -- intros id' p H. destruct (decide (id' = id)) as [->|Hne].
           ++ rewrite Hid in H.
              destruct (Qle_bool 95 (next_progress p0 r)) eqn:Eq; [discriminate|].
              injection H as <-. split; [exact Hidr|]. split; [exact Hnn|].
              apply Qnot_le_lt. intros Hc'. apply Qle_bool_iff in Hc'. congruence.
           ++ rewrite (Hoth id' Hne) in H. exact (Ht id' p H).
        -- lra.
      * rewrite tick_dead by exact E. unfold timers_inv. now split_and!.
  - destruct (step_timers_hide parseFloat Date_parse tza w e Hc)
      as (Hsub & Hnt & Hpi & Hwd).
    unfold timers_inv. rewrite Hnt, Hpi. split_and!; try assumption.
    + intros id p H. exact (Ht id p (Hsub id p H)).
    + destruct Hwd as [-> | ->]; [assumption|discriminate].
    + destruct Hwd as [-> | ->]; [assumption|apply Qle_refl].
  - destruct (step_timers_passive parseFloat Date_parse tza w e Hc)
      as (Htm & Hnt & Hpi & Hwd).
    unfold timers_inv. rewrite Htm, Hnt, Hpi, Hwd. now split_and!.
Qed.

Lemma booted_timers_inv parseFloat (target stopLoss : string) :
  timers_inv (booted parseFloat target stopLoss).
Proof.
  unfold timers_inv. cbn.
  split_and!; try lia; try discriminate;
    try (intros id p H; now rewrite lookup_empty in H).
Qed.

(** X7. In every state the page reaches (the values drawn for the ticks
    not being negative): every live ticker has a positive id that is
    below the next id to be given out, and a progress value from 0 up to
    but not including 95; the stored handle is such an id too, so it is
    never the 0 that [hideProgress] would skip; and the bar is within
    0..100. *)
Theorem X7_timers_and_bar_stay_in_range
    (parseFloat : string -> num) (Date_parse : string -> option Z) (tza : HostDate.Zone)
    (target stopLoss : string) (evs : list Event) :
  Forall tick_event_ok evs ->
  let w := run parseFloat Date_parse tza (booted parseFloat target stopLoss) evs in
  (forall id p, timers (host w) !! id = Some p ->
     (0 < id < next_timer (host w))%nat /\ (0 <= p)%Q /\ (p < 95)%Q)
  /\ (forall id, progressInterval w = Some id ->
      (0 < id < next_timer (host w))%nat)
  /\ (0 <= progressFill_width (doc w))%Q
  /\ (progressFill_width (doc w) <= 100)%Q.
Proof.
  intros Hev w.
  assert (H : timers_inv w).
  { subst w. induction evs as [|e evs IH] using rev_ind.
    - apply booted_timers_inv.
    - apply Forall_app in Hev as [Hevs He].
      apply (proj1 (Forall_singleton _ _)) in He.
      rewrite run_snoc. apply step_timers_inv; [exact He|now apply IH]. }
  destruct H as (H1 & H2 & _ & H4 & H5). now split_and!.
Qed.

Lemma X7_witness :
  let w := run parseFloat_dec Date_parse_iso HostDate.utc
               (booted parseFloat_dec "3.0" "2.0") ticking_runs in
  Forall tick_event_ok ticking_runs
  /\ (progressFill_width (doc w) <= 100)%Q
  /\ next_timer (host w) = 3%nat.
Proof.
  cbv zeta.
  assert (H : Forall tick_event_ok ticking_runs).
  { unfold ticking_runs. repeat (constructor; [first [exact I | discriminate]|]).
    constructor. }
  split; [exact H|]. split; [|reflexivity].
  exact (proj2 (proj2 (proj2 (X7_timers_and_bar_stay_in_range parseFloat_dec
                                Date_parse_iso HostDate.utc "3.0" "2.0" ticking_runs H)))).
Defined.

Lemma ticks_progress (id : nat) (w : World) (rs : list Q) :
  Forall (fun r => (0 <= r)%Q) rs ->
  timers (host w) !! id = Some 0%Q ->
  let w2 := foldl (fun acc r => tick id r acc) w rs in
  (exists p, timers (host w2) !! id = Some p
             /\ (inject_Z (5 * Z.of_nat (length rs)) <= p)%Q /\ (p < 95)%Q)
  \/ (timers (host w2) !! id = None
      /\ (progressFill_width (doc w2) == 95)%Q).
Proof.
  intros Hrs H0. cbv zeta.
  induction rs as [|r rs IH] using rev_ind.
  - left. exists 0%Q. split; [exact H0|]. split; [apply Qle_refl|reflexivity].
  - apply Forall_app in Hrs as [Hrs Hr].
    apply (proj1 (Forall_singleton _ _)) in Hr.
    rewrite foldl_app. cbn [foldl].
    destruct (IH Hrs) as [(p & Hp & Hlo & Hhi)|[Hd Hw]].
    + destruct (tick_live id r p _ Hp) as (Hwd & Hid & _).
      rewrite Hid, Hwd.
      pose proof (next_progress_le_95 p r) as Hle.
      destruct (Qle_bool 95 (next_progress p r)) eqn:E.
      * right. split; [reflexivity|].
        apply Qle_bool_iff in E. now apply Qle_antisym.
      * left. exists (next_progress p r). split; [reflexivity|].
        assert (Hlt : (next_progress p r < 95)%Q).
        { apply Qnot_le_lt. intros Hc. apply Qle_bool_iff in Hc. congruence. }
        split; [|exact Hlt].
        destruct (next_progress_cases p r) as [[Heq _]|[Heq _]].
        -- rewrite Heq, length_app. cbn [length].
           replace (5 * Z.of_nat (length rs + 1))
             with (5 * Z.of_nat (length rs) + 5) by lia.
           rewrite inject_Z_plus. unfold increment.
           change (inject_Z 5) with 5%Q.
           cbv beta in Hr. clear IH.
           generalize dependent (inject_Z (5 * Z.of_nat (length rs))).
           intros b Hb. lra.
        -- rewrite Heq in Hlt. discriminate.
    + right. rewrite tick_dead by exact Hd. now split.
Qed.

(** X8. A ticker of [animateProgress] stops by itself: after at most 19
    ticks (the values drawn not being negative) it has reached 95,
    written 95 to the bar and cleared its own interval, whether or not
    the run has ended. *)
Theorem X8_ticker_stops_within_19_ticks
    (parseFloat : string -> num) (tza : HostDate.Zone) (now : Z) (w : World) (rs : list Q) :
  Forall (fun r => (0 <= r)%Q) rs ->
  (19 <= length rs)%nat ->
  let id := next_timer (host w) in
  let w2 := foldl (fun acc r => tick id r acc)
                  (startBacktest parseFloat tza now w) rs in
  timers (host w2) !! id = None
  /\ (progressFill_width (doc w2) == 95)%Q
  /\ awaiting (host w2) = S (awaiting (host w)).
Proof.
  intros Hrs Hlen id w2.
  assert (H0 : timers (host (startBacktest parseFloat tza now w)) !! id
               = Some 0%Q) by (cbn; apply lookup_insert_eq).
  assert (Haw : awaiting (host w2) = S (awaiting (host w))).
  { subst w2. clear Hrs Hlen. induction rs as [|r rs IH] using rev_ind;
      [reflexivity|].
    rewrite foldl_app. cbn [foldl].
    now rewrite (proj1 (proj2 (tick_host id r _))). }
  destruct (ticks_progress id _ rs Hrs H0) as [(p & _ & Hlo & Hhi)|[Hd Hw]].
  - exfalso.
    assert (Hb : (inject_Z 95 <= inject_Z (5 * Z.of_nat (length rs)))%Q).
    { rewrite <- Zle_Qle. lia. }
    change (inject_Z 95) with 95%Q in Hb. lra.
  - now split_and!.
Qed.

Lemma X8_witness :
  let rs := replicate 19 0%Q in
  let w2 := foldl (fun acc r => tick 1 r acc)
                  (startBacktest parseFloat_dec HostDate.utc 0
                     (booted parseFloat_dec "3.0" "2.0")) rs in
  Forall (fun r => (0 <= r)%Q) rs
  /\ timers (host w2) !! 1%nat = None.
Proof.
  cbv zeta.
  assert (H : Forall (fun r => (0 <= r)%Q) (replicate 19 0%Q)).
  { apply Forall_replicate. apply Qle_refl. }
  split; [exact H|].
  refine (proj1 (X8_ticker_stops_within_19_ticks parseFloat_dec HostDate.utc 0
                   (booted parseFloat_dec "3.0" "2.0")
                   (replicate 19 0%Q) H _)).
  rewrite length_replicate. lia.
Defined.

Lemma step_next_timer parseFloat Date_parse tza (w : World) (e : Event) :
  next_timer (host (step parseFloat Date_parse tza w e))
  = match e with
    | StartClicked _ => S (next_timer (host w))
    | _ => next_timer (host w)
    end.
Proof.
  destruct e as [| | | | | | |f v| | |o| | | |]; cbn [step];
    try destruct f; try destruct o;
    unfold_handlers; repeat case_match; reflexivity.
Qed.

Lemma run_next_timer_pos parseFloat Date_parse tza (w : World)
    (evs : list Event) :
  (0 < next_timer (host w))%nat ->
  (0 < next_timer (host (run parseFloat Date_parse tza w evs)))%nat.
Proof.
  intros H. induction evs as [|e evs IH] using rev_ind; [exact H|].
  rewrite run_snoc, step_next_timer. destruct e; lia.
Qed.

(** X9. A run on its own, from any state the page reaches: the start
    gives the run a ticker at 0 under a new handle, but it does not
    reset the bar: the width and the text stay what they were until the
    first tick, so right after the start of a second run the bar still
    shows 100 and "Complete!".  Each tick of the run's ticker writes to
    the bar the old value plus an increment from 5 up to 20, cut off at
    95, so from the first tick on the bar is at most 95 while the run
    is awaiting; and when the run ends, with results or with an error,
    the bar is set to 100 and that ticker is cleared. *)
Theorem X9_single_run_progress
    (parseFloat : string -> num) (Date_parse : string -> option Z) (tza : HostDate.Zone)
    (target stopLoss : string) (evs : list Event)
    (now : Z) (rs : list Q) (o : Outcome) :
  let w := run parseFloat Date_parse tza (booted parseFloat target stopLoss) evs in
  let id := next_timer (host w) in
  let w1 := startBacktest parseFloat tza now w in
  let w2 := foldl (fun acc r => tick id r acc) w1 rs in
  progressInterval w1 = Some id
  /\ timers (host w1) !! id = Some 0%Q
  /\ progressFill_width (doc w1) = progressFill_width (doc w)
  /\ progressText (doc w1) = progressText (doc w)
  /\ (let u := run parseFloat_dec Date_parse_iso HostDate.utc
                   (booted parseFloat_dec "3.0" "2.0") second_run_started in
      awaiting (host u) = 1%nat
      /\ progressFill_width (doc u) = 100%Q
      /\ progressText (doc u) = "Complete!")
  /\ (forall u r p,
        timers (host u) !! id = Some p -> (0 <= r)%Q -> (r < 1)%Q ->
        progressFill_width (doc (tick id r u)) = Qmin' (p + increment r) 95
        /\ (5 <= increment r)%Q /\ (increment r < 20)%Q)
  /\ (rs ≠ [] -> (progressFill_width (doc w2) <= 95)%Q)
  /\ progressFill_width (doc (backtestSettled o w2)) = 100%Q
  /\ timers (host (backtestSettled o w2)) !! id = None.
Proof.
  intros w id w1 w2.
  assert (Hid : next_timer (host w) ≠ 0%nat).
  { pose proof (run_next_timer_pos parseFloat Date_parse tza
                  (booted parseFloat target stopLoss) evs) as H.
    fold w in H. cbn in H. lia. }
  destruct (single_run_progress parseFloat tza now w rs o Hid) as (H1 & H2 & H3).
  split; [reflexivity|]. split; [cbn; apply lookup_insert_eq|].
  split; [reflexivity|]. split; [reflexivity|].
  split; [cbv zeta; split_and!; vm_compute; reflexivity|].
  split; [|split_and!; assumption].
  intros u r p Hp Hr0 Hr1.
  destruct (tick_live id r p u Hp) as (-> & _).
  split; [reflexivity|]. now apply increment_bounds.
Qed.

(** ** Results, exports and requests *)

Lemma step_results parseFloat Date_parse tza (w : World) (e : Event) :
  awaiting (host (step parseFloat Date_parse tza w e))
  = match e with
    | StartClicked _ => S (awaiting (host w))
    | BacktestSettled _ => pred (awaiting (host w))
    | _ => awaiting (host w)
    end
  /\ (lastBacktestResults (step parseFloat Date_parse tza w e),
      rendered (doc (step parseFloat Date_parse tza w e)))
     = match e with
       | BacktestSettled (Ok2xx results) =>
           match awaiting (host w) with
           | O => (lastBacktestResults w, rendered (doc w))
           | S _ => (Some results, Some results)
           end
       | _ => (lastBacktestResults w, rendered (doc w))
       end.
Proof.
  destruct e as [| | | | | | |f v| | |o| | | |]; cbn [step];
    try destruct f; try destruct o;
    unfold_handlers; repeat case_match; simplify_eq; split;
    first [ reflexivity
          | match goal with
            | Ha : awaiting _ = _ |- _ => rewrite Ha; reflexivity
            end
          | match goal with
            | Hl : lastBacktestResults _ = _ |- _ => rewrite <- Hl; reflexivity
            end ].
Qed.

Lemma step_results_inv parseFloat Date_parse tza (w : World) (e : Event) :
  results_inv w -> results_inv (step parseFloat Date_parse tza w e).
Proof.
  intros (Hr & Hp & Ht). unfold results_inv.
  destruct (step_results parseFloat Date_parse tza w e) as [Ha Hres].
  pose proof (f_equal fst Hres) as H1. pose proof (f_equal snd Hres) as H2.
  clear Hres. cbn [fst snd] in H1, H2.
  rewrite Ha, step_lastBacktestParams. clear Ha.
  destruct e as [| | | | | | | |now| |o| | | |]; cbn [fst snd] in H1, H2;
    try (rewrite H1, H2; split_and!; assumption).
  - rewrite H1, H2. split_and!; [exact Hr|eauto|]. now intros p [= <-].
  - destruct o as [results| |]; cbn [fst snd] in H1, H2.
    + destruct (awaiting (host w)) as [|n] eqn:Ea; cbn [fst snd] in H1, H2;
        rewrite H1, H2.
      * split_and!; [exact Hr| |exact Ht]. intros [H|H]; [simpl in H; lia|].
        apply Hp. now right.
      * split_and!; [reflexivity| |exact Ht]. intros _. apply Hp. left. lia.
    + rewrite H1, H2. split_and!; [exact Hr| |exact Ht].
      intros [H|H]; apply Hp; [left; simpl in H; lia|now right].
    + rewrite H1, H2. split_and!; [exact Hr| |exact Ht].
      intros [H|H]; apply Hp; [left; simpl in H; lia|now right].
Qed.

Lemma run_results_inv parseFloat Date_parse tza (w : World) (evs : list Event) :
  results_inv w -> results_inv (run parseFloat Date_parse tza w evs).
Proof.
  intros H. induction evs as [|e evs IH] using rev_ind; [exact H|].
  rewrite run_snoc. now apply step_results_inv.
Qed.

Lemma booted_results_inv parseFloat (target stopLoss : string) :
  results_inv (booted parseFloat target stopLoss).
Proof.
  split; [reflexivity|]. split.
  - intros [H|[x H]]; [cbn in H; lia|discriminate].
  - intros p H. discriminate.
Qed.

(** X10. In every state the page reaches, the payload shown in the
    results section is the payload stored for the JSON export.  The
    export refuses with the prompt when nothing is stored; otherwise it
    downloads exactly that payload under the file name built from the
    stored parameters and reports nothing: results are never stored
    without parameters, so the export never fails on reading them. *)
Theorem X10_json_export_is_what_is_shown
    (parseFloat : string -> num) (Date_parse : string -> option Z) (tza : HostDate.Zone)
    (target stopLoss : string) (evs : list Event) :
  let w := run parseFloat Date_parse tza (booted parseFloat target stopLoss) evs in
  rendered (doc w) = lastBacktestResults w
  /\ (lastBacktestResults w = None ->
      downloadJSON w = alert run_first_message w)
  /\ (forall results,
        lastBacktestResults w = Some results ->
        exists p,
          lastBacktestParams (state w) = Some p
          /\ downloads (host (downloadJSON w))
             = downloads (host w)
               ++ [ {| filename := json_filename p; data := results |} ]
          /\ alerts (host (downloadJSON w)) = alerts (host w)).
Proof.
  intros w.
  destruct (run_results_inv parseFloat Date_parse tza _ evs
              (booted_results_inv parseFloat target stopLoss)) as (Hr & Hp & _).
  fold w in Hr, Hp. split_and!.
  - exact Hr.
  - intros H. unfold downloadJSON. now rewrite H.
  - intros results H.
    destruct Hp as [p Hp]; [right; rewrite H; eauto|].
    exists p. unfold downloadJSON. rewrite H, Hp. now split_and!.
Qed.

(** X11. When a run fails while a call is pending, exactly one alert is
    raised: it carries the [detail] of the error response, or the
    message of the transport error, verbatim when there is one, and a
    fixed message otherwise; the bar is set to 100; and the stored
    results, their rendering and the stored parameters are as they
    were. *)
Theorem X11_failed_run_is_reported_once (o : Outcome) (w : World) :
  awaiting (host w) ≠ 0%nat ->
  (forall results, o ≠ Ok2xx results) ->
  let w' := backtestSettled o w in
  alerts (host w')
  = alerts (host w)
    ++ [ "Error: " +:+ failure_message o +:+ newline +:+ newline
         +:+ "Please check your inputs and try again." ]
  /\ failure_message o ≠ ""
  /\ awaiting (host w') = pred (awaiting (host w))
  /\ progressFill_width (doc w') = 100%Q
  /\ lastBacktestResults w' = lastBacktestResults w
  /\ rendered (doc w') = rendered (doc w)
  /\ resultsSection_shown (doc w') = resultsSection_shown (doc w)
  /\ lastBacktestParams (state w') = lastBacktestParams (state w)
  /\ outbox (host w') = outbox (host w).
Proof.
  intros Ha Ho. cbv zeta. unfold backtestSettled.
  destruct (awaiting (host w)) as [|n]; [contradiction|].
  destruct o as [results|[detail|]|message];
    [now destruct (Ho results)| | |];
    cbn [api_runBacktest_receive failure_message or_str];
    try destruct (truthy_str detail) eqn:Ed;
    try destruct (truthy_str message) eqn:Em;
    cbn [truthy_str];
    unfold showError, hideProgress, alert, clearInterval;
    repeat case_match;
    (split_and!; try reflexivity);
    try discriminate;
    now apply truthy_str_true.
Qed.

Lemma X11_witness :
  awaiting (host running_page) ≠ 0%nat
  /\ alerts (host (backtestSettled (HttpError (Some "No data")) running_page))
     = [ "Error: No data" +:+ newline +:+ newline
         +:+ "Please check your inputs and try again." ].
Proof.
  split; [discriminate|].
  refine (proj1 (X11_failed_run_is_reported_once (HttpError (Some "No data"))
                   running_page _ _)); [discriminate|discriminate].
Defined.





(** ** Validation of the dates *)

(** X13. Validation of the dates is idempotent, so it never prompts
    twice in a row; it changes nothing when one of the two dates cannot
    be parsed (the comparison with an invalid date is false); and after
    it the two fields never hold a start that is not before the end. *)
Theorem X13_validation_is_idempotent_and_lenient
    (Date_parse : string -> option Z) (w : World) :
  let w' := validateDates Date_parse w in
  validateDates Date_parse w' = w'
  /\ (Date_parse (startDate (doc w)) = None
      \/ Date_parse (endDate (doc w)) = None -> w' = w)
  /\ startDate (doc w') = startDate (doc w)
  /\ (forall a b,
        startDate (doc w') ≠ "" -> endDate (doc w') ≠ "" ->
        Date_parse (startDate (doc w')) = Some a ->
        Date_parse (endDate (doc w')) = Some b ->
        a < b).
Proof.
  cbv zeta. unfold validateDates.
  destruct (truthy_str (startDate (doc w))) eqn:Ts;
    destruct (truthy_str (endDate (doc w))) eqn:Te; cbn [andb];
    try (rewrite ?Ts, ?Te; cbn [andb]; split_and!; try reflexivity;
         intros a b Hs He; apply truthy_str_true in Hs, He; congruence).
  destruct (date_ge (Date_parse (startDate (doc w)))
                    (Date_parse (endDate (doc w)))) eqn:Hge.
  - cbn [on_doc alert on_host doc set_endDate endDate startDate].
    rewrite Ts. cbn [truthy_str andb]. split_and!; try reflexivity.
    + intros [H|H]; rewrite H in Hge; [discriminate|].
      now destruct (Date_parse (startDate (doc w))).
    + intros a b _ He. now destruct He.
  - rewrite Ts, Te, Hge. cbn [andb]. split_and!; try reflexivity.
    intros a b _ _ Ha Hb. rewrite Ha, Hb in Hge. cbn [date_ge] in Hge.
    now apply Z.leb_gt in Hge.
Qed.

(** ** The limits of the date inputs *)

Lemma daysBack_range (months : option Z) : 30 <= daysBack months <= 365.
Proof.
  unfold daysBack, daysMap.
  destruct months as [[|p|p]|]; try (simpl; lia).
  do 5 (try destruct p as [p|p|]); simpl; lia.
Qed.

(** X14. A preset period ends on the maximum date that [setDateLimits]
    gives to the date inputs at the same instant.  Where the zone has
    the same offset at the run instant and at the start of the period
    (always in a zone without daylight saving), the period starts
    between 30 and 365 days before the run date, so not before the day
    of the minimum date, and the twelve-month preset starts exactly on
    the minimum date.  Across a change of the offset this fails: in New
    York on the evening after the end of daylight saving in 2024 the
    twelve-month preset starts on 2023-11-04, the day before the
    minimum date. *)
Theorem X14_preset_period_within_date_limits
    (parseFloat : string -> num) (tza : HostDate.Zone) (now : Z) (w : World) :
  isCustomPeriod (state w) = false ->
  let range := getDateRange tza now w in
  let limits := setDateLimits now in
  end_date range = maxDate limits
  /\ (same_offset tza now (daysBack (selectedPeriodMonths (state w))) ->
      (exists t,
         start_date range = HostDate.isoDate t
         /\ HostDate.Day (now - 365 * 24 * 60 * 60 * 1000) <= HostDate.Day t
         /\ HostDate.Day t <= HostDate.Day now - 30)
      /\ (selectedPeriodMonths (state w) = Some 12 ->
          start_date range = minDate limits
          /\ req_start_date (buildParams parseFloat tza now w) = minDate limits))
  /\ (start_date (getDateRange new_york november_in_new_york twelve_month_page)
      = "2023-11-04"
      /\ minDate (setDateLimits november_in_new_york) = "2023-11-05"
      /\ maxDate (setDateLimits november_in_new_york) = "2024-11-04").
Proof.
  intros Hc. cbv zeta. split; [|split].
  - rewrite (getDateRange_preset tza now w Hc). reflexivity.
  - intros Hz. unfold buildParams.
    rewrite (getDateRange_preset_same_offset tza now w Hc Hz).
    cbn [start_date end_date setDateLimits maxDate minDate req_start_date].
    pose proof (daysBack_range (selectedPeriodMonths (state w))) as Hd.
    split.
    + eexists. split; [reflexivity|].
      rewrite Day_minus_days.
      replace (now - 365 * 24 * 60 * 60 * 1000)
        with (now - 365 * HostDate.msPerDay)
        by (unfold HostDate.msPerDay; lia).
      rewrite Day_minus_days. lia.
    + intros ->. split; f_equal; unfold HostDate.msPerDay; cbn; lia.
  - repeat (split; [vm_compute; reflexivity|]). vm_compute. reflexivity.
Qed.

Lemma X14_witness :
  end_date (getDateRange india (HostDate.UTCDate 2024 6 15 + 43200000)
              twelve_month_page)
  = maxDate (setDateLimits (HostDate.UTCDate 2024 6 15 + 43200000))
  /\ start_date (getDateRange india (HostDate.UTCDate 2024 6 15 + 43200000)
                   twelve_month_page)
     = minDate (setDateLimits (HostDate.UTCDate 2024 6 15 + 43200000)).
Proof.
  destruct (X14_preset_period_within_date_limits parseFloat_dec india
              (HostDate.UTCDate 2024 6 15 + 43200000) twelve_month_page
              eq_refl) as (H1 & H2 & _).
  split; [exact H1|].
  destruct (H2 (same_offset_fixed _ _ _)) as [_ H3].
  exact (proj1 (H3 eq_refl)).
Defined.

(** ** The older trades table and selection (frontend/js/main.js) *)

(** X15. The older trades table shows the placeholder exactly for an
    empty list; otherwise it has one row per trade up to 25, the rows
    are those of the first trades in the order of the payload, the
    heading counts every trade of the payload, and the note on the cut
    appears exactly when trades were left out. *)
Theorem X15_trades_table_is_cut_at_25 (trades : list Trade) :
  (Legacy.createTradesTable trades = Legacy.NoTrades <-> trades = [])
  /\ (trades ≠ [] ->
      exists rows note,
        Legacy.createTradesTable trades = Legacy.Table rows (length trades) note
        /\ length rows = (length trades `min` 25)%nat
        /\ (forall i, (i < 25)%nat ->
              rows !! i = Legacy.tradeRow <$> trades !! i)
        /\ (forall i, (25 <= i)%nat -> rows !! i = None)
        /\ (note = true <-> (length rows < length trades)%nat)).
Proof.
  split.
  - destruct trades; split; intros H; try reflexivity; discriminate.
  - intros Hne. destruct trades as [|t trades]; [contradiction|].
    eexists _, _. split; [reflexivity|].
    assert (Hlen : length (Legacy.tradeRow <$> take 25 (t :: trades))
                   = (length (t :: trades) `min` 25)%nat).
    { rewrite length_fmap, length_take. lia. }
    split_and!.
    + exact Hlen.
    + intros i Hi. rewrite list_lookup_fmap, lookup_take_lt by exact Hi.
      reflexivity.
    + intros i Hi. apply lookup_ge_None. rewrite Hlen. lia.
    + rewrite Hlen, Nat.ltb_lt. lia.
Qed.

Lemma X15_witness :
  exists rows note,
    Legacy.createTradesTable [long_trade] = Legacy.Table rows 1 note
    /\ length rows = 1%nat.
Proof.
  destruct (proj2 (X15_trades_table_is_cut_at_25 [long_trade]))
    as (rows & note & H1 & H2 & _); [discriminate|].
  exists rows, note. split; [exact H1|exact H2].
Defined.

Lemma filter_ne_notin (sym : string) (l : list string) :
  sym ∉ l -> filter (fun s => s ≠ sym) l = l.
Proof.
  induction l as [|x l IH]; intros H; [reflexivity|].
  apply not_elem_of_cons in H as [Hx Hl].
  rewrite filter_cons_True by congruence. now rewrite IH.
Qed.

Lemma filter_ne_delete (sym : string) (l : list string) (i : nat) :
  NoDup l -> l !! i = Some sym -> filter (fun s => s ≠ sym) l = delete i l.
Proof.
  revert i. induction l as [|x l IH]; intros i Hnd Hi; [discriminate|].
  apply NoDup_cons in Hnd as [Hx Hnd].
  destruct i as [|i]; simpl in Hi.
  - injection Hi as ->. rewrite filter_cons_False by (intros H; now apply H).
    simpl. now apply filter_ne_notin.
  - assert (x ≠ sym).
    { intros ->. apply Hx. now apply list_elem_of_lookup_2 in Hi. }
    rewrite filter_cons_True by assumption. simpl. f_equal. now apply IH.
Qed.

Lemma selectAll_length_le (visible : list Stock) (sel : list string) :
  (length (selectAll visible sel) <= length sel + length visible)%nat.
Proof.
  unfold selectAll. revert sel.
  induction visible as [|st visible IH]; intros sel; simpl; [lia|].
  destruct (includes (symbol st) sel).
  - specialize (IH sel). lia.
  - specialize (IH (sel ++ [symbol st])). rewrite length_app in IH.
    simpl in IH. lia.
Qed.

(** X16. The older toggle always flips the membership of its symbol and
    of no other, whatever the array holds, and agrees with the newer one
    on an array without repetitions; the older "select all" keeps the
    array as a prefix, adds at most 50 symbols, all of them among the
    first 50 visible stocks, and agrees with the newer one when at most
    50 stocks are visible. *)
Theorem X16_older_selection (sym : string) (sel : list string)
    (visible : list Stock) :
  (sym ∈ Legacy.toggle sym sel <-> sym ∉ sel)
  /\ (forall s, s ≠ sym -> s ∈ Legacy.toggle sym sel <-> s ∈ sel)
  /\ (NoDup sel -> Legacy.toggle sym sel = toggle sym sel)
  /\ sel `prefix_of` Legacy.selectAllVisible visible sel
  /\ (length (Legacy.selectAllVisible visible sel) <= length sel + 50)%nat
  /\ (forall s, s ∈ Legacy.selectAllVisible visible sel <->
                s ∈ sel \/ s ∈ (symbol <$> take 50 visible))
  /\ ((length visible <= 50)%nat ->
      Legacy.selectAllVisible visible sel = selectAll visible sel).
Proof.
  unfold Legacy.toggle, Legacy.selectAllVisible.
  destruct (includes sym sel) eqn:E.
  - apply includes_true in E. split_and!.
    + rewrite list_elem_of_filter. split; [intros [H _]; now destruct H|tauto].
    + intros s Hs. rewrite list_elem_of_filter. tauto.
    + intros Hnd. destruct (toggle_present sym sel E) as (i & Hi & ->).
      unfold toggle in *. now apply filter_ne_delete.
    + apply selectAll_prefix.
    + pose proof (selectAll_length_le (take 50 visible) sel) as H.
      rewrite length_take in H. lia.
    + intros s. apply selectAll_elem_of.
    + intros H. now rewrite take_ge.
  - assert (Hn : sym ∉ sel).
    { intros H. apply includes_true in H. congruence. }
    split_and!.
    + rewrite elem_of_app, list_elem_of_singleton. tauto.
    + intros s Hs. rewrite elem_of_app, list_elem_of_singleton. tauto.
    + intros _. now rewrite toggle_absent.
    + apply selectAll_prefix.
    + pose proof (selectAll_length_le (take 50 visible) sel) as H.
      rewrite length_take in H. lia.
    + intros s. apply selectAll_elem_of.
    + intros H. now rewrite take_ge.
Qed.

(** ** The connection indicator and the polling loop *)

(** X17. The health probe never fails the page: a failed probe shows
    the connection error; "Connected" is shown exactly when the reply
    carries a true connection flag, also beside an error status; and an
    error status without that flag shows the connection error, every
    other reply the limited mode. *)
Theorem X17_health_indicator (r : HealthReply) :
  (r = HealthFailed ->
   checkHealth r = {| dot_class := "error"; status_text := "Connection Error" |})
  /\ (status_text (checkHealth r) = "Connected"
      <-> exists status, r = HealthJson status (Some true))
  /\ (dot_class (checkHealth r) = "connected"
      <-> status_text (checkHealth r) = "Connected")
  /\ (status_text (checkHealth r) = "Connection Error"
      <-> r = HealthFailed
          \/ exists connected,
               r = HealthJson (Some "error") connected
               /\ connected ≠ Some true)
  /\ (status_text (checkHealth r) ∈ ["Connected"; "Connection Error"; "Limited Mode"]).
Proof.
  destruct r as [status [[|]|]|]; unfold checkHealth, updateStatus;
    cbn [api_checkHealth h_status h_connected default];
    repeat case_bool_decide; cbn [dot_class status_text];
    (split_and!; [intros; try discriminate; try reflexivity
                 | split; [intros; try discriminate; eauto
                          | intros [s Hs]; try discriminate; try reflexivity]
                 | split; intros; try discriminate; reflexivity
                 | split; [intros; try discriminate
                          | intros [Hf|[c [Hc Hn]]]; try discriminate]
                 | set_solver ]);
    simplify_eq; try reflexivity; try congruence; eauto.
  all: try (right; eexists; split; [reflexivity|discriminate]).
Qed.

Lemma pollBacktestStatus_running (replies : list StatusReply) :
  forall i, (S i < length (pollBacktestStatus replies))%nat ->
            pollBacktestStatus replies !! i = Some (Reported (Some "running"))
            /\ replies !! i = Some (StatusJson (Some "running")).
Proof.
  induction replies as [|[status|message] replies IH]; intros i Hi; simpl in *.
  - lia.
  - case_bool_decide as Hs; simpl in Hi.
    + subst. destruct i as [|i]; [now split|]. simpl. apply IH. lia.
    + lia.
  - lia.
Qed.

(** X18. The polling loop makes one status call per reply it consumes
    and reports each once, in order: every report before the last one is
    a "running" status; it polls again only after such a status, so a
    reply that is not "running", and the first error, end the loop with
    that report; and while only "running" arrives every reply is
    reported. *)
Theorem X18_polling_stops_at_first_final_status
    (replies rest : list StatusReply) (final : StatusReply) :
  (length (pollBacktestStatus replies) <= length replies)%nat
  /\ (forall i, (S i < length (pollBacktestStatus replies))%nat ->
        pollBacktestStatus replies !! i = Some (Reported (Some "running")))
  /\ (Forall (fun r => r = StatusJson (Some "running")) replies ->
      final ≠ StatusJson (Some "running") ->
      pollBacktestStatus replies
      = replicate (length replies) (Reported (Some "running"))
      /\ pollBacktestStatus (replies ++ final :: rest)
         = replicate (length replies) (Reported (Some "running"))
           ++ [ match final with
                | StatusJson status => Reported status
                | StatusError message => ReportedFailed message
                end ]).
Proof.
  split_and!.
  - induction replies as [|[status|message] replies IH]; simpl; try lia.
    case_bool_decide; simpl; lia.
  - intros i Hi. now apply pollBacktestStatus_running.
  - intros Hall Hfinal.
    induction Hall as [|r replies -> Hall IH]; simpl.
    + split; [reflexivity|].
      destruct final as [status|message]; [|reflexivity].
      rewrite bool_decide_eq_false_2; [reflexivity|congruence].
    + destruct IH as [-> ->]. now split.
Qed.

(** ** The text under the bar *)

Lemma next_progress_ge_5 (progress r : Q) :
  (0 <= progress)%Q -> (0 <= r)%Q -> (5 <= next_progress progress r)%Q.
Proof.
  intros Hp Hr. apply Qmin'_ge; [|discriminate]. unfold increment. lra.
Qed.

Lemma message_index_range (p : Q) (n : Z) :
  (5 <= p)%Q -> (p <= 95)%Q -> 5 <= n ->
  0 <= Qfloor (p / 100 * inject_Z n)%Q < n.
Proof.
  intros H5 H95 Hn.
  assert (Hq : (5 <= inject_Z n)%Q).
  { change 5%Q with (inject_Z 5). rewrite <- Zle_Qle. lia. }
  assert (Hlo : (0 <= p / 100)%Q) by (apply Qle_shift_div_l; lra).
  assert (Hhi : (p / 100 <= 19 # 20)%Q) by (apply Qle_shift_div_r; lra).
  generalize dependent (p / 100)%Q. intros q Hlo Hhi.
  split.
  - change 0 with (Qfloor 0). apply Qfloor_resp_le.
    apply Qmult_le_0_compat; lra.
  - apply Z.lt_le_trans with (Qfloor (inject_Z n - (1 # 4)) + 1).
    + apply Z.lt_succ_r. apply Qfloor_resp_le.
      assert (Hm : (q * inject_Z n <= (19 # 20) * inject_Z n)%Q).
      { apply Qmult_le_compat_r; lra. }
      eapply Qle_trans; [exact Hm|]. lra.
    + assert (Hf : Qfloor (inject_Z n - (1 # 4)) < n).
      { rewrite Zlt_Qlt. eapply Qle_lt_trans; [apply Qfloor_le|]. lra. }
      lia.
Qed.

Lemma message_at_defined (i : Z) :
  0 <= i < 6 ->
  exists m, message_at i = Some m /\ truthy_str m = true
            /\ messages !! Z.to_nat i = Some m.
Proof.
  intros Hi.
  assert (Hc : i = 0 \/ i = 1 \/ i = 2 \/ i = 3 \/ i = 4 \/ i = 5) by lia.
  destruct Hc as [->|[->|[->|[->|[->| ->]]]]];
    eexists; split_and!; reflexivity.
Qed.

Lemma Legacy_message_at_defined (i : Z) :
  0 <= i < 5 ->
  exists m, Legacy.message_at i = Some m /\ truthy_str m = true
            /\ Legacy.messages !! Z.to_nat i = Some m.
Proof.
  intros Hi.
  assert (Hc : i = 0 \/ i = 1 \/ i = 2 \/ i = 3 \/ i = 4) by lia.
  destruct Hc as [->|[->|[->|[->| ->]]]];
    eexists; split_and!; reflexivity.
Qed.

(** X19. After every tick of a live ticker the text under the bar is
    the message whose index is the bar's share of the message list:
    the index never leaves the list (0..5 of six messages for the
    newer indicator, 0..4 of five for the older one), so the text is
    rewritten at every tick. *)
Theorem X19_progress_text_follows_the_bar (id : nat) (r p0 : Q) (w : World) :
  timers (host w) !! id = Some p0 ->
  (0 <= p0)%Q -> (0 <= r)%Q ->
  (let w' := tick id r w in
   let i := Qfloor (progressFill_width (doc w') / 100 * 6)%Q in
   0 <= i <= 5 /\ messages !! Z.to_nat i = Some (progressText (doc w')))
  /\ (let w' := Legacy.tick id r w in
      let i := Qfloor (progressFill_width (doc w') / 100 * 5)%Q in
      0 <= i <= 4
      /\ Legacy.messages !! Z.to_nat i = Some (progressText (doc w'))).
Proof.
  intros Hl Hp Hr.
  pose proof (next_progress_ge_5 p0 r Hp Hr) as H5.
  pose proof (next_progress_le_95 p0 r) as H95.
  split; cbv zeta.
  - pose proof (message_index_range _ 6 H5 H95 ltac:(lia)) as Hi.
    change (inject_Z 6) with 6%Q in Hi.
    destruct (message_at_defined _ Hi) as (m & Hm & Ht & Hlk).
    unfold tick. rewrite Hl. cbv zeta. rewrite Hm, Ht.
    destruct (Qle_bool 95 (next_progress p0 r));
      cbn [on_host on_doc doc progressFill_width set_progressFill_width
           progressText set_progressText];
      (split; [lia|exact Hlk]).
  - pose proof (message_index_range _ 5 H5 H95 ltac:(lia)) as Hi.
    change (inject_Z 5) with 5%Q in Hi.
    destruct (Legacy_message_at_defined _ Hi) as (m & Hm & Ht & Hlk).
    unfold Legacy.tick. rewrite Hl. cbv zeta. rewrite Hm, Ht.
    destruct (Qle_bool 95 (next_progress p0 r));
      cbn [on_host on_doc doc progressFill_width set_progressFill_width
           progressText set_progressText];
      (split; [lia|exact Hlk]).
Qed.

Lemma X19_witness :
  timers (host running_page) !! 1%nat = Some 0%Q
  /\ progressText (doc (tick 1 (1 # 2) running_page))
     = "Connecting to Angel One API...".
Proof.
  split; [reflexivity|].
  pose proof (proj1 (X19_progress_text_follows_the_bar 1 (1 # 2) 0 running_page
                       eq_refl ltac:(discriminate) ltac:(discriminate))) as H.
  cbv zeta in H. destruct H as [_ H].
  apply (inj Some). rewrite <- H. reflexivity.
Defined.

(** ** The period of the older controller *)

(** X20. The older controller resolves a preset by the index of its
    card: the cards 1 to 4 give the periods that the newer controller
    gives for 1, 3, 6 and 12 months, in every zone; the start is the
    UTC date of the local time moved back by 30, 90, 180 or 365 days
    (30 for any other index), which is the run instant minus that many
    days where the zone has the same offset at both ends; a preset
    period ends on the UTC date of the run instant, and a custom period
    hands over the two date fields as they are. *)
Theorem X20_older_period_by_card_index
    (tza : HostDate.Zone) (now : Z) (w : World) (card : option Z) :
  (isCustomPeriod (state w) = false ->
     Legacy.getEndDate now w = HostDate.isoDate now
     /\ Legacy.getEndDate now w = end_date (getDateRange tza now w)
     /\ (exists n,
           Legacy.getStartDate tza now card w
           = HostDate.isoDate
               (HostDate.UTC tza
                  (HostDate.LocalTime tza now - n * HostDate.msPerDay))
           /\ n ∈ [30; 90; 180; 365]
           /\ (card ∉ [Some 1; Some 2; Some 3; Some 4] -> n = 30)
           /\ (same_offset tza now n ->
               Legacy.getStartDate tza now card w
               = HostDate.isoDate (now - n * HostDate.msPerDay)))
     /\ (forall k m,
           (k, m) ∈ [(1, 1); (2, 3); (3, 6); (4, 12)] ->
           card = Some k ->
           selectedPeriodMonths (state w) = Some m ->
           Legacy.getStartDate tza now card w
           = start_date (getDateRange tza now w)))
  /\ (isCustomPeriod (state w) = true ->
      Legacy.getStartDate tza now card w = startDate (doc w)
      /\ Legacy.getEndDate now w = endDate (doc w)).
Proof.
  split; intros Hc.
  - rewrite (getDateRange_preset tza now w Hc). cbn [start_date end_date].
    rewrite (legacy_getStartDate_preset tza now card w Hc).
    unfold Legacy.getEndDate. rewrite Hc. split_and!; try reflexivity.
    + exists (Legacy.daysBack card). split; [reflexivity|].
      split_and!.
      * unfold Legacy.daysBack.
        destruct card as [[|p|p]|]; try set_solver.
        do 4 (try destruct p as [p|p|]); set_solver.
      * apply legacy_daysBack_unknown.
      * intros Hz. unfold same_offset in Hz. unfold HostDate.UTC.
        rewrite Hz. unfold HostDate.LocalTime. f_equal. lia.
    + intros k m Hkm -> ->.
      repeat (apply elem_of_cons in Hkm as [Hkm|Hkm];
              [injection Hkm as -> ->; reflexivity|]).
      now apply elem_of_nil in Hkm.
  - unfold Legacy.getStartDate, Legacy.getEndDate. rewrite Hc.
    split; reflexivity.
Qed.

(** ** A catalog that fails to load *)




(** ** The older submit check *)

(** X22. The older submit check is the weaker one: with a [parseFloat]
    that gives NaN on the empty string, every page that passes the
    newer check passes the older one, in custom mode and with any
    period card of a positive index. *)
Theorem X22_older_check_is_weaker
    (parseFloat : string -> num) (w : World) (card : Z) :
  parseFloat "" = NaN ->
  canSubmit parseFloat w = true ->
  0 < card ->
  Legacy.canSubmit w (Some card) = true.
Proof.
  intros Hnan H Hcard. unfold canSubmit in H. unfold Legacy.canSubmit.
  apply andb_true_iff in H as [H Hperiod].
  apply andb_true_iff in H as [H Hstop].
  apply andb_true_iff in H as [Hstocks Htarget].
  rewrite Hstocks.
  assert (Hfield : forall v, gt0 (parseFloat v) = true -> truthy_str v = true).
  { intros [|c v] Hv; [|reflexivity]. rewrite Hnan in Hv. discriminate. }
  rewrite (Hfield _ Htarget), (Hfield _ Hstop). cbn [andb].
  destruct (isCustomPeriod (state w)); [exact Hperiod|].
  now apply Z.ltb_lt.
Qed.

Lemma X22_witness :
  parseFloat_dec "" = NaN
  /\ Legacy.canSubmit
       (toggleStock parseFloat_dec "TCS" (booted parseFloat_dec "3.0" "2.0"))
       (Some 1) = true.
Proof.
  split; [reflexivity|].
  apply (X22_older_check_is_weaker parseFloat_dec); [reflexivity|reflexivity|lia].
Defined.
